(** * InvestIQ: the multi-agent scoring and decision pipeline

    A shallow embedding of the scorers in [src/src/*.py] and of the JSON
    normaliser of [src/app.py], followed by the properties stated for them.

    Numbers.  Where the source computes with them, Python's [float] and
    [int] values are embedded as exact rationals ([Q]): every finite float is
    a rational, the comparisons of the source are exact on them, and the
    arithmetic is read without rounding error.  Results are therefore
    compared with [==].  Where the source only compares or passes floats on
    (the risk bands, the JSON normaliser), they are [Py.pyfloat] values, which
    include NaN and the two infinities.  The two functions of the decision
    engine whose outcome the last bit of a float can change, [combine_scores]
    and [calculate_confidence], are also embedded on binary64 floats
    themselves ([combine_scores_binary64], [calculate_confidence_binary64]),
    with IEEE 754 arithmetic and comparisons and Python's correctly rounded
    [round].

    Dictionaries with string keys are [gmap string _] where they are looked
    up, records where the keys are fixed by the source, and association lists
    inside [Py.pyobj], the values handed to the JSON normaliser; Python sets
    are [gset]. *)

From stdpp Require Import gmap strings pretty.
From Stdlib Require Import QArith Qabs Qround Qminmax Lqa Lia.
From Stdlib Require Import PrimFloat.
From Stdlib Require SpecFloat FloatOps FloatAxioms Uint63.

#[local] Set Warnings "-clear-no-such-hyp,-inexact-float,-register-all".

Open Scope Q_scope.
Open Scope string_scope.

(* ================================================================== *)
(** * Python built-ins used by the source *)
(* ================================================================== *)

Module Py.

(** Comparisons of numbers, as booleans. *)
Definition le (x y : Q) : bool := Qle_bool x y.
Definition lt (x y : Q) : bool := negb (Qle_bool y x).
Definition ge (x y : Q) : bool := Qle_bool y x.
Definition gt (x y : Q) : bool := negb (Qle_bool x y).
Definition eq (x y : Q) : bool := Qeq_bool x y.

(** [max(a, b)] keeps its first argument unless the second is greater;
    [min(a, b)] keeps its first argument unless the second is smaller. *)
Definition max (a b : Q) : Q := if gt b a then b else a.
Definition min (a b : Q) : Q := if lt b a then b else a.

(** [max(xs)] and [min(xs)] of a list raise [ValueError] on an empty
    list: [None]. *)
Definition max_list (xs : list Q) : option Q :=
  match xs with
  | [] => None
  | x :: rest => Some (fold_left max rest x)
  end.

Definition min_list (xs : list Q) : option Q :=
  match xs with
  | [] => None
  | x :: rest => Some (fold_left min rest x)
  end.

(** Rounding to the nearest integer, ties to the even one. *)
Definition round_half_even (x : Q) : Z :=
  let f := Qfloor x in
  let d := x - inject_Z f in
  if lt d 0.5 then f
  else if gt d 0.5 then (f + 1)%Z
  else if Z.even f then f else (f + 1)%Z.

(** [round(x, 2)]. *)
Definition round2 (x : Q) : Q := inject_Z (round_half_even (x * 100)) / 100.

(** The same on binary64 floats.  [max] replaces its candidate when the next
    item is greater than it, [min] when the next item is less than it; both
    comparisons are false when either side is NaN. *)
Definition max_binary64 (a b : float) : float :=
  if (a <? b)%float then b else a.
Definition min_binary64 (a b : float) : float :=
  if (b <? a)%float then b else a.

Definition max_list_binary64 (xs : list float) : option float :=
  match xs with
  | [] => None
  | x :: rest => Some (fold_left max_binary64 rest x)
  end.

Definition min_list_binary64 (xs : list float) : option float :=
  match xs with
  | [] => None
  | x :: rest => Some (fold_left min_binary64 rest x)
  end.



(** [sub in s] on strings: [sub] occurs in [s] as a contiguous substring. *)
Fixpoint contains (sub s : string) : bool :=
  if String.prefix sub s then true
  else match s with
       | EmptyString => false
       | String _ s' => contains sub s'
       end.

(** [sum(1 for b in xs if sub in b)]. *)
Definition count_containing (sub : string) (xs : list string) : nat :=
  length (List.filter (contains sub) xs).

(** A float that may be non-finite.  Every comparison with [NaN] is
    false. *)
Inductive pyfloat :=
| Finite (q : Q)
| PosInf
| NegInf
| NaN.

Definition fgt (x y : pyfloat) : bool :=
  match x, y with
  | NaN, _ | _, NaN => false
  | Finite a, Finite b => gt a b
  | PosInf, PosInf => false
  | PosInf, _ => true
  | Finite _, NegInf => true
  | _, _ => false
  end.

Definition flt (x y : pyfloat) : bool := fgt y x.

Definition fabs (x : pyfloat) : pyfloat :=
  match x with
  | Finite q => Finite (Qabs q)
  | PosInf | NegInf => PosInf
  | NaN => NaN
  end.

Definition is_nan (x : pyfloat) : bool :=
  match x with NaN => true | _ => false end.

Definition is_inf (x : pyfloat) : bool :=
  match x with PosInf | NegInf => true | _ => false end.

(** The values that travel through the analysis results and the JSON
    normaliser: Python scalars and containers, NumPy scalars and arrays,
    pandas series, frames and (valid) timestamps.  A dictionary keeps its
    insertion order. *)
Inductive pyobj :=
| PyNone
| PyBool (b : bool)
| PyInt (z : Z)
| PyFloat (x : pyfloat)
| PyStr (s : string)
| PyList (xs : list pyobj)
| PyTuple (xs : list pyobj)
| PyDict (items : list (string * pyobj))
| NpInt (z : Z)
| NpFloat (x : pyfloat)
| NpBool (b : bool)
| NpArray (xs : list pyfloat)   (* a one-dimensional float array *)
| PdSeries (xs : list pyfloat)
| PdDataFrame (rows : list (list (string * pyfloat)))
| PdTimestamp (iso : string).

(** [d.get(key)] on a dictionary; [None] also when [d] is no dictionary. *)
Fixpoint assoc (key : string) (items : list (string * pyobj)) : option pyobj :=
  match items with
  | [] => None
  | (k, v) :: rest => if String.eqb k key then Some v else assoc key rest
  end.

Definition get (key : string) (d : pyobj) : option pyobj :=
  match d with
  | PyDict items => assoc key items
  | _ => None
  end.

(** [d[k1][k2]...]; [None] when a key is missing on the way. *)
Fixpoint get_path (keys : list string) (d : pyobj) : option pyobj :=
  match keys with
  | [] => Some d
  | key :: rest =>
      match get key d with
      | Some value => get_path rest value
      | None => None
      end
  end.

(** The result of a call that may raise. *)
Inductive outcome (A : Type) :=
| Returned (a : A)
| Raised (exc : string).
Arguments Returned {A} a.
Arguments Raised {A} exc.

Definition bind {A B} (m : outcome A) (k : A -> outcome B) : outcome B :=
  match m with
  | Returned a => k a
  | Raised e => Raised e
  end.

(** One row of a price history and the frame [ticker.history] returns. *)
Record bar := { Open : Q; High : Q; Low : Q; Close : Q; Volume : Q }.
Definition DataFrame := list bar.

(** [df.empty]. *)
Definition empty (df : DataFrame) : bool :=
  match df with [] => true | _ => false end.

(** [df.tail(n)]: the last [n] rows. *)
Definition tail {A} (n : nat) (xs : list A) : list A :=
  skipn (length xs - n) xs.

(** [series.pct_change().dropna()]: the relative change of each value
    with respect to the one before it; the first row has none and is
    dropped.  Prices are taken to be non-zero. *)
Fixpoint pct_change (xs : list Q) : list Q :=
  match xs with
  | a :: (b :: _) as rest => (b / a - 1) :: pct_change rest
  | _ => []
  end.

(** [series.mean()] of a non-empty series. *)
Definition mean (xs : list Q) : Q :=
  fold_left Qplus xs 0 / inject_Z (Z.of_nat (length xs)).

(** [series.iloc[-1]]: the last element; [IndexError] on an empty series. *)
Definition iloc_last {A} (xs : list A) : outcome A :=
  match List.rev xs with
  | [] => Raised "IndexError"
  | x :: _ => Returned x
  end.

(** [xs[:-n]]: all but the last [n] elements. *)
Definition drop_last {A} (n : nat) (xs : list A) : list A :=
  firstn (length xs - n) xs.

(** [series.rolling(window).mean()]: at each row the mean of the last
    [window] values, NaN while fewer than [window] rows are available (and
    for an empty window).  The mean is the exact one; the float pandas
    computes can differ from it in the last digits. *)
Definition rolling_mean (window : nat) (xs : list Q) : list pyfloat :=
  map (fun i =>
         if ((1 <=? window) && (window <=? i + 1))%nat
         then Finite (mean (firstn window (skipn (i + 1 - window) xs)))
         else NaN)
      (seq 0 (length xs)).

(** [series.ewm(span=span, adjust=False).mean()]: the first value is the
    first observation, each later one is
    [(1 - alpha) * previous + alpha * observation] with
    [alpha = 2 / (span + 1)]. *)
Fixpoint ewm_from (alpha previous : Q) (xs : list Q) : list Q :=
  match xs with
  | [] => []
  | x :: rest =>
      let y := (1 - alpha) * previous + alpha * x in
      y :: ewm_from alpha y rest
  end.

Definition ewm_mean (span : nat) (xs : list Q) : list Q :=
  let alpha := 2 / (inject_Z (Z.of_nat span) + 1) in
  match xs with
  | [] => []
  | x :: rest => x :: ewm_from alpha x rest
  end.

(** [a - b] on two series of the same index. *)
Fixpoint series_sub (a b : list Q) : list Q :=
  match a, b with
  | x :: a', y :: b' => (x - y) :: series_sub a' b'
  | _, _ => []
  end.

(** Float arithmetic with its non-finite values.  A zero is taken as
    +0.0: a positive number divided by zero is +inf, and 0/0 is NaN. *)
Definition fneg (x : pyfloat) : pyfloat :=
  match x with
  | Finite q => Finite (- q)
  | PosInf => NegInf
  | NegInf => PosInf
  | NaN => NaN
  end.

Definition fadd (x y : pyfloat) : pyfloat :=
  match x, y with
  | NaN, _ | _, NaN => NaN
  | Finite a, Finite b => Finite (a + b)
  | PosInf, NegInf | NegInf, PosInf => NaN
  | PosInf, _ | _, PosInf => PosInf
  | NegInf, _ | _, NegInf => NegInf
  end.

Definition fsub (x y : pyfloat) : pyfloat := fadd x (fneg y).

Definition fmul (x y : pyfloat) : pyfloat :=
  match x, y with
  | NaN, _ | _, NaN => NaN
  | Finite a, Finite b => Finite (a * b)
  | Finite a, inf | inf, Finite a =>
      if eq a 0 then NaN else if gt a 0 then inf else fneg inf
  | PosInf, PosInf | NegInf, NegInf => PosInf
  | PosInf, NegInf | NegInf, PosInf => NegInf
  end.

Definition fdiv (x y : pyfloat) : pyfloat :=
  match x, y with
  | NaN, _ | _, NaN => NaN
  | Finite a, Finite b =>
      if eq b 0 then
        if gt a 0 then PosInf else if lt a 0 then NegInf else NaN
      else Finite (a / b)
  | Finite _, _ => Finite 0
  | inf, Finite b => if lt b 0 then fneg inf else inf
  | _, _ => NaN
  end.

(** [x >= y] and [x <= y]: false as soon as one side is NaN. *)
Definition fge (x y : pyfloat) : bool :=
  match x, y with
  | NaN, _ | _, NaN => false
  | _, _ => negb (fgt y x)
  end.

Definition fle (x y : pyfloat) : bool := fge y x.

(** [max(a, b)], [min(a, b)] and [round(x, 2)] on floats: a NaN second
    argument never replaces the first, and a non-finite number rounds to
    itself. *)
Definition fmax (a b : pyfloat) : pyfloat := if fgt b a then b else a.
Definition fmin (a b : pyfloat) : pyfloat := if flt b a then b else a.

Definition fround2 (x : pyfloat) : pyfloat :=
  match x with
  | Finite q => Finite (round2 q)
  | _ => x
  end.

(** [series.diff()]: the change from the row before; the first row has
    none ([None] stands for its NaN). *)
Fixpoint diff_from (previous : Q) (xs : list Q) : list (option Q) :=
  match xs with
  | [] => []
  | x :: rest => Some (x - previous) :: diff_from x rest
  end.

Definition diff (xs : list Q) : list (option Q) :=
  match xs with
  | [] => []
  | x :: rest => None :: diff_from x rest
  end.

(** [delta.where(cond, 0)]: the values that satisfy [cond], and 0 in the
    other rows; a NaN satisfies no comparison. *)
Definition where_or_zero (cond : Q -> bool) (delta : list (option Q)) : list Q :=
  map (fun d => match d with
                | Some q => if cond q then q else 0
                | None => 0
                end) delta.

(** [series.rolling(window).max()] and [.min()]: NaN while fewer than
    [window] rows are available. *)
Definition rolling_extreme (extreme : list Q -> option Q) (window : nat)
    (xs : list Q) : list pyfloat :=
  map (fun i =>
         if ((1 <=? window) && (window <=? i + 1))%nat
         then match extreme (firstn window (skipn (i + 1 - window) xs)) with
              | Some m => Finite m
              | None => NaN
              end
         else NaN)
      (seq 0 (length xs)).

Definition rolling_max := rolling_extreme max_list.
Definition rolling_min := rolling_extreme min_list.

End Py.

Declare Scope py_scope.
Delimit Scope py_scope with py.
Infix "<=?" := Py.le (at level 70) : py_scope.
Infix "<?" := Py.lt (at level 70) : py_scope.
Infix ">=?" := Py.ge (at level 70) : py_scope.
Infix ">?" := Py.gt (at level 70) : py_scope.
Infix "=?" := Py.eq (at level 70) : py_scope.
Open Scope py_scope.

(* ================================================================== *)
(** * src/src/decision_engine.py *)
(* ================================================================== *)

Module DecisionEngine.

(** [self.weights] of [__init__]: a dictionary with four fixed keys. *)
Record weights_t := {
  w_fundamental : Q;
  w_sentiment : Q;
  w_technical : Q;
  w_risk : Q
}.

Definition weights : weights_t := {|
  w_fundamental := 0.30;
  w_sentiment := 0.20;
  w_technical := 0.30;
  w_risk := 0.20
|}.

Definition risk_mapping : gmap string Q :=
  {[ "Very Low" := 100; "Low" := 80; "Moderate" := 60;
     "High" := 40; "Very High" := 20; "Unknown" := 50 ]}.

Definition normalize_risk_score (risk_level : string) : Q :=
  default 50 (risk_mapping !! risk_level).

(** On exact rationals: the weighted sum is taken without rounding error.
    [combine_scores_binary64] below is the same function on floats. *)
Definition combine_scores
    (fundamental_score sentiment_score technical_score risk_score : Q) : Q :=
  let weighted_sum :=
    fundamental_score * w_fundamental weights +
    sentiment_score * w_sentiment weights +
    technical_score * w_technical weights +
    risk_score * w_risk weights in
  Py.round2 weighted_sum.




(** Returns the pair (recommendation, reason). *)
Definition resolve_conflicts (biases : list string) (risk_level : string)
    : string * string :=
  let bullish_count := Py.count_containing "Bullish" biases in
  let bearish_count := Py.count_containing "Bearish" biases in
  let neutral_count := Py.count_containing "Neutral" biases in
  if bool_decide (risk_level ∈ ["High"; "Very High"]) then
    if (2 <=? bullish_count)%nat then
      ("Hold", "Strong fundamentals and sentiment, but elevated risk suggests caution")
    else if (2 <=? bearish_count)%nat then
      ("Avoid", "Negative signals combined with high risk")
    else
      ("Hold", "Mixed signals with high risk - wait for better entry")
  else if (3 <=? bullish_count)%nat then
    ("Buy", "Strong bullish consensus across multiple indicators")
  else if (bullish_count =? 2)%nat && (1 <=? neutral_count)%nat then
    ("Buy", "Mostly positive signals with some neutral indicators")
  else if (3 <=? bearish_count)%nat then
    ("Sell", "Strong bearish consensus")
  else if (bearish_count =? 2)%nat && (1 <=? neutral_count)%nat then
    ("Sell", "Mostly negative signals")
  else if (bullish_count =? 2)%nat && (bearish_count =? 1)%nat then
    ("Hold", "Mixed signals - bullish technical/fundamental but bearish sentiment")
  else if (bearish_count =? 2)%nat && (bullish_count =? 1)%nat then
    ("Hold", "Mixed signals - caution advised")
  else
    ("Hold", "Neutral or mixed signals - wait for clearer direction").

Definition determine_recommendation
    (combined_score : Q) (biases : list string) (risk_level : string)
    : string * string :=
  let '(conflict_recommendation, conflict_reason) :=
    resolve_conflicts biases risk_level in
  if combined_score >=? 70 then
    if String.eqb conflict_recommendation "Sell" then ("Hold", conflict_reason)
    else ("Buy", "Strong overall score supports bullish position")
  else if combined_score >=? 55 then
    if String.eqb conflict_recommendation "Sell" then ("Hold", conflict_reason)
    else (conflict_recommendation, conflict_reason)
  else if combined_score >=? 45 then
    ("Hold", "Moderate score suggests waiting for better entry/exit")
  else if combined_score >=? 30 then
    if String.eqb conflict_recommendation "Buy" then
      ("Hold", "Low score but some positive signals - caution advised")
    else ("Sell", "Weak overall score with negative signals")
  else
    ("Sell", "Very weak overall score").

(** The confidence is an integer; [round(confidence, 2)] of an integer is
    that integer.  [None] stands for the [ValueError] that [max(scores)]
    raises on an empty list.  Here the scores are exact rationals and so is
    their spread; [calculate_confidence_binary64] below takes them as
    floats. *)
Definition calculate_confidence (scores : list Q) (biases : list string)
    : option Z :=
  let unique_biases : gset string := list_to_set biases in
  let confidence : Z :=
    if (size unique_biases =? 1)%nat then 85%Z
    else if (size unique_biases =? 2)%nat then 65%Z
    else 45%Z in
  hi ← Py.max_list scores;
  lo ← Py.min_list scores;
  let score_range := hi - lo in
  let confidence :=
    if score_range <? 20 then (confidence + 10)%Z
    else if score_range >? 40 then (confidence - 10)%Z
    else confidence in
  let confidence := Z.max 30 (Z.min 95 confidence) in
  Some confidence.

(** [calculate_confidence] on binary64 floats: the spread is the rounded
    difference of the largest and the smallest score, and the two tests
    compare that float with 20 and 40.  (An [int] among the scores, such as
    the score of a risk level, compares and subtracts as the float of the
    same value.) *)
Definition calculate_confidence_binary64
    (scores : list float) (biases : list string) : option Z :=
  let unique_biases : gset string := list_to_set biases in
  let confidence : Z :=
    if (size unique_biases =? 1)%nat then 85%Z
    else if (size unique_biases =? 2)%nat then 65%Z
    else 45%Z in
  hi ← Py.max_list_binary64 scores;
  lo ← Py.min_list_binary64 scores;
  let score_range := (hi - lo)%float in
  let confidence :=
    if (score_range <? 20)%float then (confidence + 10)%Z
    else if (40 <? score_range)%float then (confidence - 10)%Z
    else confidence in
  let confidence := Z.max 30 (Z.min 95 confidence) in
  Some confidence.

(** What [analyze] reads of an analyst's result, its score and its bias, and
    of the risk manager's, its risk level; each with the result itself, which
    is copied into [detailed_analysis]. *)
Record analyst_result := {
  score : Q;
  bias : string;
  analysis : Py.pyobj
}.

Record risk_result := {
  risk_level : string;
  risk_details : Py.pyobj
}.

(** One entry per agent. *)
Record per_agent (A : Type) := {
  of_fundamental : A;
  of_sentiment : A;
  of_technical : A;
  of_risk : A
}.
Arguments of_fundamental {A} _.
Arguments of_sentiment {A} _.
Arguments of_technical {A} _.
Arguments of_risk {A} _.

(** The dictionary [analyze] returns. *)
Record decision_t := {
  dec_symbol : string;
  dec_recommendation : string;
  dec_confidence : Z;
  dec_combined_score : Q;
  dec_reason : string;
  dec_agent_scores : per_agent Q;
  dec_agent_biases : per_agent string;
  dec_detailed_analysis : per_agent Py.pyobj
}.

Section Agents.

(** The [analyze] methods of the four agents; what they print is left
    out. *)
Variable fundamental_analyze : string -> Py.outcome analyst_result.
Variable sentiment_analyze : string -> Py.outcome analyst_result.
Variable technical_analyze : string -> Py.outcome analyst_result.
Variable risk_analyze : string -> Py.outcome risk_result.

(** The scores are exact rationals, combined by [combine_scores] and compared
    by [calculate_confidence]: a combination whose float value falls just
    short of a threshold that its exact value meets is read here as meeting
    it. *)
Definition analyze (symbol : string) : Py.outcome decision_t :=
  Py.bind (fundamental_analyze symbol) (fun fundamental_analysis =>
  Py.bind (sentiment_analyze symbol) (fun sentiment_analysis =>
  Py.bind (technical_analyze symbol) (fun technical_analysis =>
  Py.bind (risk_analyze symbol) (fun risk_analysis =>
  let fundamental_score := score fundamental_analysis in
  let sentiment_score := score sentiment_analysis in
  let technical_score := score technical_analysis in
  let risk_score := normalize_risk_score (risk_level risk_analysis) in
  let scores := [fundamental_score; sentiment_score; technical_score; risk_score] in
  let biases :=
    [bias fundamental_analysis; bias sentiment_analysis; bias technical_analysis] in
  let combined_score :=
    combine_scores fundamental_score sentiment_score technical_score risk_score in
  let '(recommendation, reason) :=
    determine_recommendation combined_score biases (risk_level risk_analysis) in
  match calculate_confidence scores biases with
  | None => Py.Raised "ValueError"
  | Some confidence =>
      Py.Returned
        {| dec_symbol := symbol;
           dec_recommendation := recommendation;
           dec_confidence := confidence;
           dec_combined_score := combined_score;
           dec_reason := reason;
           dec_agent_scores :=
             {| of_fundamental := fundamental_score;
                of_sentiment := sentiment_score;
                of_technical := technical_score;
                of_risk := risk_score |};
           dec_agent_biases :=
             {| of_fundamental := bias fundamental_analysis;
                of_sentiment := bias sentiment_analysis;
                of_technical := bias technical_analysis;
                of_risk := risk_level risk_analysis |};
           dec_detailed_analysis :=
             {| of_fundamental := analysis fundamental_analysis;
                of_sentiment := analysis sentiment_analysis;
                of_technical := analysis technical_analysis;
                of_risk := risk_details risk_analysis |} |}
  end)))).

End Agents.

End DecisionEngine.

(* ================================================================== *)
(** * src/src/fundamental_analyst.py *)
(* ================================================================== *)

Module FundamentalAnalyst.

Definition weights : gmap string Q :=
  {[ "revenue_growth" := 0.25; "profit_margin" := 0.25; "pe_ratio" := 0.20;
     "debt_to_equity" := 0.15; "roe" := 0.15 ]}.

(** The optional [industry_avg] argument is never passed nor read. *)
Definition normalize_score (value : Q) (metric_type : string) : Q :=
  if String.eqb metric_type "revenue_growth" then
    if value >? 20 then 100
    else if value >? 10 then 70 + (value - 10) * 3
    else if value >? 0 then 50 + value * 2
    else Py.max 0 (50 + value * 2)
  else if String.eqb metric_type "profit_margin" then
    if value >? 20 then 100
    else if value >? 10 then 70 + (value - 10) * 3
    else if value >? 5 then 50 + (value - 5) * 4
    else Py.max 0 (value * 10)
  else if String.eqb metric_type "pe_ratio" then
    if (15 <=? value) && (value <=? 25) then 100
    else if (10 <=? value) && (value <? 15) || (25 <? value) && (value <=? 30) then 80
    else if (5 <=? value) && (value <? 10) || (30 <? value) && (value <=? 40) then 60
    else if (value <? 5) || (40 <? value) && (value <=? 60) then 40
    else 20
  else if String.eqb metric_type "debt_to_equity" then
    if value <? 0.3 then 100
    else if value <? 0.5 then 85
    else if value <? 1.0 then 70
    else if value <? 2.0 then 50
    else Py.max 0 (100 - value * 20)
  else if String.eqb metric_type "roe" then
    if value >? 20 then 100
    else if value >? 15 then 80 + (value - 15) * 4
    else if value >? 10 then 60 + (value - 10) * 4
    else Py.max 0 (value * 6)
  else 50.

(** One turn of the loop over [metrics.items()]: the state is the pair
    ([scores], [weighted_sum]). *)
Definition score_step (st : gmap string Q * Q) (item : string * Q)
    : gmap string Q * Q :=
  let '(scores, weighted_sum) := st in
  let '(metric, value) := item in
  match weights !! metric with
  | Some w =>
      let normalized := normalize_score value metric in
      (<[metric := normalized]> scores, weighted_sum + normalized * w)
  | None => (scores, weighted_sum)
  end.

(** [metrics] is [None] when the fetch failed.  Returns the pair
    ([total_score], [scores]). *)
Definition calculate_fundamental_score (metrics : option (gmap string Q))
    : Q * gmap string Q :=
  match metrics with
  | None => (0, ∅)
  | Some metrics =>
      if bool_decide (metrics = ∅) then (0, ∅)
      else
        let '(scores, weighted_sum) :=
          fold_left score_step (map_to_list metrics) (∅, 0) in
        let total_score := Py.round2 weighted_sum in
        (total_score, scores)
  end.

Definition determine_bias (score : Q) : string :=
  if score >=? 75 then "Bullish"
  else if score >=? 60 then "Slightly Bullish"
  else if score >=? 45 then "Neutral"
  else if score >=? 30 then "Slightly Bearish"
  else "Bearish".

(** The [info] argument is never read.  The metrics are finite numbers; a
    NaN metric, which loses every comparison, is not represented. *)
Definition generate_insights (metrics : option (gmap string Q)) : list string :=
  match metrics with
  | None => []
  | Some metrics =>
      if bool_decide (metrics = ∅) then []
      else
        let insights : list string := [] in
        let revenue_growth := default 0 (metrics !! "revenue_growth") in
        let insights :=
          if revenue_growth >? 15 then (insights ++ ["Strong revenue growth"])%list
          else if revenue_growth >? 5 then (insights ++ ["Moderate revenue growth"])%list
          else if revenue_growth <? 0 then (insights ++ ["Declining revenue"])%list
          else insights in
        let debt_to_equity := default 0 (metrics !! "debt_to_equity") in
        let insights :=
          if debt_to_equity <? 0.5 then (insights ++ ["Low debt"])%list
          else if debt_to_equity <? 1.0 then (insights ++ ["Moderate debt"])%list
          else (insights ++ ["High debt"])%list in
        let pe_ratio := default 0 (metrics !! "pe_ratio") in
        let insights :=
          if pe_ratio >? 30 then (insights ++ ["Overvalued P/E"])%list
          else if pe_ratio <? 15 then (insights ++ ["Undervalued P/E"])%list
          else (insights ++ ["Fair P/E valuation"])%list in
        insights
  end.

(** The dictionary [analyze] returns; [fa_normalized_scores] is [None] when
    the key is absent. *)
Record analysis_t := {
  fa_score : Q;
  fa_bias : string;
  fa_insights : list string;
  fa_metrics : gmap string Q;
  fa_normalized_scores : option (gmap string Q)
}.

Section Analyze.

(** The metrics half of [fetch_financial_metrics]: [None] when the fetch
    raised. *)
Variable fetch_financial_metrics : string -> option (gmap string Q).

Definition analyze (symbol : string) : analysis_t :=
  let metrics := fetch_financial_metrics symbol in
  let unavailable :=
    {| fa_score := 0;
       fa_bias := "Unknown";
       fa_insights := ["Unable to fetch financial data"];
       fa_metrics := ∅;
       fa_normalized_scores := None |} in
  match metrics with
  | None => unavailable
  | Some m =>
      if bool_decide (m = ∅) then unavailable
      else
        let '(score, normalized_scores) := calculate_fundamental_score metrics in
        let bias := determine_bias score in
        let insights := generate_insights metrics in
        {| fa_score := score;
           fa_bias := bias;
           fa_insights := insights;
           fa_metrics := m;
           fa_normalized_scores := Some normalized_scores |}
  end.

End Analyze.

End FundamentalAnalyst.

(* ================================================================== *)
(** * src/src/sentiment_analyst.py *)
(* ================================================================== *)

Module SentimentAnalyst.

(** On exact rationals: the score is rounded from the exact value of
    50 + 50 p, which can differ in the last hundredth from the rounding of the
    float the source computes. *)
Definition calculate_sentiment_score (average_sentiment : Q) : Q :=
  let score := 50 + (average_sentiment * 50) in
  Py.max 0 (Py.min 100 (Py.round2 score)).

Definition classify_sentiment (polarity : Q) : string :=
  if polarity >? 0.1 then "Positive"
  else if polarity <? -0.1 then "Negative"
  else "Neutral".

Definition determine_bias (average_sentiment : Q) : string :=
  if average_sentiment >? 0.3 then "Bullish"
  else if average_sentiment >? 0.1 then "Slightly Bullish"
  else if average_sentiment >? -0.1 then "Neutral"
  else if average_sentiment >? -0.3 then "Slightly Bearish"
  else "Bearish".

(** A news item as [fetch_news] builds it; the date is a point of local
    time, in microseconds.  [ni_summary] is [None] when the key is absent. *)
Record news_item := {
  ni_title : string;
  ni_summary : option string;
  ni_date : Z;
  ni_publisher : string
}.

(** An entry of [sentiment_trend]. *)
Record trend_entry := {
  te_date : Z;
  te_sentiment : Q;
  te_title : string
}.

(** The dictionary [calculate_sentiment_metrics] returns. *)
Record metrics_t := {
  average_sentiment : Q;
  positive_count : Z;
  negative_count : Z;
  neutral_count : Z;
  total_count : Z;
  positive_percentage : Q;
  sentiment_trend : list trend_entry
}.

(** What [detect_sentiment_spike] returns besides [None]. *)
Inductive spike_t :=
| SpikeDetected (direction : string) (magnitude : Q) (recent_news : option string)
| NoSpike.

(** [sorted(trend, key=lambda x: x['date'])]: ascending, entries of equal
    date in their original order. *)
Fixpoint insert_by_date (x : trend_entry) (sorted : list trend_entry)
    : list trend_entry :=
  match sorted with
  | [] => [x]
  | y :: rest =>
      if (te_date x <=? te_date y)%Z then x :: y :: rest
      else y :: insert_by_date x rest
  end.

Fixpoint sorted_by_date (trend : list trend_entry) : list trend_entry :=
  match trend with
  | [] => []
  | x :: rest => insert_by_date x (sorted_by_date rest)
  end.

(** The change of the averages is the exact one: a float change within a
    few last digits of the threshold 0.3 may fall on its other side. *)
Definition detect_sentiment_spike (sentiment_trend : list trend_entry)
    : option spike_t :=
  if (length sentiment_trend <? 2)%nat then None
  else
    let sorted_trend := sorted_by_date sentiment_trend in
    let recent_sentiments := map te_sentiment (Py.tail 5 sorted_trend) in
    if (length recent_sentiments <? 2)%nat then None
    else
      let recent_avg := Py.mean (Py.tail 3 recent_sentiments) in
      let previous_avg :=
        if (3 <? length recent_sentiments)%nat
        then Py.mean (Py.drop_last 3 recent_sentiments)
        else List.hd 0 recent_sentiments in
      let change := recent_avg - previous_avg in
      if Qabs change >? 0.3 then
        Some (SpikeDetected
                (if change >? 0 then "positive" else "negative")
                (Qabs change)
                (match List.rev sorted_trend with
                 | last :: _ => Some (te_title last)
                 | [] => None
                 end))
      else Some NoSpike.

Section Polarity.

(** [TextBlob(text).sentiment.polarity]. *)
Variable blob_polarity : string -> Q.

Definition analyze_sentiment (text : string) : Q :=
  if String.eqb text "" then 0.0 else blob_polarity text.

(** One turn of the loop over [news_items]. *)
Definition sentiment_of_item (item : news_item) : Q * trend_entry :=
  let text := ni_title item +:+ " " +:+ default "" (ni_summary item) in
  let polarity := analyze_sentiment text in
  (polarity,
   {| te_date := ni_date item;
      te_sentiment := polarity;
      te_title := String.substring 0 50 (ni_title item) |}).

(** The average is the exact mean of the polarities. *)
Definition calculate_sentiment_metrics (news_items : list news_item) : metrics_t :=
  match news_items with
  | [] =>
      {| average_sentiment := 0.0;
         positive_count := 0;
         negative_count := 0;
         neutral_count := 0;
         total_count := 0;
         positive_percentage := 0.0;
         sentiment_trend := [] |}
  | _ =>
      let sentiments := map (fun item => (sentiment_of_item item).1) news_items in
      let sentiment_trend := map (fun item => (sentiment_of_item item).2) news_items in
      let average_sentiment := Py.mean sentiments in
      let positive_count :=
        Z.of_nat (length (List.filter (fun p => p >? 0.1) sentiments)) in
      let negative_count :=
        Z.of_nat (length (List.filter (fun p => p <? -0.1) sentiments)) in
      let neutral_count :=
        (Z.of_nat (length sentiments) - positive_count - negative_count)%Z in
      let total_count := Z.of_nat (length sentiments) in
      let positive_percentage :=
        if (0 <? total_count)%Z
        then inject_Z positive_count / inject_Z total_count * 100
        else 0 in
      {| average_sentiment := average_sentiment;
         positive_count := positive_count;
         negative_count := negative_count;
         neutral_count := neutral_count;
         total_count := total_count;
         positive_percentage := Py.round2 positive_percentage;
         sentiment_trend := sentiment_trend |}
  end.

End Polarity.

(** An article of [ticker.news]; a field is [None] when its key is
    absent. *)
Record article := {
  art_title : option string;
  art_summary : option string;
  art_providerPublishTime : option Z;
  art_publisher : option string
}.

(** The dictionary [analyze] returns; [sa_metrics] is absent from the one
    for no news. *)
Record analysis_t := {
  sa_score : Q;
  sa_bias : string;
  sa_average_sentiment : Q;
  sa_positive_percentage : Q;
  sa_total_articles : Z;
  sa_spike : option spike_t;
  sa_insights : list string;
  sa_metrics : option metrics_t
}.

Section News.

(** [yf.Ticker(symbol).news], which may raise and may be [None];
    [datetime.now() - timedelta(days=days)] and [datetime.fromtimestamp(t)]
    as local time in microseconds, each raising on a value out of the range
    of dates; TextBlob's polarity; and the text an f-string gives for a
    float. *)
Variable ticker_news : string -> Py.outcome (option (list article)).
Variable cutoff : Z -> Py.outcome Z.
Variable fromtimestamp : Z -> Py.outcome Z.
Variable blob_polarity : string -> Q.
Variable format_float : Q -> string.

(** The loop over the articles: the first exception ends it. *)
Fixpoint filter_news (cutoff_date : Z) (filtered_news : list news_item)
    (news : list article) : Py.outcome (list news_item) :=
  match news with
  | [] => Py.Returned filtered_news
  | article :: rest =>
      Py.bind (fromtimestamp (default 0%Z (art_providerPublishTime article)))
              (fun pub_date =>
      if (cutoff_date <=? pub_date)%Z then
        filter_news cutoff_date
          (filtered_news ++
             [{| ni_title := default "" (art_title article);
                 ni_summary := Some (default "" (art_summary article));
                 ni_date := pub_date;
                 ni_publisher := default "" (art_publisher article) |}])%list
          rest
      else filter_news cutoff_date filtered_news rest)
  end.

Definition fetch_news (symbol : string) (days : Z) : list news_item :=
  match ticker_news symbol with
  | Py.Raised _ => []
  | Py.Returned None | Py.Returned (Some []) => []
  | Py.Returned (Some news) =>
      match Py.bind (cutoff days) (fun cutoff_date =>
              filter_news cutoff_date [] news) with
      | Py.Raised _ => []
      | Py.Returned filtered_news => firstn 20 filtered_news
      end
  end.

Definition analyze (symbol : string) (days : Z) : analysis_t :=
  let news_items := fetch_news symbol days in
  match news_items with
  | [] =>
      {| sa_score := 50.0;
         sa_bias := "Neutral";
         sa_average_sentiment := 0.0;
         sa_positive_percentage := 0.0;
         sa_total_articles := 0;
         sa_spike := None;
         sa_insights := ["No recent news available"];
         sa_metrics := None |}
  | _ =>
      let metrics := calculate_sentiment_metrics blob_polarity news_items in
      let spike := detect_sentiment_spike (sentiment_trend metrics) in
      let score := calculate_sentiment_score (average_sentiment metrics) in
      let bias := determine_bias (average_sentiment metrics) in
      let insights :=
        [format_float (positive_percentage metrics) +:+ "% positive mentions"] in
      let insights :=
        match spike with
        | Some (SpikeDetected direction _ recent_news) =>
            let news_text :=
              match recent_news with Some title => title | None => "None" end in
            if String.eqb direction "positive" then
              (insights ++ ["Sudden positive spike after: " +:+ news_text])%list
            else
              (insights ++ ["Sudden negative spike after: " +:+ news_text])%list
        | _ => insights
        end in
      {| sa_score := score;
         sa_bias := bias;
         sa_average_sentiment := average_sentiment metrics;
         sa_positive_percentage := positive_percentage metrics;
         sa_total_articles := total_count metrics;
         sa_spike := spike;
         sa_insights := insights;
         sa_metrics := Some metrics |}
  end.

End News.

End SentimentAnalyst.

(* ================================================================== *)
(** * src/src/technical_analyst.py *)
(* ================================================================== *)

Module TechnicalAnalyst.

(** The [indicators] dictionary read by [calculate_technical_score]; an
    absent key is [None]. *)
Record indicators_t := {
  ind_rsi : option Q;
  ind_trend : option string;
  ind_macd_histogram : option Q;
  ind_price_position : option Q
}.

Definition calculate_technical_score (indicators : indicators_t) : Q :=
  let score : Q := 50 in
  let rsi := default 50 (ind_rsi indicators) in
  let score :=
    if (30 <=? rsi) && (rsi <=? 70) then score + (rsi - 50) * 0.3
    else if rsi >? 70 then score - (rsi - 70) * 0.5
    else score + (30 - rsi) * 0.5 in
  let trend := default "Unknown" (ind_trend indicators) in
  let score :=
    if String.eqb trend "Strong Uptrend" then score + 20
    else if String.eqb trend "Weak Uptrend" then score + 10
    else if String.eqb trend "Strong Downtrend" then score - 20
    else if String.eqb trend "Weak Downtrend" then score - 10
    else score in
  let macd_hist := default 0 (ind_macd_histogram indicators) in
  let score :=
    if macd_hist >? 0 then score + Py.min 10 (macd_hist * 100)
    else score + Py.max (-10) (macd_hist * 100) in
  let price_position := default 0.5 (ind_price_position indicators) in
  let score := score + (price_position - 0.5) * 20 in
  Py.max 0 (Py.min 100 (Py.round2 score)).

Section Analyze.

(** [ticker.history(period)]: it raises, or returns nothing, or returns
    a frame. *)
Variable history : string -> Py.outcome (option Py.DataFrame).

(** Lines 203-264 of [analyze]: the pandas indicator pipeline on a
    non-empty frame. *)
Variable analyze_frame : Py.DataFrame -> Py.outcome Py.pyobj.

(** A missing frame makes [df.empty] raise inside the [try]; every
    exception is caught there. *)
Definition fetch_price_data (symbol : string) : option Py.DataFrame :=
  match history symbol with
  | Py.Raised _ => None
  | Py.Returned None => None
  | Py.Returned (Some df) => if Py.empty df then None else Some df
  end.

Definition analyze (symbol : string) : Py.outcome Py.pyobj :=
  let no_data :=
    Py.Returned (Py.PyDict [
      ("score", Py.PyInt 50);
      ("bias", Py.PyStr "Unknown");
      ("insights", Py.PyList [Py.PyStr "Unable to fetch price data"]);
      ("indicators", Py.PyDict [])
    ]) in
  match fetch_price_data symbol with
  | None => no_data
  | Some df => if Py.empty df then no_data else analyze_frame df
  end.

End Analyze.

(** The key of a window is [f'MA{window}']; a later window of the same
    length overwrites an earlier one. *)
Definition calculate_moving_averages (df : Py.DataFrame) (windows : list nat)
    : gmap string (list Py.pyfloat) :=
  fold_left
    (fun ma_data window =>
       <["MA" +:+ pretty window := Py.rolling_mean window (map Py.Close df)]> ma_data)
    windows ∅.

(** The windows [analyze] uses. *)
Definition default_windows : list nat := [20; 50]%nat.

(** The dictionary [calculate_macd] returns. *)
Record macd_t := {
  macd : list Q;
  signal : list Q;
  histogram : list Q
}.

Definition calculate_macd (df : Py.DataFrame) (fast slow signal_span : nat) : macd_t :=
  let ema_fast := Py.ewm_mean fast (map Py.Close df) in
  let ema_slow := Py.ewm_mean slow (map Py.Close df) in
  let macd_line := Py.series_sub ema_fast ema_slow in
  let signal_line := Py.ewm_mean signal_span macd_line in
  let histogram := Py.series_sub macd_line signal_line in
  {| macd := macd_line; signal := signal_line; histogram := histogram |}.

(** [None] stands for an absent key of [ma_data]. *)
Definition determine_trend
    (df : Py.DataFrame) (ma_data : gmap string (list Py.pyfloat))
    : Py.outcome string :=
  Py.bind (Py.iloc_last (map Py.Close df)) (fun current_price =>
  let current_price := Py.Finite current_price in
  match ma_data !! "MA20", ma_data !! "MA50" with
  | Some ma20_series, Some ma50_series =>
      Py.bind (Py.iloc_last ma20_series) (fun ma20 =>
      Py.bind (Py.iloc_last ma50_series) (fun ma50 =>
      Py.Returned
        (if Py.fgt current_price ma20 && Py.fgt ma20 ma50 then "Strong Uptrend"
         else if Py.fgt current_price ma20 && Py.flt ma20 ma50 then "Weak Uptrend"
         else if Py.flt current_price ma20 && Py.flt ma20 ma50 then "Strong Downtrend"
         else if Py.flt current_price ma20 && Py.fgt ma20 ma50 then "Weak Downtrend"
         else "Sideways")))
  | _, _ => Py.Returned "Unknown"
  end).

Definition assess_overbought_oversold (rsi : list Py.pyfloat) : Py.outcome string :=
  Py.bind (Py.iloc_last rsi) (fun current_rsi =>
  Py.Returned
    (if Py.fgt current_rsi (Py.Finite 70) then "Overbought"
     else if Py.flt current_rsi (Py.Finite 30) then "Oversold"
     else "Neutral")).

(** The [trend] argument is never read. *)
Definition determine_bias (score : Q) (trend : string) (rsi : Py.pyfloat) : string :=
  if score >=? 70 then "Bullish"
  else if score >=? 55 then
    if Py.fgt rsi (Py.Finite 65) then "Bullish but cautious"
    else "Slightly Bullish"
  else if score >=? 45 then "Neutral"
  else if score >=? 30 then "Slightly Bearish"
  else "Bearish".

(** [rs] and [rsi] are computed row by row; a zero average loss gives an
    infinite or undefined [rs]. *)
Definition calculate_rsi (df : Py.DataFrame) (period : nat) : list Py.pyfloat :=
  let delta := Py.diff (map Py.Close df) in
  let gain := Py.rolling_mean period (Py.where_or_zero (fun d => d >? 0) delta) in
  let loss :=
    Py.rolling_mean period (map Qopp (Py.where_or_zero (fun d => d <? 0) delta)) in
  let rs := zip_with Py.fdiv gain loss in
  map (fun r => Py.fsub (Py.Finite 100)
                        (Py.fdiv (Py.Finite 100) (Py.fadd (Py.Finite 1) r)))
      rs.

(** The dictionary [identify_support_resistance] returns. *)
Record support_resistance_t := {
  support : Py.pyfloat;
  resistance : Py.pyfloat;
  current_price : Q;
  distance_to_support : Py.pyfloat;
  distance_to_resistance : Py.pyfloat
}.

Definition identify_support_resistance (df : Py.DataFrame) (window : nat)
    : Py.outcome support_resistance_t :=
  let high := Py.rolling_max window (map Py.High df) in
  let low := Py.rolling_min window (map Py.Low df) in
  Py.bind (Py.iloc_last (map Py.Close df)) (fun current_price =>
  Py.bind (Py.iloc_last high) (fun resistance =>
  Py.bind (Py.iloc_last low) (fun support =>
  Py.Returned
    {| support := support;
       resistance := resistance;
       current_price := current_price;
       distance_to_support :=
         Py.fmul (Py.fdiv (Py.fsub (Py.Finite current_price) support) support)
                 (Py.Finite 100);
       distance_to_resistance :=
         Py.fmul (Py.fdiv (Py.fsub resistance (Py.Finite current_price))
                          (Py.Finite current_price))
                 (Py.Finite 100) |}))).

(** What [detect_breakout] returns: a breakout with its type and direction,
    or [{'breakout_detected': False}].  The [df] argument is never read. *)
Inductive breakout_t :=
| Breakout (type direction : string)
| NoBreakout.

Definition detect_breakout (df : Py.DataFrame)
    (support_resistance : support_resistance_t) : breakout_t :=
  let current_price := Py.Finite (current_price support_resistance) in
  let resistance := resistance support_resistance in
  let support := support support_resistance in
  if Py.fge current_price (Py.fmul resistance (Py.Finite 0.98)) then
    Breakout "resistance_breakout" "upward"
  else if Py.fle current_price (Py.fmul support (Py.Finite 1.02)) then
    Breakout "support_breakdown" "downward"
  else NoBreakout.

(** The [indicators] dictionary as [analyze] fills it: all four keys, the
    numbers NumPy floats that may be NaN. *)
Record float_indicators_t := {
  fi_rsi : Py.pyfloat;
  fi_trend : string;
  fi_macd_histogram : Py.pyfloat;
  fi_price_position : Py.pyfloat
}.

(** [calculate_technical_score] on such a dictionary. *)
Definition calculate_technical_score_float (indicators : float_indicators_t)
    : Py.pyfloat :=
  let score := Py.Finite 50 in
  let rsi := fi_rsi indicators in
  let score :=
    if Py.fle (Py.Finite 30) rsi && Py.fle rsi (Py.Finite 70) then
      Py.fadd score (Py.fmul (Py.fsub rsi (Py.Finite 50)) (Py.Finite 0.3))
    else if Py.fgt rsi (Py.Finite 70) then
      Py.fsub score (Py.fmul (Py.fsub rsi (Py.Finite 70)) (Py.Finite 0.5))
    else
      Py.fadd score (Py.fmul (Py.fsub (Py.Finite 30) rsi) (Py.Finite 0.5)) in
  let trend := fi_trend indicators in
  let score :=
    if String.eqb trend "Strong Uptrend" then Py.fadd score (Py.Finite 20)
    else if String.eqb trend "Weak Uptrend" then Py.fadd score (Py.Finite 10)
    else if String.eqb trend "Strong Downtrend" then Py.fsub score (Py.Finite 20)
    else if String.eqb trend "Weak Downtrend" then Py.fsub score (Py.Finite 10)
    else score in
  let macd_hist := fi_macd_histogram indicators in
  let score :=
    if Py.fgt macd_hist (Py.Finite 0) then
      Py.fadd score (Py.fmin (Py.Finite 10) (Py.fmul macd_hist (Py.Finite 100)))
    else
      Py.fadd score (Py.fmax (Py.Finite (-10)) (Py.fmul macd_hist (Py.Finite 100))) in
  let price_position := fi_price_position indicators in
  let score :=
    Py.fadd score (Py.fmul (Py.fsub price_position (Py.Finite 0.5)) (Py.Finite 20)) in
  Py.fmax (Py.Finite 0) (Py.fmin (Py.Finite 100) (Py.fround2 score)).

(** [determine_bias] on a float score; the [trend] argument is never
    read. *)
Definition determine_bias_float (score : Py.pyfloat) (trend : string)
    (rsi : Py.pyfloat) : string :=
  if Py.fge score (Py.Finite 70) then "Bullish"
  else if Py.fge score (Py.Finite 55) then
    if Py.fgt rsi (Py.Finite 65) then "Bullish but cautious"
    else "Slightly Bullish"
  else if Py.fge score (Py.Finite 45) then "Neutral"
  else if Py.fge score (Py.Finite 30) then "Slightly Bearish"
  else "Bearish".

(** The ['indicators'] entry of the result and the result of [analyze] on a
    frame. *)
Record indicators_out_t := {
  io_rsi : Py.pyfloat;
  io_trend : string;
  io_macd : macd_t;
  io_support_resistance : support_resistance_t;
  io_breakout : breakout_t;
  io_overbought_oversold : string;
  io_moving_averages : gmap string Py.pyfloat
}.

Record analysis_t := {
  ta_score : Py.pyfloat;
  ta_bias : string;
  ta_insights : list string;
  ta_indicators : indicators_out_t
}.

Section Frame.

(** The text of [f"{current_rsi:.1f}"]. *)
Variable format_1f : Py.pyfloat -> string.

(** Lines 212-264 of [analyze], on the frame [fetch_price_data] returned. *)
Definition analyze_frame (df : Py.DataFrame) : Py.outcome analysis_t :=
  let ma_data := calculate_moving_averages df default_windows in
  let rsi := calculate_rsi df 14 in
  let macd_data := calculate_macd df 12 26 9 in
  Py.bind (identify_support_resistance df 20) (fun support_resistance =>
  Py.bind (determine_trend df ma_data) (fun trend =>
  let breakout := detect_breakout df support_resistance in
  Py.bind (assess_overbought_oversold rsi) (fun overbought_oversold =>
  Py.bind (match rsi with
           | [] => Py.Returned (Py.Finite 50)
           | _ => Py.iloc_last rsi
           end) (fun current_rsi =>
  Py.bind (match histogram macd_data with
           | [] => Py.Returned 0
           | _ => Py.iloc_last (histogram macd_data)
           end) (fun current_macd_hist =>
  let price_range :=
    Py.fsub (resistance support_resistance) (support support_resistance) in
  let price_position :=
    if Py.fgt price_range (Py.Finite 0) then
      Py.fdiv (Py.fsub (Py.Finite (current_price support_resistance))
                       (support support_resistance))
              price_range
    else Py.Finite 0.5 in
  let indicators :=
    {| fi_rsi := current_rsi;
       fi_trend := trend;
       fi_macd_histogram := Py.Finite current_macd_hist;
       fi_price_position := price_position |} in
  let score := calculate_technical_score_float indicators in
  let bias := determine_bias_float score trend current_rsi in
  let insights : list string := [] in
  Py.bind (match ma_data !! "MA20", ma_data !! "MA50" with
           | Some ma20_series, Some ma50_series =>
               Py.bind (Py.iloc_last (map Py.Close df)) (fun current_price =>
               Py.bind (Py.iloc_last ma20_series) (fun ma20 =>
               Py.bind (Py.iloc_last ma50_series) (fun ma50 =>
               Py.Returned
                 (if Py.fgt (Py.Finite current_price) ma50
                  then (insights ++ ["Price above 50-day MA"])%list
                  else (insights ++ ["Price below 50-day MA"])%list))))
           | _, _ => Py.Returned insights
           end) (fun insights =>
  let insights :=
    (insights ++ ["RSI = " +:+ format_1f current_rsi +:+ " ("
                  +:+ overbought_oversold +:+ ")"])%list in
  let insights :=
    match breakout with
    | Breakout type _ => (insights ++ ["Potential " +:+ type +:+ " detected"])%list
    | NoBreakout => insights
    end in
  Py.Returned
    {| ta_score := score;
       ta_bias := bias;
       ta_insights := insights;
       ta_indicators :=
         {| io_rsi := current_rsi;
            io_trend := trend;
            io_macd := macd_data;
            io_support_resistance := support_resistance;
            io_breakout := breakout;
            io_overbought_oversold := overbought_oversold;
            (* every series has a row here: the frame is not empty *)
            io_moving_averages :=
              (fun series =>
                 match Py.iloc_last series with
                 | Py.Returned value => value
                 | Py.Raised _ => Py.NaN
                 end) <$> ma_data |} |})))))).

End Frame.

End TechnicalAnalyst.

(* ================================================================== *)
(** * src/src/risk_manager.py *)
(* ================================================================== *)

Module RiskManager.

(** [assess_risk_level] adds three contributions to [risk_score = 0]; each
    is one [if]/[elif] chain of the source. *)
Definition volatility_points (volatility : Py.pyfloat) : Z :=
  if Py.fgt volatility (Py.Finite 40) then 40
  else if Py.fgt volatility (Py.Finite 30) then 30
  else if Py.fgt volatility (Py.Finite 20) then 20
  else 10.

Definition drawdown_points (max_drawdown : Py.pyfloat) : Z :=
  if Py.fgt (Py.fabs max_drawdown) (Py.Finite 30) then 40
  else if Py.fgt (Py.fabs max_drawdown) (Py.Finite 20) then 30
  else if Py.fgt (Py.fabs max_drawdown) (Py.Finite 10) then 20
  else 10.

Definition sharpe_points (sharpe_ratio : Py.pyfloat) : Z :=
  if Py.flt sharpe_ratio (Py.Finite 0) then 20
  else if Py.flt sharpe_ratio (Py.Finite 0.5) then 15
  else if Py.flt sharpe_ratio (Py.Finite 1) then 10
  else 5.

Definition risk_score_of (volatility max_drawdown sharpe_ratio : Py.pyfloat) : Z :=
  let risk_score := 0%Z in
  let risk_score := (risk_score + volatility_points volatility)%Z in
  let risk_score := (risk_score + drawdown_points max_drawdown)%Z in
  let risk_score := (risk_score + sharpe_points sharpe_ratio)%Z in
  risk_score.

Definition assess_risk_level (volatility max_drawdown sharpe_ratio : Py.pyfloat)
    : string :=
  let risk_score := risk_score_of volatility max_drawdown sharpe_ratio in
  if (70 <=? risk_score)%Z then "Very High"
  else if (55 <=? risk_score)%Z then "High"
  else if (40 <=? risk_score)%Z then "Moderate"
  else if (25 <=? risk_score)%Z then "Low"
  else "Very Low".

(** Returns the integer [0], [float('inf')] or a NumPy float. *)
Definition calculate_risk_reward_ratio (df : Py.DataFrame) : Py.pyobj :=
  let recent_data := Py.tail 252 df in
  if (length recent_data <? 2)%nat then Py.PyInt 0
  else
    let returns := Py.pct_change (map Py.Close recent_data) in
    let gains := List.filter (fun r => r >? 0) returns in
    let losses := List.filter (fun r => r <? 0) returns in
    if (length losses =? 0)%nat then Py.PyFloat Py.PosInf
    else
      let avg_gain := if (0 <? length gains)%nat then Py.mean gains else 0 in
      let avg_loss := Qabs (Py.mean losses) in
      if avg_loss =? 0 then Py.PyFloat Py.PosInf
      else
        let risk_reward := avg_gain / avg_loss in
        Py.NpFloat (Py.Finite risk_reward).

Definition generate_recommendations
    (risk_level : string) (volatility max_drawdown : Py.pyfloat) : list string :=
  let recommendations : list string := [] in
  let recommendations :=
    if bool_decide (risk_level ∈ ["High"; "Very High"]) then
      (recommendations ++ ["Reduce exposure"; "Consider tighter stop-loss";
                           "Monitor closely for exit signals"])%list
    else recommendations in
  let recommendations :=
    if Py.fgt volatility (Py.Finite 30) then
      (recommendations
         ++ ["High volatility detected - consider smaller position size"])%list
    else recommendations in
  let recommendations :=
    if Py.fgt (Py.fabs max_drawdown) (Py.Finite 20) then
      (recommendations ++ ["Significant drawdown - review position"])%list
    else recommendations in
  match recommendations with
  | [] => ["Risk levels acceptable"]
  | _ => recommendations
  end.

(** The dictionaries returned by [calculate_volatility] and
    [calculate_max_drawdown]. *)
Record volatility_data_t := {
  annual_volatility : Py.pyfloat;
  recent_volatility : Py.pyfloat;
  volatility_trend : string
}.

Record drawdown_data_t := {
  max_drawdown : Py.pyfloat;
  current_drawdown : Py.pyfloat;
  peak_date : Py.pyobj;
  trough_date : Py.pyobj
}.

Definition volatility_dict (v : volatility_data_t) : Py.pyobj :=
  Py.PyDict [
    ("annual_volatility", Py.NpFloat (annual_volatility v));
    ("recent_volatility", Py.NpFloat (recent_volatility v));
    ("volatility_trend", Py.PyStr (volatility_trend v))
  ].

Definition drawdown_dict (d : drawdown_data_t) : Py.pyobj :=
  Py.PyDict [
    ("max_drawdown", Py.NpFloat (max_drawdown d));
    ("current_drawdown", Py.NpFloat (current_drawdown d));
    ("peak_date", peak_date d);
    ("trough_date", trough_date d)
  ].

Section Analyze.

Variable history : string -> Py.outcome (option Py.DataFrame).

(** The pandas and NumPy statistics of a non-empty frame, and the two
    sizing helpers, whose arithmetic runs on floats that may be
    non-finite; any of them may raise.  [calculate_sharpe_ratio] gives
    the value of the number it returns (its integer [0] is not told apart
    from the float 0.0). *)
Variable calculate_volatility : Py.DataFrame -> Py.outcome volatility_data_t.
Variable calculate_max_drawdown : Py.DataFrame -> Py.outcome drawdown_data_t.
Variable calculate_var : Py.DataFrame -> Py.outcome Py.pyfloat.
Variable calculate_sharpe_ratio : Py.DataFrame -> Py.outcome Py.pyfloat.
Variable suggest_position_size : Py.pyfloat -> Py.pyfloat -> Py.outcome Py.pyobj.
Variable suggest_stop_loss : Py.DataFrame -> Py.pyfloat -> Py.outcome Py.pyobj.

Definition fetch_price_data (symbol : string) : option Py.DataFrame :=
  match history symbol with
  | Py.Raised _ => None
  | Py.Returned None => None
  | Py.Returned (Some df) => if Py.empty df then None else Some df
  end.

Definition analyze_frame (df : Py.DataFrame) : Py.outcome Py.pyobj :=
  Py.bind (calculate_volatility df) (fun volatility_data =>
  Py.bind (calculate_max_drawdown df) (fun drawdown_data =>
  Py.bind (calculate_var df) (fun var =>
  Py.bind (calculate_sharpe_ratio df) (fun sharpe =>
  let risk_reward := calculate_risk_reward_ratio df in
  let risk_level :=
    assess_risk_level (annual_volatility volatility_data)
                      (max_drawdown drawdown_data) sharpe in
  let recommendations :=
    generate_recommendations risk_level (annual_volatility volatility_data)
                             (max_drawdown drawdown_data) in
  Py.bind (suggest_position_size (annual_volatility volatility_data)
                                 (max_drawdown drawdown_data))
          (fun position_size =>
  Py.bind (suggest_stop_loss df (annual_volatility volatility_data))
          (fun stop_loss =>
  Py.Returned (Py.PyDict [
    ("risk_level", Py.PyStr risk_level);
    ("volatility", Py.NpFloat (annual_volatility volatility_data));
    ("max_drawdown", Py.NpFloat (max_drawdown drawdown_data));
    ("current_drawdown", Py.NpFloat (current_drawdown drawdown_data));
    ("var", Py.NpFloat var);
    ("sharpe_ratio", Py.NpFloat sharpe);
    ("risk_reward_ratio", risk_reward);
    ("recommendations", Py.PyList (map Py.PyStr recommendations));
    ("position_size_suggestion", position_size);
    ("stop_loss", stop_loss);
    ("metrics", Py.PyDict [
       ("volatility_data", volatility_dict volatility_data);
       ("drawdown_data", drawdown_dict drawdown_data)
     ])
  ]))))))).

Definition analyze (symbol : string) : Py.outcome Py.pyobj :=
  let no_data :=
    Py.Returned (Py.PyDict [
      ("risk_level", Py.PyStr "Unknown");
      ("volatility", Py.PyInt 0);
      ("max_drawdown", Py.PyInt 0);
      ("recommendations", Py.PyList [Py.PyStr "Unable to fetch price data"]);
      ("metrics", Py.PyDict [])
    ]) in
  match fetch_price_data symbol with
  | None => no_data
  | Some df => if Py.empty df then no_data else analyze_frame df
  end.

End Analyze.

(** The two sizing helpers on finite numbers.  The [max_drawdown] argument
    of [suggest_position_size] is never read. *)
Definition suggest_position_size
    (volatility max_drawdown account_size risk_per_trade : Q) : Q :=
  let risk_amount := account_size * risk_per_trade in
  let stop_loss_pct := volatility / 2 in
  if stop_loss_pct =? 0 then 0
  else
    let position_size := risk_amount / (stop_loss_pct / 100) in
    let max_position := account_size * 0.25 in
    Py.min position_size max_position.

(** The dictionary [suggest_stop_loss] returns.  The last entry divides by
    the current price, a NumPy float: at a price of zero it is 0/0, NaN. *)
Record stop_loss_t := {
  stop_loss_price : Q;
  stop_loss_percentage : Q;
  distance_from_price : Py.pyfloat
}.

(** The levels are exact: in floats [distance_from_price] can differ from
    [stop_loss_percentage] in the last digits. *)
Definition suggest_stop_loss (df : Py.DataFrame) (volatility : Q) (method : string)
    : Py.outcome stop_loss_t :=
  Py.bind (Py.iloc_last (map Py.Close df)) (fun current_price =>
  let '(stop_loss_pct, stop_loss) :=
    if String.eqb method "volatility" then
      let stop_loss_pct := volatility / 100 * 2 in
      (stop_loss_pct, current_price * (1 - stop_loss_pct))
    else
      let stop_loss_pct := 0.05 in
      (stop_loss_pct, current_price * (1 - stop_loss_pct)) in
  Py.Returned
    {| stop_loss_price := stop_loss;
       stop_loss_percentage := stop_loss_pct * 100;
       distance_from_price :=
         if current_price =? 0 then Py.NaN
         else Py.Finite ((current_price - stop_loss) / current_price * 100) |}).

End RiskManager.

(* ================================================================== *)
(** * src/app.py *)
(* ================================================================== *)

Module App.

Section Serialize.

(** [obj.where(pd.notna(obj), None).tolist()] on a series and
    [obj.where(pd.notna(obj), None).to_dict('records')] on a frame are
    pandas' own. *)
Variable series_to_list : list Py.pyfloat -> list Py.pyobj.
Variable frame_to_records : list (list (string * Py.pyfloat)) -> list Py.pyobj.

(** [pd.isna(obj)] on a scalar that is none of the earlier cases: true
    of a NaN float only. *)
Definition pd_isna (obj : Py.pyobj) : bool :=
  match obj with
  | Py.PyFloat x => Py.is_nan x
  | _ => false
  end.

(** The cases are tried in the order of the source's [isinstance]
    chain. *)
Fixpoint make_json_serializable (obj : Py.pyobj) : Py.pyobj :=
  match obj with
  | Py.PyNone => Py.PyNone
  | Py.PdSeries xs => Py.PyList (series_to_list xs)
  | Py.PdDataFrame rows => Py.PyList (frame_to_records rows)
  | Py.NpInt z => Py.PyInt z
  | Py.NpFloat x =>
      if Py.is_nan x || Py.is_inf x then Py.PyNone else Py.PyFloat x
  | Py.NpArray xs => Py.PyList (map Py.PyFloat xs)
  | Py.NpBool b => Py.PyBool b
  | Py.PyDict items =>
      Py.PyDict (map (fun '(key, value) => (key, make_json_serializable value)) items)
  | Py.PyList xs | Py.PyTuple xs => Py.PyList (map make_json_serializable xs)
  | _ => if pd_isna obj then Py.PyNone else obj
  end.

End Serialize.

Definition finite (x : Py.pyfloat) : bool :=
  match x with Py.Finite _ => true | _ => false end.

(** No float anywhere in [obj] is NaN or infinite. *)
Fixpoint all_finite (obj : Py.pyobj) : bool :=
  match obj with
  | Py.PyFloat x | Py.NpFloat x => finite x
  | Py.PyList xs | Py.PyTuple xs => forallb all_finite xs
  | Py.PyDict items => forallb (fun '(_, value) => all_finite value) items
  | Py.NpArray xs | Py.PdSeries xs => forallb finite xs
  | Py.PdDataFrame rows => forallb (forallb (fun '(_, x) => finite x)) rows
  | _ => true
  end.

End App.

(* ================================================================== *)
(** * A sample decision payload *)
(* ================================================================== *)

Module Fixtures.

Definition day (close : Q) : Py.bar :=
  {| Py.Open := close; Py.High := close; Py.Low := close;
     Py.Close := close; Py.Volume := 1000 |}.

(** Two trading days, the second one up: no losing day. *)
Definition rising_history : Py.DataFrame := [day 100; day 101].

(** A run of [RiskManager.analyze] on [rising_history].  The statistics are
    sample values, with NaN where a frame of two rows leaves a statistic
    undefined. *)
Definition sample_history (symbol : string)
    : Py.outcome (option Py.DataFrame) :=
  Py.Returned (Some rising_history).

Definition sample_volatility (df : Py.DataFrame)
    : Py.outcome RiskManager.volatility_data_t :=
  Py.Returned {| RiskManager.annual_volatility := Py.NaN;
                 RiskManager.recent_volatility := Py.NaN;
                 RiskManager.volatility_trend := "decreasing" |}.

Definition sample_drawdown (df : Py.DataFrame)
    : Py.outcome RiskManager.drawdown_data_t :=
  Py.Returned {| RiskManager.max_drawdown := Py.Finite 0;
                 RiskManager.current_drawdown := Py.Finite 0;
                 RiskManager.peak_date := Py.PdTimestamp "2024-01-03";
                 RiskManager.trough_date := Py.PdTimestamp "2024-01-03" |}.

Definition sample_var (df : Py.DataFrame) : Py.outcome Py.pyfloat :=
  Py.Returned (Py.Finite 1).

Definition sample_sharpe (df : Py.DataFrame) : Py.outcome Py.pyfloat :=
  Py.Returned Py.NaN.

Definition sample_position_size (volatility max_drawdown : Py.pyfloat)
    : Py.outcome Py.pyobj :=
  Py.Returned (Py.NpFloat Py.NaN).

Definition sample_stop_loss (df : Py.DataFrame) (volatility : Py.pyfloat)
    : Py.outcome Py.pyobj :=
  Py.Returned (Py.PyDict [
    ("stop_loss_price", Py.NpFloat (Py.Finite 95.95));
    ("stop_loss_percentage", Py.PyFloat (Py.Finite 5));
    ("distance_from_price", Py.NpFloat (Py.Finite 5))
  ]).

Definition sample_risk_run : Py.outcome Py.pyobj :=
  RiskManager.analyze sample_history sample_volatility sample_drawdown
    sample_var sample_sharpe sample_position_size sample_stop_loss "ACME".

Definition sample_risk_analysis : Py.pyobj :=
  match sample_risk_run with
  | Py.Returned analysis => analysis
  | Py.Raised _ => Py.PyNone
  end.

(** The metrics of a growing, profitable company with little debt. *)
Definition strong_metrics : gmap string Q :=
  {[ "revenue_growth" := 25; "profit_margin" := 22; "pe_ratio" := 20;
     "debt_to_equity" := 0.2; "roe" := 25 ]}.

(** A news feed of two articles, the first published after the cutoff of
    [news_cutoff] and the second before it; times that convert as they are;
    and a polarity of 0.5 for every text. *)
Definition sample_news (symbol : string)
    : Py.outcome (option (list SentimentAnalyst.article)) :=
  Py.Returned (Some [
    {| SentimentAnalyst.art_title := Some "Record quarter";
       SentimentAnalyst.art_summary := None;
       SentimentAnalyst.art_providerPublishTime := Some 150%Z;
       SentimentAnalyst.art_publisher := Some "Wire" |};
    {| SentimentAnalyst.art_title := Some "Founding story";
       SentimentAnalyst.art_summary := Some "How it began";
       SentimentAnalyst.art_providerPublishTime := Some 50%Z;
       SentimentAnalyst.art_publisher := None |}
  ]).

Definition news_cutoff (days : Z) : Py.outcome Z := Py.Returned 100%Z.

Definition news_time (timestamp : Z) : Py.outcome Z := Py.Returned timestamp.

Definition upbeat (text : string) : Q := 0.5.

(** A provider that returns an empty frame, and an indicator pipeline
    that is never reached. *)
Definition empty_history (symbol : string)
    : Py.outcome (option Py.DataFrame) :=
  Py.Returned (Some []).

Definition unreached (df : Py.DataFrame) : Py.outcome Py.pyobj :=
  Py.Raised "not reached".

(** The results of the three other agents when their own fetches give
    nothing: lines 228-233 of fundamental_analyst.py, lines 165-173 of
    sentiment_analyst.py, and [TechnicalAnalyst.analyze] without prices. *)
Definition fundamental_unavailable : Py.pyobj :=
  Py.PyDict [
    ("score", Py.PyInt 0);
    ("bias", Py.PyStr "Unknown");
    ("insights", Py.PyList [Py.PyStr "Unable to fetch financial data"]);
    ("metrics", Py.PyDict [])
  ].

Definition sentiment_no_news : Py.pyobj :=
  Py.PyDict [
    ("score", Py.PyFloat (Py.Finite 50.0));
    ("bias", Py.PyStr "Neutral");
    ("average_sentiment", Py.PyFloat (Py.Finite 0.0));
    ("positive_percentage", Py.PyFloat (Py.Finite 0.0));
    ("total_articles", Py.PyInt 0);
    ("spike", Py.PyNone);
    ("insights", Py.PyList [Py.PyStr "No recent news available"])
  ].

Definition technical_no_data : Py.pyobj :=
  match TechnicalAnalyst.analyze empty_history unreached "ACME" with
  | Py.Returned analysis => analysis
  | Py.Raised _ => Py.PyNone
  end.

(** The decision that lines 155-211 of [DecisionEngine.analyze] assemble
    from these four results: scores 0, 50.0, 50 and 80 (risk level "Low"),
    biases "Unknown", "Neutral", "Unknown". *)
Definition rising_decision : Py.pyobj :=
  let scores := [0; 50; 50; DecisionEngine.normalize_risk_score "Low"] in
  let biases := ["Unknown"; "Neutral"; "Unknown"] in
  let combined_score :=
    DecisionEngine.combine_scores 0 50 50 (DecisionEngine.normalize_risk_score "Low") in
  let '(recommendation, reason) :=
    DecisionEngine.determine_recommendation combined_score biases "Low" in
  let confidence :=
    match DecisionEngine.calculate_confidence scores biases with
    | Some confidence => Py.PyInt confidence
    | None => Py.PyNone
    end in
  Py.PyDict [
    ("symbol", Py.PyStr "ACME");
    ("recommendation", Py.PyStr recommendation);
    ("confidence", confidence);
    ("combined_score", Py.PyFloat (Py.Finite combined_score));
    ("reason", Py.PyStr reason);
    ("agent_scores", Py.PyDict [
       ("fundamental", Py.PyInt 0);
       ("sentiment", Py.PyFloat (Py.Finite 50.0));
       ("technical", Py.PyInt 50);
       ("risk", Py.PyInt 80)
     ]);
    ("agent_biases", Py.PyDict [
       ("fundamental", Py.PyStr "Unknown");
       ("sentiment", Py.PyStr "Neutral");
       ("technical", Py.PyStr "Unknown");
       ("risk", Py.PyStr "Low")
     ]);
    ("detailed_analysis", Py.PyDict [
       ("fundamental", fundamental_unavailable);
       ("sentiment", sentiment_no_news);
       ("technical", technical_no_data);
       ("risk", sample_risk_analysis)
     ])
  ].

End Fixtures.

(* ================================================================== *)
(** * Vocabulary of the properties *)
(* ================================================================== *)

Module Spec.

(** How many of the three direction words occur in a label. *)
Definition directions_in (label : string) : nat :=
  ((if Py.contains "Bullish" label then 1 else 0) +
   (if Py.contains "Bearish" label then 1 else 0) +
   (if Py.contains "Neutral" label then 1 else 0))%nat.

(** A label that names at most one direction, as every label produced by
    the three directional scorers does. *)
Definition one_direction (label : string) : Prop :=
  (directions_in label <= 1)%nat.

(** The labels of a non-empty list are all the same text. *)
Definition all_identical (biases : list string) : Prop :=
  exists b, b ∈ biases /\ forall x, x ∈ biases -> x = b.

(** The labels take exactly two distinct values. *)
Definition two_distinct (biases : list string) : Prop :=
  exists a b, a <> b /\ a ∈ biases /\ b ∈ biases /\
              forall x, x ∈ biases -> x = a \/ x = b.

(** [hi] is a largest and [lo] a smallest element of [scores]. *)
Definition extremes (scores : list Q) (hi lo : Q) : Prop :=
  In hi scores /\ In lo scores /\ forall x, In x scores -> lo <= x <= hi.

(** The same for floats: [hi] and [lo] are elements of [scores], and when
    no score is NaN none is greater than [hi] or less than [lo]. *)
Definition extremes_binary64 (scores : list float) (hi lo : float) : Prop :=
  In hi scores /\ In lo scores /\
  (Forall (fun x => PrimFloat.is_nan x = false) scores ->
   forall x, In x scores ->
     (lo <=? x)%float = true /\ (x <=? hi)%float = true).

(** The provider gave no price history: it raised, returned nothing, or
    returned an empty frame. *)
Definition no_price_history (fetched : Py.outcome (option Py.DataFrame))
    : Prop :=
  (exists exc, fetched = Py.Raised exc) \/
  fetched = Py.Returned None \/
  fetched = Py.Returned (Some []).

(** The news item made from an article and its converted publication
    time. *)
Definition item_of (a : SentimentAnalyst.article) (pub_date : Z)
    : SentimentAnalyst.news_item :=
  {| SentimentAnalyst.ni_title := default "" (SentimentAnalyst.art_title a);
     SentimentAnalyst.ni_summary :=
       Some (default "" (SentimentAnalyst.art_summary a));
     SentimentAnalyst.ni_date := pub_date;
     SentimentAnalyst.ni_publisher :=
       default "" (SentimentAnalyst.art_publisher a) |}.

(** The items of the articles published at or after the cutoff, in the order
    of the articles; an article without a publication time counts as
    published at time 0. *)
Definition recent_items (fromtimestamp : Z -> Py.outcome Z) (cutoff_date : Z)
    (news : list SentimentAnalyst.article) : list SentimentAnalyst.news_item :=
  flat_map
    (fun a =>
       match fromtimestamp
               (default 0%Z (SentimentAnalyst.art_providerPublishTime a)) with
       | Py.Returned pub_date =>
           if (cutoff_date <=? pub_date)%Z then [item_of a pub_date] else []
       | Py.Raised _ => []
       end)
    news.

(** Dates never fall along a list of trend entries. *)
Fixpoint ascending (l : list SentimentAnalyst.trend_entry) : Prop :=
  match l with
  | [] => True
  | x :: rest =>
      (forall y, In y rest ->
         (SentimentAnalyst.te_date x <= SentimentAnalyst.te_date y)%Z)
      /\ ascending rest
  end.

(** [obj] holds no NumPy array and no pandas series or frame. *)
Fixpoint scalars_only (obj : Py.pyobj) : bool :=
  match obj with
  | Py.PyList xs | Py.PyTuple xs => forallb scalars_only xs
  | Py.PyDict items => forallb (fun '(_, value) => scalars_only value) items
  | Py.NpArray _ | Py.PdSeries _ | Py.PdDataFrame _ => false
  | _ => true
  end.

(** [obj] is built from Python's own scalars, timestamps, lists and
    dictionaries: no NumPy value, no series or frame, no tuple. *)
Fixpoint builtin_only (obj : Py.pyobj) : bool :=
  match obj with
  | Py.PyNone | Py.PyBool _ | Py.PyInt _ | Py.PyFloat _ | Py.PyStr _
  | Py.PdTimestamp _ => true
  | Py.PyList xs => forallb builtin_only xs
  | Py.PyDict items => forallb (fun '(_, value) => builtin_only value) items
  | _ => false
  end.

(** No float anywhere in [obj] is NaN. *)
Fixpoint nan_free (obj : Py.pyobj) : bool :=
  match obj with
  | Py.PyFloat x | Py.NpFloat x => negb (Py.is_nan x)
  | Py.PyList xs | Py.PyTuple xs => forallb nan_free xs
  | Py.PyDict items => forallb (fun '(_, value) => nan_free value) items
  | Py.NpArray xs | Py.PdSeries xs => forallb (fun x => negb (Py.is_nan x)) xs
  | Py.PdDataFrame rows =>
      forallb (forallb (fun '(_, x) => negb (Py.is_nan x))) rows
  | _ => true
  end.

(** No Python float (as opposed to a NumPy one) in [obj] is infinite. *)
Fixpoint python_infinity_free (obj : Py.pyobj) : bool :=
  match obj with
  | Py.PyFloat x => negb (Py.is_inf x)
  | Py.PyList xs | Py.PyTuple xs => forallb python_infinity_free xs
  | Py.PyDict items =>
      forallb (fun '(_, value) => python_infinity_free value) items
  | _ => true
  end.

(** Clamping to the range 30..95. *)
Definition clamp (confidence : Z) : Z := Z.max 30 (Z.min 95 confidence).

(** The sum of a list of numbers. *)
Fixpoint sumQ (xs : list Q) : Q :=
  match xs with
  | [] => 0
  | x :: rest => x + sumQ rest
  end.

(** The weight of a fundamental metric, zero for a name without weight. *)
Definition weight_of (metric : string) : Q :=
  default 0 (FundamentalAnalyst.weights !! metric).

(** 1 when the two names are the same, else 0. *)
Definition indicator (name metric : string) : Q :=
  if String.eqb name metric then 1 else 0.

(** What one metric adds to the weighted fundamental sum. *)
Definition contribution (item : string * Q) : Q :=
  FundamentalAnalyst.normalize_score item.2 item.1 * weight_of item.1.

End Spec.

(* ================================================================== *)
(** * Properties *)
(* ================================================================== *)

(** ** Reading the boolean comparisons *)

Lemma Qle_bool_true (x y : Q) : Qle_bool x y = true -> x <= y.
Proof. apply Qle_bool_iff. Qed.

Lemma Qle_bool_false (x y : Q) : Qle_bool x y = false -> y < x.
Proof.
  intros H. apply Qnot_le_lt. intros Hle.
  apply Qle_bool_iff in Hle. congruence.
Qed.

Ltac py_unfold :=
  unfold Py.max, Py.min, Py.le, Py.lt, Py.ge, Py.gt in *.

Ltac no_comparison_in t :=
  lazymatch t with
  | context [Qle_bool _ _] => fail
  | _ => idtac
  end.

(** Split on every comparison in the goal, innermost first, and keep the
    fact it decides. *)
Ltac py_cases :=
  py_unfold;
  repeat match goal with
  | |- context [Qle_bool ?a ?b] =>
      no_comparison_in a; no_comparison_in b;
      let H := fresh "Hcmp" in
      destruct (Qle_bool a b) eqn:H;
      [apply Qle_bool_true in H | apply Qle_bool_false in H];
      cbn [negb andb orb]; cbv iota
  end.

(** ** C1: the score filter of [determine_recommendation] *)

(** C1. [determine_recommendation] first resolves the conflicts, then filters
    by the combined score: at 70 and above it gives Buy, but Hold when the
    conflict recommendation is Sell; from 55 up to 70 it gives the conflict
    recommendation, but Hold when that is Sell; from 45 up to 55 Hold; from
    30 up to 45 Sell, but Hold when the conflict recommendation is Buy; below
    30 Sell.  With a score of 72 and low risk, three bullish labels give Buy
    and three bearish labels give Hold. *)
Theorem determine_recommendation_spec :
  forall (combined_score : Q) (biases : list string) (risk_level : string),
    let conflict := fst (DecisionEngine.resolve_conflicts biases risk_level) in
    let result :=
      fst (DecisionEngine.determine_recommendation combined_score biases risk_level) in
    (70 <= combined_score ->
       (conflict = "Sell" -> result = "Hold") /\
       (conflict <> "Sell" -> result = "Buy")) /\
    (55 <= combined_score < 70 ->
       (conflict = "Sell" -> result = "Hold") /\
       (conflict <> "Sell" -> result = conflict)) /\
    (45 <= combined_score < 55 -> result = "Hold") /\
    (30 <= combined_score < 45 ->
       (conflict = "Buy" -> result = "Hold") /\
       (conflict <> "Buy" -> result = "Sell")) /\
    (combined_score < 30 -> result = "Sell") /\
    fst (DecisionEngine.determine_recommendation
           72 ["Bullish"; "Bullish"; "Bullish"] "Low") = "Buy" /\
    fst (DecisionEngine.determine_recommendation
           72 ["Bearish"; "Bearish"; "Bearish"] "Low") = "Hold".
Proof.
  intros s biases risk conflict result.
  subst conflict result. unfold DecisionEngine.determine_recommendation.
  destruct (DecisionEngine.resolve_conflicts biases risk) as [c reason].
  cbn [fst].
  repeat split; try (vm_compute; reflexivity); intros;
    py_cases; try lra;
    repeat match goal with
    | |- context [String.eqb ?a ?b] =>
        destruct (String.eqb_spec a b)
    end; cbn [fst]; congruence.
Qed.

Lemma determine_recommendation_spec_witness :
  fst (DecisionEngine.determine_recommendation
         60 ["Bullish"; "Bullish"; "Neutral"] "Low") = "Buy".
Proof.
  pose proof (determine_recommendation_spec
                60 ["Bullish"; "Bullish"; "Neutral"] "Low") as H.
  cbv zeta in H.
  destruct H as (_ & H & _).
  destruct H as [_ H]; [split; [apply Qle_bool_true | apply Qle_bool_false]; reflexivity |].
  rewrite H; [reflexivity | vm_compute; discriminate].
Defined.

(** ** C2: conflict resolution *)

Lemma append_cons (c : Ascii.ascii) (s t : string) :
  String c s ++ t = String c (s ++ t).
Proof. reflexivity. Qed.

Lemma append_nil (t : string) : "" ++ t = t.
Proof. reflexivity. Qed.

Lemma prefix_app (sub s : string) :
  String.prefix sub s = true <-> exists post, s = sub ++ post.
Proof.
  revert s. induction sub as [| c sub IH]; intros s.
  - split; [intros _; exists s; reflexivity | intros _; destruct s; reflexivity].
  - destruct s as [| d s]; cbn [String.prefix].
    + split; [discriminate | intros [post H]; discriminate H].
    + destruct (Ascii.ascii_dec c d) as [-> | Hne].
      * rewrite IH. split; intros [post H]; exists post;
          rewrite append_cons in *; congruence.
      * split; [discriminate |].
        intros [post H]. rewrite append_cons in H. congruence.
Qed.

(** [Py.contains] decides the occurrence of [sub] as a substring. *)
Lemma contains_spec (sub s : string) :
  Py.contains sub s = true <-> exists pre post, s = pre ++ sub ++ post.
Proof.
  induction s as [| c s IH]; cbn [Py.contains].
  - destruct (String.prefix sub "") eqn:Hp.
    + split; [intros _ | reflexivity].
      apply prefix_app in Hp as [post Hp]. exists "", post. exact Hp.
    + split; [discriminate |]. intros (pre & post & H).
      destruct pre; [| discriminate H]. rewrite append_nil in H.
      assert (String.prefix sub "" = true) by (apply prefix_app; eauto).
      congruence.
  - destruct (String.prefix sub (String c s)) eqn:Hp.
    + split; [intros _ | reflexivity].
      apply prefix_app in Hp as [post Hp]. exists "", post. exact Hp.
    + rewrite IH. split.
      * intros (pre & post & ->). exists (String c pre), post. reflexivity.
      * intros (pre & post & H). destruct pre as [| d pre].
        -- rewrite append_nil in H.
           assert (String.prefix sub (String c s) = true)
             by (apply prefix_app; eauto).
           congruence.
        -- rewrite append_cons in H. injection H as -> ->. eauto.
Qed.

Lemma count_containing_cons (sub b : string) (biases : list string) :
  Py.count_containing sub (b :: biases) =
  ((if Py.contains sub b then 1 else 0) + Py.count_containing sub biases)%nat.
Proof.
  unfold Py.count_containing. cbn [List.filter].
  destruct (Py.contains sub b); reflexivity.
Qed.

(** Labels naming one direction each are counted at most once overall. *)
Lemma direction_counts_le_length (biases : list string) :
  Forall Spec.one_direction biases ->
  (Py.count_containing "Bullish" biases + Py.count_containing "Bearish" biases
   + Py.count_containing "Neutral" biases <= length biases)%nat.
Proof.
  induction 1 as [| b biases Hb _ IH].
  - cbn. lia.
  - rewrite !count_containing_cons. cbn [length].
    unfold Spec.one_direction, Spec.directions_in in Hb. lia.
Qed.

Lemma risk_is_high (risk_level : string) :
  risk_level ∈ ["High"; "Very High"] <->
  risk_level = "High" \/ risk_level = "Very High".
Proof. rewrite !elem_of_cons, elem_of_nil. tauto. Qed.

(** C2. [resolve_conflicts] counts the labels containing "Bullish",
    "Bearish" and "Neutral".  Under High or Very High risk it gives Hold when
    at least two are bullish, else Avoid when at least two are bearish, else
    Hold.  Under any other risk level it gives Buy when at least three are
    bullish, or exactly two with a neutral one; else Sell when at least three
    are bearish, or exactly two with a neutral one; else Hold.  For three
    labels naming one direction each the Buy and Sell rules (and the two
    high-risk rules) never apply together, so each holds on its own.  The
    three sample inputs give Buy, Sell and Hold.  A label counts for a word
    exactly when the word occurs in it as a substring, letter case
    included. *)
Theorem resolve_conflicts_spec :
  forall (biases : list string) (risk_level : string),
    let bullish := Py.count_containing "Bullish" biases in
    let bearish := Py.count_containing "Bearish" biases in
    let neutral := Py.count_containing "Neutral" biases in
    let result := fst (DecisionEngine.resolve_conflicts biases risk_level) in
    let buy := (3 <= bullish \/ (bullish = 2 /\ 1 <= neutral))%nat in
    let sell := (3 <= bearish \/ (bearish = 2 /\ 1 <= neutral))%nat in
    (forall sub label : string,
       Py.contains sub label = true <-> exists pre post, label = pre ++ sub ++ post) /\
    (risk_level = "High" \/ risk_level = "Very High" ->
       ((2 <= bullish)%nat -> result = "Hold") /\
       ((bullish < 2)%nat -> (2 <= bearish)%nat -> result = "Avoid") /\
       ((bullish < 2)%nat -> (bearish < 2)%nat -> result = "Hold")) /\
    (risk_level <> "High" -> risk_level <> "Very High" ->
       (buy -> result = "Buy") /\
       (~ buy -> sell -> result = "Sell") /\
       (~ buy -> ~ sell -> result = "Hold")) /\
    (length biases = 3%nat -> Forall Spec.one_direction biases ->
       (risk_level = "High" \/ risk_level = "Very High" ->
          (2 <= bearish)%nat -> result = "Avoid") /\
       (risk_level <> "High" -> risk_level <> "Very High" ->
          sell -> result = "Sell")) /\
    fst (DecisionEngine.resolve_conflicts
           ["Bullish"; "Bullish"; "Bullish"] "Low") = "Buy" /\
    fst (DecisionEngine.resolve_conflicts
           ["Bearish"; "Bearish"; "Neutral"] "Moderate") = "Sell" /\
    fst (DecisionEngine.resolve_conflicts
           ["Bullish"; "Bullish"; "Bearish"] "High") = "Hold" /\
    Py.count_containing "Bullish"
      ["Bullish but cautious"; "bullish"; "Slightly Bullish"] = 2%nat.
Proof.
  intros biases risk bullish bearish neutral result buy sell.
  split; [intros sub label; apply contains_spec |].
  assert (Hcascade :
    (risk = "High" \/ risk = "Very High" ->
       ((2 <= bullish)%nat -> result = "Hold") /\
       ((bullish < 2)%nat -> (2 <= bearish)%nat -> result = "Avoid") /\
       ((bullish < 2)%nat -> (bearish < 2)%nat -> result = "Hold")) /\
    (risk <> "High" -> risk <> "Very High" ->
       (buy -> result = "Buy") /\
       (~ buy -> sell -> result = "Sell") /\
       (~ buy -> ~ sell -> result = "Hold"))).
  { subst result buy sell. unfold DecisionEngine.resolve_conflicts.
    fold bullish bearish neutral.
    case_bool_decide as Hrisk; rewrite risk_is_high in Hrisk.
    - split; [intros _ | tauto].
      destruct (Nat.leb_spec 2 bullish), (Nat.leb_spec 2 bearish);
        cbn [fst]; repeat split; intros; first [reflexivity | lia].
    - split; [tauto | intros _ _].
      destruct (Nat.leb_spec 3 bullish), (Nat.eqb_spec bullish 2),
               (Nat.leb_spec 1 neutral), (Nat.leb_spec 3 bearish),
               (Nat.eqb_spec bearish 2), (Nat.eqb_spec bearish 1),
               (Nat.eqb_spec bullish 1);
        cbn [fst andb]; repeat split; intros; first [reflexivity | lia | tauto]. }
  destruct Hcascade as [Hhigh Hnormal].
  split; [exact Hhigh |]. split; [exact Hnormal |].
  split; [| repeat split; vm_compute; reflexivity].
  intros Hlen Hone.
  pose proof (direction_counts_le_length biases Hone) as Hsum.
  fold bullish bearish neutral in Hsum. rewrite Hlen in Hsum.
  split.
  - intros Hrisk Hbear. apply Hhigh; [exact Hrisk | lia | exact Hbear].
  - intros H1 H2 Hsell. apply Hnormal; [exact H1 | exact H2 | | exact Hsell].
    subst buy sell. lia.
Qed.

Lemma resolve_conflicts_spec_witness :
  fst (DecisionEngine.resolve_conflicts
         ["Slightly Bearish"; "Bearish"; "Bullish but cautious"] "Very High")
  = "Avoid".
Proof.
  pose proof (resolve_conflicts_spec
                ["Slightly Bearish"; "Bearish"; "Bullish but cautious"]
                "Very High") as H.
  cbv zeta in H.
  destruct H as (_ & _ & _ & H & _).
  destruct H as [H _].
  - reflexivity.
  - repeat constructor.
  - apply H; [right; reflexivity | vm_compute; lia].
Defined.

(** ** Rounding *)

Section Rounding.

Lemma floor_bounds (x : Q) :
  inject_Z (Qfloor x) <= x /\ x < inject_Z (Qfloor x) + 1.
Proof.
  split; [apply Qfloor_le |].
  pose proof (Qlt_floor x) as H.
  rewrite inject_Z_plus in H. exact H.
Qed.

Lemma inject_Z_succ (n : Z) : inject_Z (n + 1) == inject_Z n + 1.
Proof. rewrite inject_Z_plus. reflexivity. Qed.

(** The rounded value is within one half of the argument. *)
Lemma round_half_even_near (x : Q) :
  - (1 # 2) <= inject_Z (Py.round_half_even x) - x <= 1 # 2.
Proof.
  unfold Py.round_half_even.
  destruct (floor_bounds x) as [Hlo Hhi].
  py_cases; try destruct (Z.even (Qfloor x));
    rewrite ?inject_Z_succ; lra.
Qed.

(** Rounding never crosses an integer. *)
Lemma round_half_even_ge (a : Z) (x : Q) :
  inject_Z a <= x -> (a <= Py.round_half_even x)%Z.
Proof.
  intros Ha.
  assert (a <= Qfloor x)%Z as Hfloor.
  { rewrite <- (Qfloor_Z a). apply Qfloor_resp_le. exact Ha. }
  unfold Py.round_half_even.
  py_cases; try destruct (Z.even (Qfloor x)); lia.
Qed.

Lemma round_half_even_le (b : Z) (x : Q) :
  x <= inject_Z b -> (Py.round_half_even x <= b)%Z.
Proof.
  intros Hb.
  destruct (floor_bounds x) as [Hlo Hhi].
  assert (Qfloor x <= b)%Z as Hfloor.
  { rewrite <- (Qfloor_Z b). apply Qfloor_resp_le. exact Hb. }
  destruct (Z.eq_dec (Qfloor x) b) as [Heq | Hne].
  - (* x is the integer b itself: the fraction is zero *)
    unfold Py.round_half_even. rewrite Heq in *.
    py_cases; try lra; lia.
  - unfold Py.round_half_even.
    py_cases; try destruct (Z.even (Qfloor x)); lia.
Qed.



(** [round2 x] is a whole number of hundredths, at most half a hundredth
    away from [x]. *)
Lemma round2_near (x : Q) :
  - (1 # 200) <= Py.round2 x - x <= 1 # 200.
Proof.
  unfold Py.round2.
  pose proof (round_half_even_near (x * 100)) as H.
  set (n := inject_Z (Py.round_half_even (x * 100))) in *.
  unfold Qdiv. change (/ 100) with (1 # 100). lra.
Qed.

Lemma round2_ge (lo : Z) (x : Q) :
  inject_Z lo <= x -> inject_Z lo <= Py.round2 x.
Proof.
  intros Hlo. unfold Py.round2.
  assert (lo * 100 <= Py.round_half_even (x * 100))%Z as H.
  { apply round_half_even_ge. rewrite inject_Z_mult.
    change (inject_Z 100) with 100. lra. }
  rewrite Zle_Qle, inject_Z_mult in H.
  change (inject_Z 100) with 100 in H.
  set (n := inject_Z (Py.round_half_even (x * 100))) in *.
  unfold Qdiv. change (/ 100) with (1 # 100). lra.
Qed.

Lemma round2_le (hi : Z) (x : Q) :
  x <= inject_Z hi -> Py.round2 x <= inject_Z hi.
Proof.
  intros Hhi. unfold Py.round2.
  assert (Py.round_half_even (x * 100) <= hi * 100)%Z as H.
  { apply round_half_even_le. rewrite inject_Z_mult.
    change (inject_Z 100) with 100. lra. }
  rewrite Zle_Qle, inject_Z_mult in H.
  change (inject_Z 100) with 100 in H.
  set (n := inject_Z (Py.round_half_even (x * 100))) in *.
  unfold Qdiv. change (/ 100) with (1 # 100). lra.
Qed.

Lemma round2_bounds (lo hi : Z) (x : Q) :
  inject_Z lo <= x <= inject_Z hi ->
  inject_Z lo <= Py.round2 x <= inject_Z hi.
Proof.
  intros [Hlo Hhi]. split; [apply round2_ge | apply round2_le]; assumption.
Qed.

End Rounding.

(** ** Order and product of binary64 floats *)

Section Binary64.

Import SpecFloat.

#[local] Ltac sf_compare :=
  repeat match goal with
  | H : context [PosDef.Pos.compare_cont Eq ?a ?b] |- _ =>
      change (PosDef.Pos.compare_cont Eq a b) with (Pos.compare a b) in H
  | |- context [PosDef.Pos.compare_cont Eq ?a ?b] =>
      change (PosDef.Pos.compare_cont Eq a b) with (Pos.compare a b)
  end;
  repeat match goal with
  | H : context [(?a ?= ?b)%Z] |- _ =>
      destruct (Z.compare_spec a b); cbn in H; try discriminate H
  | H : context [(?a ?= ?b)%positive] |- _ =>
      destruct (Pos.compare_spec a b); cbn in H; try discriminate H
  | |- context [(?a ?= ?b)%Z] =>
      destruct (Z.compare_spec a b); cbn
  | |- context [(?a ?= ?b)%positive] =>
      destruct (Pos.compare_spec a b); cbn
  end;
  first [reflexivity | lia | discriminate | congruence].

Lemma SFleb_trans (x y z : spec_float) :
  SFleb x y = true -> SFleb y z = true -> SFleb x z = true.
Proof.
  unfold SFleb.
  destruct x as [sx | sx | | sx mx ex], y as [sy | sy | | sy my ey],
           z as [sz | sz | | sz mz ez];
    try destruct sx; try destruct sy; try destruct sz; cbn;
    intros Hxy Hyz; try discriminate; try reflexivity; sf_compare.
Qed.

Lemma SFltb_trans (x y z : spec_float) :
  SFltb x y = true -> SFltb y z = true -> SFltb x z = true.
Proof.
  unfold SFltb.
  destruct x as [sx | sx | | sx mx ex], y as [sy | sy | | sy my ey],
           z as [sz | sz | | sz mz ez];
    try destruct sx; try destruct sy; try destruct sz; cbn;
    intros Hxy Hyz; try discriminate; try reflexivity; sf_compare.
Qed.

Lemma SFltb_leb (x y : spec_float) : SFltb x y = true -> SFleb x y = true.
Proof.
  unfold SFltb, SFleb. destruct (SFcompare x y) as [[] |]; congruence.
Qed.

Lemma SFleb_total (x y : spec_float) :
  x <> S754_nan -> y <> S754_nan -> SFltb x y = false -> SFleb y x = true.
Proof.
  unfold SFltb, SFleb.
  destruct x as [sx | sx | | sx mx ex], y as [sy | sy | | sy my ey];
    try destruct sx; try destruct sy; cbn;
    intros Hx Hy Hxy; try discriminate; try reflexivity; try congruence;
    sf_compare.
Qed.

Lemma SFcompare_refl (x : spec_float) :
  x <> S754_nan -> SFcompare x x = Some Eq.
Proof.
  destruct x as [sx | sx | | sx mx ex]; try destruct sx; cbn;
    intros Hx; try reflexivity; try congruence.
  all: rewrite Z.compare_refl;
    change (PosDef.Pos.compare_cont Eq mx mx) with (Pos.compare mx mx);
    rewrite Pos.compare_refl; reflexivity.
Qed.


(** A float is NaN exactly when it differs from itself. *)
Lemma is_nan_spec (x : float) :
  PrimFloat.is_nan x = false <-> FloatOps.Prim2SF x <> S754_nan.
Proof.
  unfold PrimFloat.is_nan. rewrite FloatAxioms.eqb_spec. unfold SFeqb.
  split.
  - intros H Hn. rewrite Hn in H. cbn in H. discriminate.
  - intros H. rewrite (SFcompare_refl _ H). reflexivity.
Qed.

Lemma binary64_le_trans (x y z : float) :
  (x <=? y)%float = true -> (y <=? z)%float = true -> (x <=? z)%float = true.
Proof. rewrite !FloatAxioms.leb_spec. apply SFleb_trans. Qed.

Lemma binary64_lt_trans (x y z : float) :
  (x <? y)%float = true -> (y <? z)%float = true -> (x <? z)%float = true.
Proof. rewrite !FloatAxioms.ltb_spec. apply SFltb_trans. Qed.

Lemma binary64_lt_le (x y : float) :
  (x <? y)%float = true -> (x <=? y)%float = true.
Proof. rewrite FloatAxioms.ltb_spec, FloatAxioms.leb_spec. apply SFltb_leb. Qed.

Lemma binary64_le_total (x y : float) :
  PrimFloat.is_nan x = false -> PrimFloat.is_nan y = false ->
  (x <? y)%float = false -> (y <=? x)%float = true.
Proof.
  rewrite !is_nan_spec, FloatAxioms.ltb_spec, FloatAxioms.leb_spec.
  apply SFleb_total.
Qed.

Lemma binary64_le_refl (x : float) :
  PrimFloat.is_nan x = false -> (x <=? x)%float = true.
Proof.
  rewrite is_nan_spec, FloatAxioms.leb_spec. intros H.
  unfold SFleb. rewrite (SFcompare_refl _ H). reflexivity.
Qed.


End Binary64.

(** ** C3: the weighted combination *)



(** ** C4: the confidence figure *)

Section Confidence.

Implicit Types (biases : list string) (scores : list Q).

Lemma all_identical_size biases :
  Spec.all_identical biases <-> size (list_to_set biases : gset string) = 1%nat.
Proof.
  split.
  - intros (b & Hb & Hall).
    assert (list_to_set biases = ({[ b ]} : gset string)) as ->.
    { apply set_eq. intros x. rewrite elem_of_list_to_set, elem_of_singleton.
      split; [apply Hall | intros ->; exact Hb]. }
    apply size_singleton.
  - intros Hsize. destruct (size_1_elem_of _ Hsize) as [b Hb].
    exists b. split.
    + apply (elem_of_list_to_set (C := gset string)). rewrite Hb.
      apply elem_of_singleton. reflexivity.
    + intros x Hx. apply (elem_of_list_to_set (C := gset string)) in Hx.
      rewrite Hb in Hx. apply elem_of_singleton in Hx. exact Hx.
Qed.

Lemma size_2_elem_of (X : gset string) :
  size X = 2%nat -> exists a b, a <> b /\ X = {[ a ]} ∪ {[ b ]}.
Proof.
  intros Hsize.
  destruct (size_pos_elem_of X) as [a Ha]; [lia |].
  assert (size (X ∖ {[ a ]}) = 1%nat) as Hrest.
  { rewrite size_difference by set_solver. rewrite size_singleton. lia. }
  destruct (size_1_elem_of _ Hrest) as [b Hb].
  exists a, b. split.
  - intros ->. assert (b ∈ X ∖ {[ b ]}) by (rewrite Hb; set_solver). set_solver.
  - apply set_eq. intros x. destruct (decide (x = a)) as [-> | Hne].
    + set_solver.
    + assert (x ∈ X <-> x ∈ X ∖ {[ a ]}) as -> by set_solver.
      rewrite Hb. set_solver.
Qed.

Lemma two_distinct_size biases :
  Spec.two_distinct biases <-> size (list_to_set biases : gset string) = 2%nat.
Proof.
  split.
  - intros (a & b & Hab & Ha & Hb & Hall).
    assert (list_to_set biases = ({[ a ]} ∪ {[ b ]} : gset string)) as ->.
    { apply set_eq. intros x.
      rewrite elem_of_list_to_set, elem_of_union, !elem_of_singleton.
      split; [apply Hall | intros [-> | ->]; assumption]. }
    rewrite size_union by set_solver. rewrite !size_singleton. reflexivity.
  - intros Hsize. destruct (size_2_elem_of _ Hsize) as (a & b & Hab & HX).
    exists a, b. split; [exact Hab |].
    assert (forall x, x ∈ biases <-> x = a \/ x = b) as Hmem.
    { intros x. rewrite <- (elem_of_list_to_set (C := gset string)), HX.
      rewrite elem_of_union, !elem_of_singleton. reflexivity. }
    repeat split.
    + apply Hmem. left. reflexivity.
    + apply Hmem. right. reflexivity.
    + intros x. apply Hmem.
Qed.

Lemma fold_max_spec (rest : list Q) (x : Q) :
  In (fold_left Py.max rest x) (x :: rest) /\
  forall y, In y (x :: rest) -> y <= fold_left Py.max rest x.
Proof.
  revert x. induction rest as [| z rest IH]; intros x.
  - cbn. split; [left; reflexivity | intros y [-> | []]; lra].
  - cbn [fold_left]. destruct (IH (Py.max x z)) as [Hin Hge].
    assert (x <= Py.max x z /\ z <= Py.max x z /\
            (Py.max x z = x \/ Py.max x z = z)) as (Hx & Hz & Hcase).
    { py_cases; repeat split; try lra; auto. }
    split.
    + destruct Hin as [Hin | Hin]; [| right; right; exact Hin].
      rewrite <- Hin.
      destruct Hcase as [Hc | Hc]; rewrite Hc;
        [left | right; left]; reflexivity.
    + intros y [-> | [-> | Hy]].
      * eapply Qle_trans; [exact Hx | apply Hge; left; reflexivity].
      * eapply Qle_trans; [exact Hz | apply Hge; left; reflexivity].
      * apply Hge. right. exact Hy.
Qed.

Lemma fold_min_spec (rest : list Q) (x : Q) :
  In (fold_left Py.min rest x) (x :: rest) /\
  forall y, In y (x :: rest) -> fold_left Py.min rest x <= y.
Proof.
  revert x. induction rest as [| z rest IH]; intros x.
  - cbn. split; [left; reflexivity | intros y [-> | []]; lra].
  - cbn [fold_left]. destruct (IH (Py.min x z)) as [Hin Hle].
    assert (Py.min x z <= x /\ Py.min x z <= z /\
            (Py.min x z = x \/ Py.min x z = z)) as (Hx & Hz & Hcase).
    { py_cases; repeat split; try lra; auto. }
    split.
    + destruct Hin as [Hin | Hin]; [| right; right; exact Hin].
      rewrite <- Hin.
      destruct Hcase as [Hc | Hc]; rewrite Hc;
        [left | right; left]; reflexivity.
    + intros y [-> | [-> | Hy]].
      * eapply Qle_trans; [apply Hle; left; reflexivity | exact Hx].
      * eapply Qle_trans; [apply Hle; left; reflexivity | exact Hz].
      * apply Hle. right. exact Hy.
Qed.

Lemma extremes_of_scores scores :
  scores <> [] ->
  exists hi lo, Py.max_list scores = Some hi /\ Py.min_list scores = Some lo /\
                Spec.extremes scores hi lo.
Proof.
  destruct scores as [| x rest]; [congruence | intros _].
  destruct (fold_max_spec rest x) as [Hmax_in Hmax].
  destruct (fold_min_spec rest x) as [Hmin_in Hmin].
  exists (fold_left Py.max rest x), (fold_left Py.min rest x).
  repeat split; auto.
Qed.

Lemma fold_max_binary64_spec (rest : list float) (x : float) :
  In (fold_left Py.max_binary64 rest x) (x :: rest) /\
  (Forall (fun y => PrimFloat.is_nan y = false) (x :: rest) ->
   Forall (fun y => (y <=? fold_left Py.max_binary64 rest x)%float = true)
          (x :: rest)).
Proof.
  revert x. induction rest as [| z rest IH]; intros x.
  - cbn. split; [left; reflexivity |].
    intros H. inversion H; subst. constructor; [| constructor].
    apply binary64_le_refl. assumption.
  - cbn [fold_left]. destruct (IH (Py.max_binary64 x z)) as [Hin Hge].
    assert (Py.max_binary64 x z = x \/ Py.max_binary64 x z = z) as Hcase.
    { unfold Py.max_binary64. destruct (x <? z)%float; auto. }
    split.
    + destruct Hin as [Hin | Hin]; [| right; right; exact Hin].
      rewrite <- Hin.
      destruct Hcase as [Hc | Hc]; rewrite Hc;
        [left | right; left]; reflexivity.
    + intros Hall. inversion Hall as [| ? ? Hx Hrest]; subst.
      inversion Hrest as [| ? ? Hz Hrest']; subst.
      assert ((x <=? Py.max_binary64 x z)%float = true /\
              (z <=? Py.max_binary64 x z)%float = true) as [Hxm Hzm].
      { unfold Py.max_binary64. destruct (x <? z)%float eqn:Hlt.
        - split; [apply binary64_lt_le; exact Hlt
                 | apply binary64_le_refl; exact Hz].
        - split; [apply binary64_le_refl; exact Hx
                 | apply binary64_le_total; assumption]. }
      assert (Forall (fun y => PrimFloat.is_nan y = false)
                     (Py.max_binary64 x z :: rest)) as Hall'.
      { constructor; [| exact Hrest'].
        destruct Hcase as [-> | ->]; assumption. }
      specialize (Hge Hall').
      inversion Hge as [| ? ? Hm_le Hrest_le]; subst.
      constructor; [| constructor].
      * eapply binary64_le_trans; eassumption.
      * eapply binary64_le_trans; eassumption.
      * exact Hrest_le.
Qed.

Lemma fold_min_binary64_spec (rest : list float) (x : float) :
  In (fold_left Py.min_binary64 rest x) (x :: rest) /\
  (Forall (fun y => PrimFloat.is_nan y = false) (x :: rest) ->
   Forall (fun y => (fold_left Py.min_binary64 rest x <=? y)%float = true)
          (x :: rest)).
Proof.
  revert x. induction rest as [| z rest IH]; intros x.
  - cbn. split; [left; reflexivity |].
    intros H. inversion H; subst. constructor; [| constructor].
    apply binary64_le_refl. assumption.
  - cbn [fold_left]. destruct (IH (Py.min_binary64 x z)) as [Hin Hle].
    assert (Py.min_binary64 x z = x \/ Py.min_binary64 x z = z) as Hcase.
    { unfold Py.min_binary64. destruct (z <? x)%float; auto. }
    split.
    + destruct Hin as [Hin | Hin]; [| right; right; exact Hin].
      rewrite <- Hin.
      destruct Hcase as [Hc | Hc]; rewrite Hc;
        [left | right; left]; reflexivity.
    + intros Hall. inversion Hall as [| ? ? Hx Hrest]; subst.
      inversion Hrest as [| ? ? Hz Hrest']; subst.
      assert ((Py.min_binary64 x z <=? x)%float = true /\
              (Py.min_binary64 x z <=? z)%float = true) as [Hxm Hzm].
      { unfold Py.min_binary64. destruct (z <? x)%float eqn:Hlt.
        - split; [apply binary64_lt_le; exact Hlt
                 | apply binary64_le_refl; exact Hz].
        - split; [apply binary64_le_refl; exact Hx
                 | apply binary64_le_total; assumption]. }
      assert (Forall (fun y => PrimFloat.is_nan y = false)
                     (Py.min_binary64 x z :: rest)) as Hall'.
      { constructor; [| exact Hrest'].
        destruct Hcase as [-> | ->]; assumption. }
      specialize (Hle Hall').
      inversion Hle as [| ? ? Hm_le Hrest_le]; subst.
      constructor; [| constructor].
      * eapply binary64_le_trans; eassumption.
      * eapply binary64_le_trans; eassumption.
      * exact Hrest_le.
Qed.

Lemma extremes_binary64_of_scores (scores : list float) :
  scores <> [] ->
  exists hi lo,
    Py.max_list_binary64 scores = Some hi /\
    Py.min_list_binary64 scores = Some lo /\
    Spec.extremes_binary64 scores hi lo.
Proof.
  destruct scores as [| x rest]; [congruence | intros _].
  destruct (fold_max_binary64_spec rest x) as [Hmax_in Hmax].
  destruct (fold_min_binary64_spec rest x) as [Hmin_in Hmin].
  exists (fold_left Py.max_binary64 rest x), (fold_left Py.min_binary64 rest x).
  split; [reflexivity |]. split; [reflexivity |].
  split; [exact Hmax_in |]. split; [exact Hmin_in |].
  intros Hall y Hy. specialize (Hmax Hall). specialize (Hmin Hall).
  rewrite List.Forall_forall in Hmax, Hmin. split; auto.
Qed.

(** No float is both below 20 and above 40. *)
Lemma spread_tests_exclusive (spread : float) :
  (spread <? 20)%float = true -> (40 <? spread)%float = true -> False.
Proof.
  intros H20 H40.
  pose proof (binary64_lt_trans _ _ _ H40 H20) as H.
  vm_compute in H. discriminate H.
Qed.

End Confidence.

Lemma three_distinct_size (a b c : string) :
  a <> b -> a <> c -> b <> c ->
  size (list_to_set [a; b; c] : gset string) = 3%nat.
Proof.
  intros Hab Hac Hbc. cbn [list_to_set foldr].
  rewrite !size_union by set_solver.
  rewrite !size_singleton, size_empty. reflexivity.
Qed.

(** C4. On binary64 floats, as the source computes: whatever
    [calculate_confidence] returns lies in 30..95, and it returns nothing
    only for an empty list of scores.  On a non-empty list it returns: a base
    of 85 when all labels are the same text, 65 when they take exactly two
    values, 45 otherwise; plus 10 when the float [max(scores) - min(scores)]
    is less than 20, minus 10 when it is greater than 40, unchanged
    otherwise; clamped to 30..95.  The two extremes are scores of the list,
    and when no score is NaN no score is above the one or below the other.
    Identical labels with a spread below 20 give 95; three distinct labels
    with a spread above 40 give 35.  The spread of 44.1 and 64.1 is a float
    below 20, and that of 30.4 and 70.4 one above 40. *)
Theorem calculate_confidence_spec :
  forall (scores : list float) (biases : list string),
    (forall c,
       DecisionEngine.calculate_confidence_binary64 scores biases = Some c ->
       (30 <= c <= 95)%Z) /\
    (DecisionEngine.calculate_confidence_binary64 scores biases = None <->
     scores = []) /\
    (scores <> [] ->
     exists (hi lo : float) (base confidence : Z),
       Py.max_list_binary64 scores = Some hi /\
       Py.min_list_binary64 scores = Some lo /\
       Spec.extremes_binary64 scores hi lo /\
       DecisionEngine.calculate_confidence_binary64 scores biases
       = Some confidence /\
       (Spec.all_identical biases -> base = 85%Z) /\
       (Spec.two_distinct biases -> base = 65%Z) /\
       (~ Spec.all_identical biases -> ~ Spec.two_distinct biases ->
        base = 45%Z) /\
       ((hi - lo <? 20)%float = true -> confidence = Spec.clamp (base + 10)) /\
       ((40 <? hi - lo)%float = true -> confidence = Spec.clamp (base - 10)) /\
       ((hi - lo <? 20)%float = false -> (40 <? hi - lo)%float = false ->
        confidence = Spec.clamp base) /\
       (Spec.all_identical biases -> (hi - lo <? 20)%float = true ->
        confidence = 95%Z) /\
       (forall a b c, biases = [a; b; c] -> a <> b -> a <> c -> b <> c ->
                      (40 <? hi - lo)%float = true -> confidence = 35%Z)) /\
    (DecisionEngine.calculate_confidence_binary64
       [44.1; 64.1]%float ["Bullish"; "Neutral"] = Some 75%Z /\
     DecisionEngine.calculate_confidence_binary64
       [30.4; 70.4]%float ["Bullish"; "Neutral"; "Bearish"] = Some 35%Z).
Proof.
  intros scores biases. split; [| split; [| split]].
  - intros c. unfold DecisionEngine.calculate_confidence_binary64.
    destruct (Py.max_list_binary64 scores) as [hi |]; [| discriminate].
    destruct (Py.min_list_binary64 scores) as [lo |]; [| discriminate].
    cbn. intros [= <-]. lia.
  - destruct scores as [| x rest].
    + split; reflexivity.
    + split; [| discriminate].
      unfold DecisionEngine.calculate_confidence_binary64. cbn. discriminate.
  - intros Hne.
    destruct (extremes_binary64_of_scores scores Hne)
      as (hi & lo & Hmax & Hmin & Hext).
    set (unique := size (list_to_set biases : gset string)).
    set (base := (if (unique =? 1)%nat then 85
                  else if (unique =? 2)%nat then 65 else 45)%Z).
    assert (Hconf : DecisionEngine.calculate_confidence_binary64 scores biases
                    = Some (Spec.clamp
                              (if (hi - lo <? 20)%float then (base + 10)%Z
                               else if (40 <? hi - lo)%float then (base - 10)%Z
                               else base))).
    { unfold DecisionEngine.calculate_confidence_binary64.
      rewrite Hmax, Hmin. reflexivity. }
    assert (Hbase1 : Spec.all_identical biases -> base = 85%Z).
    { intros H. apply all_identical_size in H. subst base. fold unique in H.
      rewrite H. reflexivity. }
    assert (Hbase2 : Spec.two_distinct biases -> base = 65%Z).
    { intros H. apply two_distinct_size in H. subst base. fold unique in H.
      rewrite H. reflexivity. }
    assert (Hbase3 : unique <> 1%nat -> unique <> 2%nat -> base = 45%Z).
    { intros H1 H2. subst base.
      destruct (Nat.eqb_spec unique 1), (Nat.eqb_spec unique 2); congruence. }
    assert (Hup : (hi - lo <? 20)%float = true ->
                  (if (hi - lo <? 20)%float then (base + 10)%Z
                   else if (40 <? hi - lo)%float then (base - 10)%Z
                   else base) = (base + 10)%Z).
    { intros ->. reflexivity. }
    assert (Hdown : (40 <? hi - lo)%float = true ->
                    (if (hi - lo <? 20)%float then (base + 10)%Z
                     else if (40 <? hi - lo)%float then (base - 10)%Z
                     else base) = (base - 10)%Z).
    { intros H40. destruct (hi - lo <? 20)%float eqn:H20.
      - destruct (spread_tests_exclusive _ H20 H40).
      - rewrite H40. reflexivity. }
    exists hi, lo, base. eexists.
    split; [exact Hmax |]. split; [exact Hmin |]. split; [exact Hext |].
    split; [exact Hconf |].
    split; [exact Hbase1 |]. split; [exact Hbase2 |].
    split.
    { intros Hn1 Hn2. apply Hbase3.
      - intros H. apply Hn1, all_identical_size. exact H.
      - intros H. apply Hn2, two_distinct_size. exact H. }
    split; [intros Hs; rewrite (Hup Hs); reflexivity |].
    split; [intros Hs; rewrite (Hdown Hs); reflexivity |].
    split; [intros H20 H40; rewrite H20, H40; reflexivity |].
    split.
    + intros Hall Hs. rewrite (Hup Hs), (Hbase1 Hall). reflexivity.
    + intros a b c -> Hab Hac Hbc Hs.
      rewrite (Hdown Hs), Hbase3.
      * reflexivity.
      * subst unique. rewrite three_distinct_size by assumption. discriminate.
      * subst unique. rewrite three_distinct_size by assumption. discriminate.
  - split; vm_compute; reflexivity.
Qed.

Lemma calculate_confidence_spec_witness :
  DecisionEngine.calculate_confidence_binary64
    [71; 66.5; 80; 80]%float ["Bullish"; "Bullish"; "Bullish"]
  = Some 95%Z.
Proof.
  destruct (calculate_confidence_spec
              [71; 66.5; 80; 80]%float ["Bullish"; "Bullish"; "Bullish"])
    as (_ & _ & H & _).
  destruct H as (hi & lo & base & confidence & Hmax & Hmin & _ & Hconf
                 & _ & _ & _ & _ & _ & _ & H95 & _); [discriminate |].
  rewrite Hconf. f_equal.
  injection Hmax as <-. injection Hmin as <-.
  apply H95.
  - exists "Bullish". split; [left |].
    intros x Hx. repeat (apply elem_of_cons in Hx as [Hx | Hx]; [exact Hx |]).
    apply elem_of_nil in Hx. destruct Hx.
  - vm_compute. reflexivity.
Defined.

(** ** C5: every score lies within 0..100 *)

Section ScoreRange.

(** A normalised metric score lies within 0..100, for every metric. *)
Lemma normalize_score_range (value : Q) (metric_type : string) :
  0 <= FundamentalAnalyst.normalize_score value metric_type <= 100.
Proof.
  unfold FundamentalAnalyst.normalize_score.
  destruct (String.eqb metric_type "revenue_growth"); [py_cases; lra |].
  destruct (String.eqb metric_type "profit_margin"); [py_cases; lra |].
  destruct (String.eqb metric_type "pe_ratio").
  { repeat match goal with
           | |- context [if ?b then _ else _] => destruct b
           end; lra. }
  destruct (String.eqb metric_type "debt_to_equity"); [py_cases; lra |].
  destruct (String.eqb metric_type "roe"); [py_cases; lra |].
  lra.
Qed.

Import Spec.

Lemma weight_of_indicators (metric : string) :
  weight_of metric ==
    0.25 * indicator "revenue_growth" metric
    + 0.25 * indicator "profit_margin" metric
    + 0.20 * indicator "pe_ratio" metric
    + 0.15 * indicator "debt_to_equity" metric
    + 0.15 * indicator "roe" metric.
Proof.
  unfold weight_of, indicator.
  destruct (String.eqb_spec "revenue_growth" metric) as [<- | H1];
    [vm_compute; reflexivity |].
  destruct (String.eqb_spec "profit_margin" metric) as [<- | H2];
    [vm_compute; reflexivity |].
  destruct (String.eqb_spec "pe_ratio" metric) as [<- | H3];
    [vm_compute; reflexivity |].
  destruct (String.eqb_spec "debt_to_equity" metric) as [<- | H4];
    [vm_compute; reflexivity |].
  destruct (String.eqb_spec "roe" metric) as [<- | H5];
    [vm_compute; reflexivity |].
  unfold FundamentalAnalyst.weights.
  rewrite !lookup_insert_ne by assumption.
  rewrite lookup_singleton_ne by assumption. cbn. lra.
Qed.

Lemma indicator_absent (name : string) (keys : list string) :
  name ∉ keys -> sumQ (indicator name <$> keys) == 0.
Proof.
  induction keys as [| k keys IH]; intros Hnot; cbn; [reflexivity |].
  rewrite not_elem_of_cons in Hnot. destruct Hnot as [Hk Hrest].
  unfold indicator at 1. destruct (String.eqb_spec name k); [contradiction |].
  rewrite IH by assumption. lra.
Qed.

(** A name occurs at most once among the keys of a dictionary. *)
Lemma indicator_once (name : string) (keys : list string) :
  NoDup keys -> 0 <= sumQ (indicator name <$> keys) <= 1.
Proof.
  induction 1 as [| k keys Hk _ IH]; cbn; [lra |].
  unfold indicator at 1 3. destruct (String.eqb_spec name k) as [-> | _].
  - rewrite (indicator_absent k keys Hk). lra.
  - lra.
Qed.

Lemma sum_weights_indicators (keys : list string) :
  sumQ (weight_of <$> keys) ==
    0.25 * sumQ (indicator "revenue_growth" <$> keys)
    + 0.25 * sumQ (indicator "profit_margin" <$> keys)
    + 0.20 * sumQ (indicator "pe_ratio" <$> keys)
    + 0.15 * sumQ (indicator "debt_to_equity" <$> keys)
    + 0.15 * sumQ (indicator "roe" <$> keys).
Proof.
  induction keys as [| k keys IH]; cbn; [lra |].
  rewrite IH, (weight_of_indicators k). lra.
Qed.

(** The weights of distinct metric names add up to at most 1. *)
Lemma sum_weights_le_1 (keys : list string) :
  NoDup keys -> 0 <= sumQ (weight_of <$> keys) <= 1.
Proof.
  intros Hnd. rewrite sum_weights_indicators.
  pose proof (indicator_once "revenue_growth" keys Hnd).
  pose proof (indicator_once "profit_margin" keys Hnd).
  pose proof (indicator_once "pe_ratio" keys Hnd).
  pose proof (indicator_once "debt_to_equity" keys Hnd).
  pose proof (indicator_once "roe" keys Hnd).
  lra.
Qed.

Lemma weight_of_nonneg (metric : string) : 0 <= weight_of metric.
Proof.
  rewrite weight_of_indicators. unfold indicator.
  repeat match goal with
         | |- context [String.eqb ?a ?b] => destruct (String.eqb a b)
         end; lra.
Qed.

Lemma contribution_range (item : string * Q) :
  0 <= contribution item <= 100 * weight_of item.1.
Proof.
  unfold contribution.
  pose proof (normalize_score_range item.2 item.1) as Hn.
  pose proof (weight_of_nonneg item.1) as Hw.
  split; [apply Qmult_le_0_compat; tauto |].
  apply Qmult_le_compat_r; tauto.
Qed.

Lemma score_step_sum (st : gmap string Q * Q) (item : string * Q) :
  (FundamentalAnalyst.score_step st item).2 == st.2 + contribution item.
Proof.
  destruct st as [scores acc], item as [metric value].
  unfold FundamentalAnalyst.score_step, contribution, weight_of. cbn [fst snd].
  destruct (FundamentalAnalyst.weights !! metric); cbn; lra.
Qed.

Lemma fold_score_step_sum (items : list (string * Q)) (st : gmap string Q * Q) :
  (fold_left FundamentalAnalyst.score_step items st).2
  == st.2 + sumQ (contribution <$> items).
Proof.
  revert st. induction items as [| item items IH]; intros st; cbn.
  - lra.
  - rewrite IH, score_step_sum. lra.
Qed.

Lemma sum_contributions_range (items : list (string * Q)) :
  0 <= sumQ (contribution <$> items)
  /\ sumQ (contribution <$> items) <= 100 * sumQ (weight_of <$> items.*1).
Proof.
  induction items as [| item items IH]; cbn; [lra |].
  pose proof (contribution_range item). lra.
Qed.

(** The weighted sum of the loop lies within 0..100 for every
    dictionary of metrics. *)
Lemma weighted_sum_range (metrics : gmap string Q) :
  0 <= (fold_left FundamentalAnalyst.score_step (map_to_list metrics) (∅, 0)).2
    <= 100.
Proof.
  rewrite fold_score_step_sum. cbn [snd].
  pose proof (sum_contributions_range (map_to_list metrics)) as [H0 H1].
  pose proof (sum_weights_le_1 _ (NoDup_fst_map_to_list metrics)) as [_ H2].
  lra.
Qed.

End ScoreRange.

Lemma clamp_0_100 (x : Q) : 0 <= Py.max 0 (Py.min 100 x) <= 100.
Proof. py_cases; lra. Qed.

(** C5. Every agent score lies within 0..100: the fundamental score for
    every dictionary of metric values (each normalised score lies within
    0..100 and the metric weights sum to 1), the sentiment score for every
    mean polarity, and the technical score for every indicator values. *)
Theorem agent_scores_in_range :
  (forall metrics : option (gmap string Q),
     0 <= (FundamentalAnalyst.calculate_fundamental_score metrics).1 <= 100) /\
  (forall (value : Q) (metric_type : string),
     0 <= FundamentalAnalyst.normalize_score value metric_type <= 100) /\
  Spec.sumQ (snd <$> map_to_list FundamentalAnalyst.weights) == 1 /\
  (forall average_sentiment : Q,
     0 <= SentimentAnalyst.calculate_sentiment_score average_sentiment <= 100) /\
  (forall indicators : TechnicalAnalyst.indicators_t,
     0 <= TechnicalAnalyst.calculate_technical_score indicators <= 100).
Proof.
  split; [| split; [| split; [| split]]].
  - unfold FundamentalAnalyst.calculate_fundamental_score.
    intros [metrics |]; [| cbn [fst]; lra].
    case_bool_decide; [cbn [fst]; lra |].
    pose proof (weighted_sum_range metrics) as Hsum.
    destruct (fold_left FundamentalAnalyst.score_step (map_to_list metrics) (∅, 0))
      as [scores weighted_sum].
    cbn [fst snd] in *.
    apply (round2_bounds 0 100).
    change (inject_Z 0) with 0. change (inject_Z 100) with 100. exact Hsum.
  - apply normalize_score_range.
  - vm_compute. reflexivity.
  - intros p. apply clamp_0_100.
  - intros ind. apply clamp_0_100.
Qed.

(** ** C6: the RSI term of the technical score *)

Lemma clamp_ge (lo x : Q) :
  lo <= 100 -> lo <= x -> lo <= Py.max 0 (Py.min 100 x).
Proof. intros. py_cases; lra. Qed.

Lemma clamp_le (hi x : Q) :
  0 <= hi -> x <= hi -> Py.max 0 (Py.min 100 x) <= hi.
Proof. intros. py_cases; lra. Qed.

(** C6 (the code departs from it).  With every other indicator absent, an
    oversold RSI of 10 gives the score 60, above the 50 of a neutral RSI of
    50: beyond the band on the oversold side the RSI term is added, not
    subtracted.  No RSI below 30 brings the score under 50, whereas every RSI
    above 70 keeps it at or under 50 (an RSI of 90 gives 40). *)
Theorem oversold_rsi_raises_score :
  let score_at (rsi : Q) :=
    TechnicalAnalyst.calculate_technical_score
      {| TechnicalAnalyst.ind_rsi := Some rsi;
         TechnicalAnalyst.ind_trend := None;
         TechnicalAnalyst.ind_macd_histogram := None;
         TechnicalAnalyst.ind_price_position := None |} in
  score_at 50 == 50 /\ score_at 10 == 60 /\ score_at 90 == 40 /\
  score_at 50 < score_at 10 /\
  (forall rsi : Q, rsi < 30 -> 50 <= score_at rsi) /\
  (forall rsi : Q, 70 < rsi -> score_at rsi <= 50).
Proof.
  cbv zeta.
  split; [vm_compute; reflexivity |]. split; [vm_compute; reflexivity |].
  split; [vm_compute; reflexivity |]. split; [vm_compute; reflexivity |].
  split; intros rsi Hrsi; unfold TechnicalAnalyst.calculate_technical_score;
    cbn [TechnicalAnalyst.ind_rsi TechnicalAnalyst.ind_trend
         TechnicalAnalyst.ind_macd_histogram TechnicalAnalyst.ind_price_position
         default from_option id String.eqb Ascii.eqb Bool.eqb].
  - apply clamp_ge; [lra |]. apply (round2_ge 50).
    change (inject_Z 50) with 50. py_cases; lra.
  - apply clamp_le; [lra |]. apply (round2_le 50).
    change (inject_Z 50) with 50. py_cases; lra.
Qed.

Lemma oversold_rsi_raises_score_witness :
  50 <= TechnicalAnalyst.calculate_technical_score
          {| TechnicalAnalyst.ind_rsi := Some 22.5;
             TechnicalAnalyst.ind_trend := None;
             TechnicalAnalyst.ind_macd_histogram := None;
             TechnicalAnalyst.ind_price_position := None |}.
Proof.
  destruct oversold_rsi_raises_score as (_ & _ & _ & _ & H & _).
  apply H. apply Qle_bool_false. reflexivity.
Defined.

(** ** C7: non-finite numbers in the serialised payload *)

(** C7 (the code departs from it).  A price history without a losing day
    gives the risk-reward ratio [float('inf')]; [make_json_serializable]
    leaves that infinity in the decision payload, so the output is not free of
    non-finite numbers.  The NumPy NaN of the volatility in the same payload
    does become null, as a NumPy infinity would. *)
Theorem infinite_ratio_survives_serialization :
  forall (series_to_list : list Py.pyfloat -> list Py.pyobj)
         (frame_to_records : list (list (string * Py.pyfloat)) -> list Py.pyobj),
    let serialize := App.make_json_serializable series_to_list frame_to_records in
    let emitted := serialize Fixtures.rising_decision in
    RiskManager.calculate_risk_reward_ratio Fixtures.rising_history
      = Py.PyFloat Py.PosInf /\
    Py.get_path ["detailed_analysis"; "risk"; "risk_reward_ratio"]
                Fixtures.rising_decision
      = Some (Py.PyFloat Py.PosInf) /\
    Py.get_path ["detailed_analysis"; "risk"; "risk_reward_ratio"] emitted
      = Some (Py.PyFloat Py.PosInf) /\
    App.all_finite emitted = false /\
    Py.get_path ["detailed_analysis"; "risk"; "volatility"] emitted
      = Some Py.PyNone /\
    serialize (Py.NpFloat Py.PosInf) = Py.PyNone.
Proof. intros. repeat split; vm_compute; reflexivity. Qed.

(** ** C8: the risk level is never "Very Low" *)

Section RiskLevel.

Lemma volatility_points_ge (volatility : Py.pyfloat) :
  (10 <= RiskManager.volatility_points volatility <= 40)%Z.
Proof.
  unfold RiskManager.volatility_points.
  repeat match goal with
         | |- context [if ?b then _ else _] => destruct b
         end; lia.
Qed.

Lemma drawdown_points_ge (max_drawdown : Py.pyfloat) :
  (10 <= RiskManager.drawdown_points max_drawdown <= 40)%Z.
Proof.
  unfold RiskManager.drawdown_points.
  repeat match goal with
         | |- context [if ?b then _ else _] => destruct b
         end; lia.
Qed.

Lemma sharpe_points_ge (sharpe_ratio : Py.pyfloat) :
  (5 <= RiskManager.sharpe_points sharpe_ratio <= 20)%Z.
Proof.
  unfold RiskManager.sharpe_points.
  repeat match goal with
         | |- context [if ?b then _ else _] => destruct b
         end; lia.
Qed.

Lemma risk_score_ge_25 (volatility max_drawdown sharpe_ratio : Py.pyfloat) :
  (25 <= RiskManager.risk_score_of volatility max_drawdown sharpe_ratio)%Z.
Proof.
  unfold RiskManager.risk_score_of.
  pose proof (volatility_points_ge volatility).
  pose proof (drawdown_points_ge max_drawdown).
  pose proof (sharpe_points_ge sharpe_ratio).
  lia.
Qed.

Lemma assess_risk_level_values (volatility max_drawdown sharpe_ratio : Py.pyfloat) :
  In (RiskManager.assess_risk_level volatility max_drawdown sharpe_ratio)
     ["Low"; "Moderate"; "High"; "Very High"].
Proof.
  unfold RiskManager.assess_risk_level.
  pose proof (risk_score_ge_25 volatility max_drawdown sharpe_ratio) as H.
  set (score := RiskManager.risk_score_of _ _ _) in *.
  destruct (Z.leb_spec 70 score); [cbn; tauto |].
  destruct (Z.leb_spec 55 score); [cbn; tauto |].
  destruct (Z.leb_spec 40 score); [cbn; tauto |].
  destruct (Z.leb_spec 25 score); [cbn; tauto | lia].
Qed.

(** The levels a risk analysis can carry never map to 100. *)
Lemma pipeline_level_not_100 (level : string) :
  In level ["Low"; "Moderate"; "High"; "Very High"; "Unknown"] ->
  level <> "Very Low" /\ ~ DecisionEngine.normalize_risk_score level == 100.
Proof.
  cbn. intros [<- | [<- | [<- | [<- | [<- | []]]]]];
    (split; [discriminate | vm_compute; discriminate]).
Qed.

End RiskLevel.

(** C8. [assess_risk_level] never returns "Very Low": for every volatility,
    drawdown and Sharpe ratio (NaN and the infinities included) the three
    contributions are at least 10, 10 and 5, the composite score is at least
    25, and the level is one of Low, Moderate, High, Very High.  Hence the
    risk level of whatever [RiskManager.analyze] returns is never mapped to
    100 by [normalize_risk_score]. *)
Theorem assess_risk_level_never_very_low :
  (forall volatility max_drawdown sharpe_ratio : Py.pyfloat,
     (10 <= RiskManager.volatility_points volatility)%Z /\
     (10 <= RiskManager.drawdown_points max_drawdown)%Z /\
     (5 <= RiskManager.sharpe_points sharpe_ratio)%Z /\
     (25 <= RiskManager.risk_score_of volatility max_drawdown sharpe_ratio)%Z /\
     In (RiskManager.assess_risk_level volatility max_drawdown sharpe_ratio)
        ["Low"; "Moderate"; "High"; "Very High"] /\
     RiskManager.assess_risk_level volatility max_drawdown sharpe_ratio
       <> "Very Low") /\
  DecisionEngine.normalize_risk_score "Very Low" == 100 /\
  (forall history calculate_volatility calculate_max_drawdown calculate_var
          calculate_sharpe_ratio suggest_position_size suggest_stop_loss
          (symbol : string) (analysis : Py.pyobj),
     RiskManager.analyze history calculate_volatility calculate_max_drawdown
       calculate_var calculate_sharpe_ratio suggest_position_size
       suggest_stop_loss symbol = Py.Returned analysis ->
     exists level,
       Py.get "risk_level" analysis = Some (Py.PyStr level) /\
       level <> "Very Low" /\
       ~ DecisionEngine.normalize_risk_score level == 100).
Proof.
  split; [| split; [vm_compute; reflexivity |]].
  - intros v d s.
    pose proof (assess_risk_level_values v d s) as Hin.
    repeat split;
      [apply volatility_points_ge | apply drawdown_points_ge
      | apply sharpe_points_ge | apply risk_score_ge_25 | exact Hin |].
    intros Heq. rewrite Heq in Hin. cbn in Hin.
    repeat (destruct Hin as [Hin | Hin]; [discriminate Hin |]). exact Hin.
  - intros history cv cd cvar cs sp ss symbol analysis.
    unfold RiskManager.analyze.
    assert (Hno_data : forall items,
              Py.Returned
                (Py.PyDict (("risk_level", Py.PyStr "Unknown") :: items))
              = Py.Returned analysis ->
              exists level,
                Py.get "risk_level" analysis = Some (Py.PyStr level) /\
                level <> "Very Low" /\
                ~ DecisionEngine.normalize_risk_score level == 100).
    { intros items [= <-]. exists "Unknown". split; [reflexivity |].
      apply pipeline_level_not_100. cbn. tauto. }
    destruct (RiskManager.fetch_price_data history symbol) as [df |];
      [| apply Hno_data].
    destruct (Py.empty df); [apply Hno_data |].
    unfold RiskManager.analyze_frame.
    destruct (cv df) as [vol |]; [| discriminate].
    destruct (cd df) as [dd |]; [| discriminate].
    destruct (cvar df) as [var |]; [| discriminate].
    destruct (cs df) as [sharpe |]; [| discriminate].
    cbn [Py.bind].
    destruct (sp _ _) as [position_size |]; [| discriminate].
    destruct (ss _ _) as [stop_loss |]; [| discriminate].
    cbn [Py.bind]. intros [= <-].
    eexists. split; [reflexivity |].
    apply pipeline_level_not_100.
    pose proof (assess_risk_level_values
                  (RiskManager.annual_volatility vol)
                  (RiskManager.max_drawdown dd) sharpe) as Hin.
    cbn in Hin |- *. tauto.
Qed.

Lemma assess_risk_level_never_very_low_witness :
  Fixtures.sample_risk_run = Py.Returned Fixtures.sample_risk_analysis /\
  exists level,
    Py.get "risk_level" Fixtures.sample_risk_analysis = Some (Py.PyStr level) /\
    level <> "Very Low" /\
    ~ DecisionEngine.normalize_risk_score level == 100.
Proof.
  split; [vm_compute; reflexivity |].
  destruct assess_risk_level_never_very_low as (_ & _ & H).
  apply (H Fixtures.sample_history Fixtures.sample_volatility
           Fixtures.sample_drawdown Fixtures.sample_var Fixtures.sample_sharpe
           Fixtures.sample_position_size Fixtures.sample_stop_loss "ACME").
  vm_compute. reflexivity.
Defined.

(** ** C9: no price history *)

(** C9. When the provider gives no price history (it raises, returns
    nothing, or returns an empty frame), [TechnicalAnalyst.analyze] returns
    the neutral result with score 50 and bias "Unknown", and
    [RiskManager.analyze] returns risk level "Unknown" with volatility 0,
    drawdown 0 and no metrics; neither call raises. *)
Theorem analyze_without_price_history :
  forall technical_history analyze_frame
         risk_history calculate_volatility calculate_max_drawdown calculate_var
         calculate_sharpe_ratio suggest_position_size suggest_stop_loss
         (symbol : string),
    Spec.no_price_history (technical_history symbol) ->
    Spec.no_price_history (risk_history symbol) ->
    TechnicalAnalyst.analyze technical_history analyze_frame symbol
      = Py.Returned (Py.PyDict [
          ("score", Py.PyInt 50);
          ("bias", Py.PyStr "Unknown");
          ("insights", Py.PyList [Py.PyStr "Unable to fetch price data"]);
          ("indicators", Py.PyDict [])
        ]) /\
    RiskManager.analyze risk_history calculate_volatility calculate_max_drawdown
      calculate_var calculate_sharpe_ratio suggest_position_size
      suggest_stop_loss symbol
      = Py.Returned (Py.PyDict [
          ("risk_level", Py.PyStr "Unknown");
          ("volatility", Py.PyInt 0);
          ("max_drawdown", Py.PyInt 0);
          ("recommendations", Py.PyList [Py.PyStr "Unable to fetch price data"]);
          ("metrics", Py.PyDict [])
        ]).
Proof.
  intros th af rh cv cd cvar cs sp ss symbol Ht Hr.
  split.
  - unfold TechnicalAnalyst.analyze, TechnicalAnalyst.fetch_price_data.
    destruct Ht as [[exc ->] | [-> | ->]]; reflexivity.
  - unfold RiskManager.analyze, RiskManager.fetch_price_data.
    destruct Hr as [[exc ->] | [-> | ->]]; reflexivity.
Qed.

Lemma analyze_without_price_history_witness :
  TechnicalAnalyst.analyze Fixtures.empty_history Fixtures.unreached "ACME"
    = Py.Returned (Py.PyDict [
        ("score", Py.PyInt 50);
        ("bias", Py.PyStr "Unknown");
        ("insights", Py.PyList [Py.PyStr "Unable to fetch price data"]);
        ("indicators", Py.PyDict [])
      ]) /\
  RiskManager.analyze Fixtures.empty_history Fixtures.sample_volatility
    Fixtures.sample_drawdown Fixtures.sample_var Fixtures.sample_sharpe
    Fixtures.sample_position_size Fixtures.sample_stop_loss "ACME"
    = Py.Returned (Py.PyDict [
        ("risk_level", Py.PyStr "Unknown");
        ("volatility", Py.PyInt 0);
        ("max_drawdown", Py.PyInt 0);
        ("recommendations", Py.PyList [Py.PyStr "Unable to fetch price data"]);
        ("metrics", Py.PyDict [])
      ]).
Proof.
  apply analyze_without_price_history;
    right; right; reflexivity.
Defined.

(** ** C10: the revenue-growth curve *)

(** C10. For the metric "revenue_growth", [normalize_score] is 100 from 20
    upwards, 70 + 3 (v - 10) from 10 up to 20, 50 + 2 v from 0 up to 10, and
    max(0, 50 + 2 v) below 0; it maps 25 to 100, 15 to 85, 5 to 60 and -10 to
    30. *)
Theorem normalize_score_revenue_growth :
  (forall v : Q,
     let score := FundamentalAnalyst.normalize_score v "revenue_growth" in
     (20 <= v -> score == 100) /\
     (10 <= v < 20 -> score == 70 + 3 * (v - 10)) /\
     (0 <= v < 10 -> score == 50 + 2 * v) /\
     (v < 0 -> score == Qmax 0 (50 + 2 * v))) /\
  FundamentalAnalyst.normalize_score 25 "revenue_growth" == 100 /\
  FundamentalAnalyst.normalize_score 15 "revenue_growth" == 85 /\
  FundamentalAnalyst.normalize_score 5 "revenue_growth" == 60 /\
  FundamentalAnalyst.normalize_score (-10) "revenue_growth" == 30.
Proof.
  split; [| repeat split; vm_compute; reflexivity].
  intros v score. subst score.
  unfold FundamentalAnalyst.normalize_score. cbn [String.eqb Ascii.eqb Bool.eqb].
  cbv iota.
  repeat split; intros Hv; py_cases; try lra.
  all: destruct (Q.max_spec 0 (50 + 2 * v)) as [[? Hm] | [? Hm]];
    rewrite Hm; lra.
Qed.

Lemma normalize_score_revenue_growth_witness :
  FundamentalAnalyst.normalize_score 12 "revenue_growth" == 70 + 3 * (12 - 10).
Proof.
  destruct normalize_score_revenue_growth as [H _].
  destruct (H 12) as (_ & H12 & _).
  apply H12. split; [apply Qle_bool_true | apply Qle_bool_false]; reflexivity.
Defined.

(* ================================================================== *)
(** * Further properties of the decision engine *)
(* ================================================================== *)

Section EngineFacts.

(** Rounding keeps the order. *)
Lemma round_half_even_mono (x y : Q) :
  x <= y -> (Py.round_half_even x <= Py.round_half_even y)%Z.
Proof.
  intros Hxy.
  destruct (floor_bounds x) as [Hx1 Hx2], (floor_bounds y) as [Hy1 Hy2].
  assert (Qfloor x <= Qfloor y)%Z as Hfloor by (apply Qfloor_resp_le; exact Hxy).
  destruct (Z.eq_dec (Qfloor x) (Qfloor y)) as [Heq | Hne].
  - unfold Py.round_half_even. rewrite <- Heq in *.
    py_cases; try destruct (Z.even (Qfloor x)); first [lia | lra].
  - assert (Qfloor x + 1 <= Qfloor y)%Z as Hstep by lia.
    unfold Py.round_half_even.
    py_cases; try destruct (Z.even (Qfloor x));
      try destruct (Z.even (Qfloor y)); lia.
Qed.

Lemma round2_mono (x y : Q) : x <= y -> Py.round2 x <= Py.round2 y.
Proof.
  intros Hxy. unfold Py.round2.
  assert (Py.round_half_even (x * 100) <= Py.round_half_even (y * 100))%Z as H.
  { apply round_half_even_mono. lra. }
  rewrite Zle_Qle in H.
  set (n := inject_Z (Py.round_half_even (x * 100))) in *.
  set (m := inject_Z (Py.round_half_even (y * 100))) in *.
  unfold Qdiv. change (/ 100) with (1 # 100). lra.
Qed.

(** What [resolve_conflicts] can return in each risk regime. *)
Lemma resolve_conflicts_values (biases : list string) (risk_level : string) :
  let result := fst (DecisionEngine.resolve_conflicts biases risk_level) in
  (risk_level = "High" \/ risk_level = "Very High" ->
     result = "Hold" \/ result = "Avoid") /\
  (risk_level <> "High" -> risk_level <> "Very High" ->
     result = "Buy" \/ result = "Sell" \/ result = "Hold").
Proof.
  cbv zeta. unfold DecisionEngine.resolve_conflicts.
  case_bool_decide as Hrisk; rewrite risk_is_high in Hrisk.
  - split; [intros _ | tauto].
    repeat match goal with
           | |- context [if ?b then _ else _] => destruct b
           end; cbn [fst]; tauto.
  - split; [tauto | intros _ _].
    repeat match goal with
           | |- context [if ?b then _ else _] => destruct b
           end; cbn [fst]; tauto.
Qed.

Lemma count_containing_perm (sub : string) (biases biases' : list string) :
  Permutation biases biases' ->
  Py.count_containing sub biases = Py.count_containing sub biases'.
Proof.
  induction 1 as [| b l l' _ IH | a b l | l l' l'' _ IH1 _ IH2].
  - reflexivity.
  - rewrite !count_containing_cons, IH. reflexivity.
  - rewrite !count_containing_cons. lia.
  - congruence.
Qed.

End EngineFacts.

(** X1. [normalize_risk_score] knows six level names and nothing else: any
    other text, a differently cased name included, scores 50; the result
    always lies within 20..100 and falls as the level rises from Very Low to
    Very High. *)
Theorem normalize_risk_score_table :
  forall risk_level : string,
    (~ In risk_level ["Very Low"; "Low"; "Moderate"; "High"; "Very High"; "Unknown"] ->
       DecisionEngine.normalize_risk_score risk_level = 50) /\
    20 <= DecisionEngine.normalize_risk_score risk_level <= 100 /\
    DecisionEngine.normalize_risk_score "Very High"
      < DecisionEngine.normalize_risk_score "High" /\
    DecisionEngine.normalize_risk_score "High"
      < DecisionEngine.normalize_risk_score "Moderate" /\
    DecisionEngine.normalize_risk_score "Moderate"
      < DecisionEngine.normalize_risk_score "Low" /\
    DecisionEngine.normalize_risk_score "Low"
      < DecisionEngine.normalize_risk_score "Very Low" /\
    DecisionEngine.normalize_risk_score "very low" = 50.
Proof.
  intros level.
  assert (Hcases :
    In level ["Very Low"; "Low"; "Moderate"; "High"; "Very High"; "Unknown"] \/
    DecisionEngine.normalize_risk_score level = 50).
  { unfold DecisionEngine.normalize_risk_score, DecisionEngine.risk_mapping.
    destruct (decide (level = "Very Low")) as [-> | H1]; [left; cbn; tauto |].
    destruct (decide (level = "Low")) as [-> | H2]; [left; cbn; tauto |].
    destruct (decide (level = "Moderate")) as [-> | H3]; [left; cbn; tauto |].
    destruct (decide (level = "High")) as [-> | H4]; [left; cbn; tauto |].
    destruct (decide (level = "Very High")) as [-> | H5]; [left; cbn; tauto |].
    destruct (decide (level = "Unknown")) as [-> | H6]; [left; cbn; tauto |].
    right. rewrite !lookup_insert_ne by congruence.
    rewrite lookup_singleton_ne by congruence. reflexivity. }
  split; [| split; [| repeat split; vm_compute; reflexivity]].
  - intros Hnot. destruct Hcases as [Hin | Heq]; [contradiction | exact Heq].
  - destruct Hcases as [Hin | ->]; [| split; apply Qle_bool_true; reflexivity].
    cbn in Hin.
    repeat (destruct Hin as [<- | Hin];
            [split; apply Qle_bool_true; vm_compute; reflexivity |]).
    destruct Hin.
Qed.

Lemma normalize_risk_score_table_witness :
  DecisionEngine.normalize_risk_score "Elevated" = 50.
Proof.
  destruct (normalize_risk_score_table "Elevated") as [Hother _].
  apply Hother. cbn. intros H.
  repeat (destruct H as [H | H]; [discriminate H |]). exact H.
Defined.

(** X2. Whatever the inputs, [determine_recommendation] answers Buy, Hold,
    Sell or Avoid.  It answers Buy only at a combined score of 55 or more,
    Sell only below 45 (so never at 45 or more, even on a bearish consensus),
    and Avoid only from 55 up to 70 under High or Very High risk; under such
    risk a score below 70 never gives Buy. *)
Theorem determine_recommendation_outcomes :
  forall (combined_score : Q) (biases : list string) (risk_level : string),
    let result :=
      fst (DecisionEngine.determine_recommendation combined_score biases risk_level) in
    In result ["Buy"; "Hold"; "Sell"; "Avoid"] /\
    (result = "Buy" -> 55 <= combined_score) /\
    (result = "Sell" -> combined_score < 45) /\
    (result = "Avoid" ->
       55 <= combined_score < 70 /\
       (risk_level = "High" \/ risk_level = "Very High")) /\
    (risk_level = "High" \/ risk_level = "Very High" ->
       combined_score < 70 -> result <> "Buy").
Proof.
  intros s biases risk result. subst result.
  pose proof (resolve_conflicts_values biases risk) as [Hhigh Hnormal].
  cbv zeta in Hhigh, Hnormal.
  unfold DecisionEngine.determine_recommendation.
  destruct (DecisionEngine.resolve_conflicts biases risk) as [c reason].
  cbn [fst] in *.
  assert (Hc : (c = "Hold" \/ c = "Avoid") /\
               (risk = "High" \/ risk = "Very High")
               \/ (c = "Buy" \/ c = "Sell" \/ c = "Hold") /\
                  risk <> "High" /\ risk <> "Very High").
  { destruct (decide (risk = "High")) as [-> | H1]; [left; tauto |].
    destruct (decide (risk = "Very High")) as [-> | H2]; [left; tauto |].
    right. tauto. }
  clear Hhigh Hnormal.
  py_cases;
    repeat match goal with
           | |- context [String.eqb ?a ?b] => destruct (String.eqb_spec a b)
           end; cbn [fst In];
    destruct Hc as [[[-> | ->] Hr] | [[-> | [-> | ->]] [Hr1 Hr2]]];
    repeat split; intros; try discriminate; try lra; try tauto; try congruence.
Qed.

Lemma determine_recommendation_outcomes_witness :
  55 <= 62 < 70 /\ ("Very High" = "High" \/ "Very High" = "Very High").
Proof.
  pose proof (determine_recommendation_outcomes
                62 ["Bearish"; "Slightly Bearish"; "Neutral"] "Very High") as H.
  cbv zeta in H. destruct H as (_ & _ & _ & H & _).
  apply H. vm_compute. reflexivity.
Defined.

(** X3. [resolve_conflicts] looks at the labels only through the three
    counts: reordering the labels changes neither the recommendation nor the
    reason.  Under High or Very High risk it answers Hold or Avoid, never Buy
    or Sell; under any other risk level it answers Buy, Sell or Hold, never
    Avoid. *)
Theorem resolve_conflicts_order_and_regime :
  forall (biases biases' : list string) (risk_level : string),
    Permutation biases biases' ->
    DecisionEngine.resolve_conflicts biases risk_level
      = DecisionEngine.resolve_conflicts biases' risk_level /\
    let result := fst (DecisionEngine.resolve_conflicts biases risk_level) in
    (risk_level = "High" \/ risk_level = "Very High" ->
       result = "Hold" \/ result = "Avoid") /\
    (risk_level <> "High" -> risk_level <> "Very High" ->
       result = "Buy" \/ result = "Sell" \/ result = "Hold").
Proof.
  intros biases biases' risk Hperm. split.
  - unfold DecisionEngine.resolve_conflicts.
    rewrite !(count_containing_perm _ biases biases' Hperm). reflexivity.
  - apply resolve_conflicts_values.
Qed.

Lemma resolve_conflicts_order_and_regime_witness :
  DecisionEngine.resolve_conflicts ["Neutral"; "Bullish"; "Slightly Bullish"] "Low"
  = DecisionEngine.resolve_conflicts ["Bullish"; "Slightly Bullish"; "Neutral"] "Low".
Proof.
  apply (resolve_conflicts_order_and_regime
           ["Neutral"; "Bullish"; "Slightly Bullish"]
           ["Bullish"; "Slightly Bullish"; "Neutral"] "Low").
  apply (Permutation_cons_append ["Bullish"; "Slightly Bullish"] "Neutral").
Defined.

(** X4. [combine_scores] is monotone: raising any of the four scores never
    lowers the combined score. *)
Theorem combine_scores_monotone :
  forall f f' s s' t t' r r' : Q,
    f <= f' -> s <= s' -> t <= t' -> r <= r' ->
    DecisionEngine.combine_scores f s t r
      <= DecisionEngine.combine_scores f' s' t' r'.
Proof.
  intros f f' s s' t t' r r' Hf Hs Ht Hr.
  unfold DecisionEngine.combine_scores. cbn [DecisionEngine.weights
    DecisionEngine.w_fundamental DecisionEngine.w_sentiment
    DecisionEngine.w_technical DecisionEngine.w_risk].
  apply round2_mono. lra.
Qed.

Lemma combine_scores_monotone_witness :
  DecisionEngine.combine_scores 40 50 60 20
    <= DecisionEngine.combine_scores 40 50 61.5 80.
Proof.
  apply combine_scores_monotone; apply Qle_bool_true; reflexivity.
Defined.

Lemma extremes_unique (scores scores' : list Q) (hi lo hi' lo' : Q) :
  Permutation scores scores' ->
  Spec.extremes scores hi lo -> Spec.extremes scores' hi' lo' ->
  hi == hi' /\ lo == lo'.
Proof.
  intros Hperm (Hhi & Hlo & Hall) (Hhi' & Hlo' & Hall').
  pose proof (Hall' hi (Permutation_in _ Hperm Hhi)).
  pose proof (Hall' lo (Permutation_in _ Hperm Hlo)).
  pose proof (Hall hi' (Permutation_in _ (Permutation_sym Hperm) Hhi')).
  pose proof (Hall lo' (Permutation_in _ (Permutation_sym Hperm) Hlo')).
  split; lra.
Qed.

(** X5. [calculate_confidence] raises only on an empty score list.  What it
    returns is one of 35, 45, 55, 65, 75, 85 and 95: the clamp to 30..95 never
    changes a value, and nothing below 35 is ever returned. *)
Theorem calculate_confidence_values :
  forall (scores : list Q) (biases : list string),
    (DecisionEngine.calculate_confidence scores biases = None <-> scores = []) /\
    (forall c, DecisionEngine.calculate_confidence scores biases = Some c ->
               In c [35; 45; 55; 65; 75; 85; 95]%Z).
Proof.
  intros scores biases. split.
  - split.
    + destruct scores as [| x rest]; [reflexivity |].
      unfold DecisionEngine.calculate_confidence. cbn. discriminate.
    + intros ->. reflexivity.
  - intros c. unfold DecisionEngine.calculate_confidence.
    destruct (Py.max_list scores) as [hi |]; [| discriminate].
    destruct (Py.min_list scores) as [lo |]; [| discriminate].
    cbn [mbind option_bind].
    repeat match goal with
           | |- context [if ?b then _ else _] => destruct b
           end; intros [= <-]; cbn; tauto.
Qed.

Lemma calculate_confidence_values_witness :
  In 65%Z [35; 45; 55; 65; 75; 85; 95]%Z.
Proof.
  destruct (calculate_confidence_values
              [40; 50; 55; 80] ["Bullish"; "Bullish"; "Neutral"]) as [_ H].
  apply H. vm_compute. reflexivity.
Defined.

(** X6. The confidence depends neither on the order of the scores nor on
    the order of the labels. *)
Theorem calculate_confidence_order :
  forall (scores scores' : list Q) (biases biases' : list string),
    Permutation scores scores' -> Permutation biases biases' ->
    DecisionEngine.calculate_confidence scores biases
      = DecisionEngine.calculate_confidence scores' biases'.
Proof.
  intros scores scores' biases biases' Hs Hb.
  unfold DecisionEngine.calculate_confidence.
  rewrite (list_to_set_perm_L (C := gset string) biases biases' Hb).
  destruct scores as [| x rest].
  - apply Permutation_nil in Hs. subst scores'. reflexivity.
  - destruct scores' as [| x' rest'];
      [apply Permutation_sym, Permutation_nil in Hs; discriminate Hs |].
    destruct (extremes_of_scores (x :: rest)) as (hi & lo & Hmax & Hmin & Hext);
      [discriminate |].
    destruct (extremes_of_scores (x' :: rest')) as (hi' & lo' & Hmax' & Hmin' & Hext');
      [discriminate |].
    rewrite Hmax, Hmin, Hmax', Hmin'. cbn [mbind option_bind].
    destruct (extremes_unique _ _ _ _ _ _ Hs Hext Hext') as [Hhi Hlo].
    assert (Hrange : hi - lo == hi' - lo') by (rewrite Hhi, Hlo; reflexivity).
    unfold Py.lt, Py.gt.
    rewrite (Qleb_comp 20 20 (Qeq_refl 20) _ _ Hrange).
    rewrite (Qleb_comp _ _ Hrange 40 40 (Qeq_refl 40)).
    reflexivity.
Qed.

Lemma calculate_confidence_order_witness :
  DecisionEngine.calculate_confidence [80; 40; 55; 50] ["Neutral"; "Bullish"; "Bullish"]
  = DecisionEngine.calculate_confidence [40; 55; 50; 80] ["Bullish"; "Bullish"; "Neutral"].
Proof.
  apply calculate_confidence_order.
  - apply (Permutation_cons_append [40; 55; 50] 80).
  - apply (Permutation_cons_append ["Bullish"; "Bullish"] "Neutral").
Defined.

Lemma fundamental_score_range (metrics : option (gmap string Q)) :
  0 <= (FundamentalAnalyst.calculate_fundamental_score metrics).1 <= 100.
Proof.
  unfold FundamentalAnalyst.calculate_fundamental_score.
  destruct metrics as [metrics |]; [| cbn [fst]; lra].
  case_bool_decide; [cbn [fst]; lra |].
  pose proof (weighted_sum_range metrics) as Hsum.
  destruct (fold_left FundamentalAnalyst.score_step (map_to_list metrics) (∅, 0))
    as [scores weighted_sum].
  cbn [fst snd] in *.
  apply (round2_bounds 0 100).
  change (inject_Z 0) with 0. change (inject_Z 100) with 100. exact Hsum.
Qed.

Lemma pipeline_risk_score_range (level : string) :
  In level ["Low"; "Moderate"; "High"; "Very High"; "Unknown"] ->
  20 <= DecisionEngine.normalize_risk_score level <= 80.
Proof.
  cbn. intros [<- | [<- | [<- | [<- | [<- | []]]]]];
    split; apply Qle_bool_true; vm_compute; reflexivity.
Qed.

(** X7. In the pipeline the combined score never leaves 4..96: the three
    directional scores lie within 0..100 and the risk agent contributes 20 to
    80 (its level is "Unknown" or comes from [assess_risk_level], which never
    says "Very Low"), so neither 0 nor 100 can be reached. *)
Theorem pipeline_combined_score_range :
  forall (metrics : option (gmap string Q)) (average_sentiment : Q)
         (indicators : TechnicalAnalyst.indicators_t) (risk_level : string),
    (risk_level = "Unknown" \/
     exists volatility max_drawdown sharpe_ratio,
       risk_level = RiskManager.assess_risk_level volatility max_drawdown sharpe_ratio) ->
    4 <= DecisionEngine.combine_scores
           (FundamentalAnalyst.calculate_fundamental_score metrics).1
           (SentimentAnalyst.calculate_sentiment_score average_sentiment)
           (TechnicalAnalyst.calculate_technical_score indicators)
           (DecisionEngine.normalize_risk_score risk_level)
      <= 96.
Proof.
  intros metrics avg ind level Hlevel.
  assert (Hin : In level ["Low"; "Moderate"; "High"; "Very High"; "Unknown"]).
  { destruct Hlevel as [-> | (v & d & sh & ->)]; [cbn; tauto |].
    pose proof (assess_risk_level_values v d sh) as H. cbn in H |- *. tauto. }
  pose proof (pipeline_risk_score_range level Hin) as Hr.
  pose proof (fundamental_score_range metrics) as Hf.
  pose proof (clamp_0_100 (Py.round2 (50 + avg * 50))) as Hs.
  assert (Ht : 0 <= TechnicalAnalyst.calculate_technical_score ind <= 100)
    by apply clamp_0_100.
  fold (SentimentAnalyst.calculate_sentiment_score avg) in Hs.
  unfold DecisionEngine.combine_scores.
  cbn [DecisionEngine.weights DecisionEngine.w_fundamental
       DecisionEngine.w_sentiment DecisionEngine.w_technical DecisionEngine.w_risk].
  apply (round2_bounds 4 96).
  change (inject_Z 4) with 4. change (inject_Z 96) with 96. lra.
Qed.

Lemma pipeline_combined_score_range_witness :
  4 <= DecisionEngine.combine_scores
         (FundamentalAnalyst.calculate_fundamental_score
            (Some {[ "revenue_growth" := 25; "roe" := 12 ]})).1
         (SentimentAnalyst.calculate_sentiment_score 0.4)
         (TechnicalAnalyst.calculate_technical_score
            {| TechnicalAnalyst.ind_rsi := Some 75;
               TechnicalAnalyst.ind_trend := Some "Strong Uptrend";
               TechnicalAnalyst.ind_macd_histogram := Some 0.02;
               TechnicalAnalyst.ind_price_position := Some 0.9 |})
         (DecisionEngine.normalize_risk_score "Unknown")
    <= 96.
Proof.
  apply pipeline_combined_score_range. left. reflexivity.
Defined.

(* ================================================================== *)
(** * Further properties of the bias labels *)
(* ================================================================== *)

(** Evaluate the substring tests on the literal label at hand, then settle
    each equivalence from the comparisons in the context. *)
Ltac label_cases :=
  unfold Spec.one_direction, Spec.directions_in;
  repeat match goal with
         | |- context [Py.contains ?a ?b] =>
             let v := eval vm_compute in (Py.contains a b) in
             change (Py.contains a b) with v
         end;
  repeat split; intros;
  repeat match goal with
         | H : _ /\ _ |- _ => destruct H
         end;
  first [ reflexivity | discriminate | lra | cbn; lia | congruence ].

(** X8. What the three [determine_bias] functions say in terms of the
    substring counts of [resolve_conflicts]: a fundamental label contains
    "Bullish" exactly from a score of 60 and "Bearish" exactly below 45; a
    sentiment label contains "Bullish" exactly above a mean polarity of 0.1
    and "Bearish" exactly at -0.1 or below; a technical label contains
    "Bullish" exactly from a score of 55 (also as "Bullish but cautious") and
    "Bearish" exactly below 45.  Every such label names one direction at
    most. *)
Theorem bias_labels_direction :
  (forall score : Q,
     let label := FundamentalAnalyst.determine_bias score in
     (Py.contains "Bullish" label = true <-> 60 <= score) /\
     (Py.contains "Bearish" label = true <-> score < 45) /\
     Spec.one_direction label) /\
  (forall average_sentiment : Q,
     let label := SentimentAnalyst.determine_bias average_sentiment in
     (Py.contains "Bullish" label = true <-> 0.1 < average_sentiment) /\
     (Py.contains "Bearish" label = true <-> average_sentiment <= -0.1) /\
     Spec.one_direction label) /\
  (forall (score : Q) (trend : string) (rsi : Py.pyfloat),
     let label := TechnicalAnalyst.determine_bias score trend rsi in
     (Py.contains "Bullish" label = true <-> 55 <= score) /\
     (Py.contains "Bearish" label = true <-> score < 45) /\
     (label = "Bullish but cautious" <->
        55 <= score < 70 /\ Py.fgt rsi (Py.Finite 65) = true) /\
     Spec.one_direction label).
Proof.
  split; [| split].
  - intros score label. subst label. unfold FundamentalAnalyst.determine_bias.
    py_cases; label_cases.
  - intros avg label. subst label. unfold SentimentAnalyst.determine_bias.
    py_cases; label_cases.
  - intros score trend rsi label. subst label.
    unfold TechnicalAnalyst.determine_bias.
    py_cases; try destruct (Py.fgt rsi (Py.Finite 65)) eqn:Hrsi; label_cases.
Qed.

(* ================================================================== *)
(** * Further properties of the fundamental analyst *)
(* ================================================================== *)

(** X9. The curves of revenue growth, profit margin and return on equity
    never fall as the metric rises.  The debt-to-equity curve never rises
    while the ratio stays below 2 and never rises from 2 on, but it steps up
    between the two: a ratio of 2 scores 60 where 1.9 scores 50. *)
Theorem normalize_score_monotone :
  forall v v' : Q,
    v <= v' ->
    FundamentalAnalyst.normalize_score v "revenue_growth"
      <= FundamentalAnalyst.normalize_score v' "revenue_growth" /\
    FundamentalAnalyst.normalize_score v "profit_margin"
      <= FundamentalAnalyst.normalize_score v' "profit_margin" /\
    FundamentalAnalyst.normalize_score v "roe"
      <= FundamentalAnalyst.normalize_score v' "roe" /\
    (v' < 2 \/ 2 <= v ->
       FundamentalAnalyst.normalize_score v' "debt_to_equity"
         <= FundamentalAnalyst.normalize_score v "debt_to_equity") /\
    FundamentalAnalyst.normalize_score 1.9 "debt_to_equity" == 50 /\
    FundamentalAnalyst.normalize_score 2 "debt_to_equity" == 60.
Proof.
  intros v v' Hv.
  unfold FundamentalAnalyst.normalize_score.
  cbn [String.eqb Ascii.eqb Bool.eqb]. cbv iota.
  split; [py_cases; lra |].
  split; [py_cases; lra |].
  split; [py_cases; lra |].
  split; [intros Hside; py_cases; lra |].
  split; vm_compute; reflexivity.
Qed.

Lemma normalize_score_monotone_witness :
  FundamentalAnalyst.normalize_score 8 "roe"
    <= FundamentalAnalyst.normalize_score 17 "roe".
Proof.
  destruct (normalize_score_monotone 8 17) as (_ & _ & H & _).
  - apply Qle_bool_true. reflexivity.
  - exact H.
Defined.

Lemma determine_bias_fundamental_values (score : Q) :
  In (FundamentalAnalyst.determine_bias score)
     ["Bullish"; "Slightly Bullish"; "Neutral"; "Slightly Bearish"; "Bearish"].
Proof.
  unfold FundamentalAnalyst.determine_bias.
  repeat match goal with
         | |- context [if ?b then _ else _] => destruct b
         end; cbn; tauto.
Qed.

Lemma generate_insights_length (metrics : gmap string Q) :
  metrics <> ∅ ->
  (2 <= length (FundamentalAnalyst.generate_insights (Some metrics)) <= 3)%nat.
Proof.
  intros Hne. unfold FundamentalAnalyst.generate_insights.
  rewrite bool_decide_eq_false_2 by exact Hne.
  repeat match goal with
         | |- context [if ?b then _ else _] => destruct b
         end; cbn; lia.
Qed.

(** X10. [FundamentalAnalyst.analyze] never fails on what the fetch gives;
    the metrics are finite numbers.  Without metrics (the fetch raised, or
    gave an empty dictionary) the result is score 0, bias "Unknown" and the
    single insight "Unable to fetch financial data".  With metrics the score
    lies within 0..100, the bias is the one of the five labels that
    [determine_bias] gives for that score, and there are two or three
    insights: one on debt, one on valuation, and a third one, on revenue,
    exactly when growth is above 5 or below 0. *)
Theorem fundamental_analyze_result :
  forall (fetch_financial_metrics : string -> option (gmap string Q))
         (symbol : string),
    let analysis := FundamentalAnalyst.analyze fetch_financial_metrics symbol in
    let unavailable :=
      fetch_financial_metrics symbol = None \/
      fetch_financial_metrics symbol = Some ∅ in
    (unavailable ->
       FundamentalAnalyst.fa_score analysis = 0 /\
       FundamentalAnalyst.fa_bias analysis = "Unknown" /\
       FundamentalAnalyst.fa_insights analysis = ["Unable to fetch financial data"] /\
       FundamentalAnalyst.fa_normalized_scores analysis = None) /\
    (~ unavailable ->
       FundamentalAnalyst.fa_bias analysis
         = FundamentalAnalyst.determine_bias (FundamentalAnalyst.fa_score analysis) /\
       In (FundamentalAnalyst.fa_bias analysis)
          ["Bullish"; "Slightly Bullish"; "Neutral"; "Slightly Bearish"; "Bearish"] /\
       (2 <= length (FundamentalAnalyst.fa_insights analysis) <= 3)%nat /\
       (length (FundamentalAnalyst.fa_insights analysis) = 3%nat <->
          exists m, fetch_financial_metrics symbol = Some m /\
                    (5 < default 0 (m !! "revenue_growth") \/
                     default 0 (m !! "revenue_growth") < 0))) /\
    0 <= FundamentalAnalyst.fa_score analysis <= 100.
Proof.
  intros fetch symbol analysis unavailable. subst analysis unavailable.
  unfold FundamentalAnalyst.analyze.
  destruct (fetch symbol) as [m |] eqn:Hfetch.
  - case_bool_decide as Hempty.
    + subst m. cbn. repeat split; first [tauto | lra].
    + pose proof (fundamental_score_range (Some m)) as Hrange.
      destruct (FundamentalAnalyst.calculate_fundamental_score (Some m))
        as [score normalized] eqn:Hscore.
      cbn [FundamentalAnalyst.fa_score FundamentalAnalyst.fa_bias
           FundamentalAnalyst.fa_insights FundamentalAnalyst.fa_normalized_scores
           fst] in *.
      split; [intros [H | H]; [discriminate H | congruence] |].
      split; [| exact Hrange].
      intros _. split; [reflexivity |].
      split; [apply determine_bias_fundamental_values |].
      split; [apply generate_insights_length; exact Hempty |].
      unfold FundamentalAnalyst.generate_insights.
      rewrite bool_decide_eq_false_2 by exact Hempty.
      split.
      * intros Hlen. exists m. split; [reflexivity |].
        destruct (Qlt_le_dec 5 (default 0 (m !! "revenue_growth")))
          as [H5 | H5]; [left; exact H5 |].
        destruct (Qlt_le_dec (default 0 (m !! "revenue_growth")) 0)
          as [H0 | H0]; [right; exact H0 |].
        exfalso. revert Hlen. py_cases; try lra;
          repeat match goal with
                 | |- context [if ?b then _ else _] => destruct b
                 end; cbn; intros; first [lra | lia].
      * intros (m' & [= <-] & Hg).
        destruct Hg as [Hg | Hg]; py_cases; try lra;
          repeat match goal with
                 | |- context [if ?b then _ else _] => destruct b
                 end; reflexivity.
  - cbn. repeat split; first [tauto | lra].
Qed.

(* ================================================================== *)
(** * Further properties of the sentiment analyst *)
(* ================================================================== *)

Section Means.

Lemma fold_left_Qplus (xs : list Q) (a : Q) :
  fold_left Qplus xs a == a + Spec.sumQ xs.
Proof.
  revert a. induction xs as [| x xs IH]; intros a; cbn.
  - lra.
  - rewrite IH. lra.
Qed.

Lemma sumQ_bounds (lo hi : Q) (xs : list Q) :
  Forall (fun x => lo <= x <= hi) xs ->
  inject_Z (Z.of_nat (length xs)) * lo <= Spec.sumQ xs
  /\ Spec.sumQ xs <= inject_Z (Z.of_nat (length xs)) * hi.
Proof.
  induction 1 as [| x xs Hx _ IH].
  - cbn [length Spec.sumQ]. change (inject_Z (Z.of_nat 0)) with 0. lra.
  - cbn [length Spec.sumQ]. rewrite Nat2Z.inj_succ. unfold Z.succ.
    rewrite inject_Z_plus. change (inject_Z 1) with 1.
    set (n := inject_Z (Z.of_nat (length xs))) in *.
    assert ((n + 1) * lo == n * lo + lo) as -> by ring.
    assert ((n + 1) * hi == n * hi + hi) as -> by ring.
    lra.
Qed.

(** The mean of a non-empty series lies between its bounds. *)
Lemma mean_bounds (lo hi : Q) (xs : list Q) :
  xs <> [] -> Forall (fun x => lo <= x <= hi) xs ->
  lo <= Py.mean xs <= hi.
Proof.
  intros Hne Hall. unfold Py.mean. rewrite fold_left_Qplus.
  destruct (sumQ_bounds lo hi xs Hall) as [H1 H2].
  assert (0 < inject_Z (Z.of_nat (length xs))) as Hn.
  { change 0 with (inject_Z 0). rewrite <- Zlt_Qlt.
    destruct xs; [congruence | cbn [length]; lia]. }
  set (n := inject_Z (Z.of_nat (length xs))) in *.
  split.
  - apply Qle_shift_div_l; [exact Hn | lra].
  - apply Qle_shift_div_r; [exact Hn | lra].
Qed.

End Means.

Lemma sentiment_bias_values (average_sentiment : Q) :
  In (SentimentAnalyst.determine_bias average_sentiment)
     ["Bullish"; "Slightly Bullish"; "Neutral"; "Slightly Bearish"; "Bearish"].
Proof.
  unfold SentimentAnalyst.determine_bias.
  repeat match goal with
         | |- context [if ?b then _ else _] => destruct b
         end; cbn; tauto.
Qed.

(** X11. The sentiment score rises with the mean polarity.  For a polarity
    within -1..1 the score is within a hundredth of 50 + 50 p.  Score and
    bias agree: "Bullish" comes with a score of at least 65, "Bearish" with at
    most 35, "Neutral" with 45 to 55. *)
Theorem sentiment_score_and_bias :
  forall p q : Q,
    (p <= q ->
       SentimentAnalyst.calculate_sentiment_score p
         <= SentimentAnalyst.calculate_sentiment_score q) /\
    (-1 <= p <= 1 ->
       - (1 # 100)
       <= SentimentAnalyst.calculate_sentiment_score p - (50 + p * 50)
       <= 1 # 100) /\
    (SentimentAnalyst.determine_bias p = "Bullish" ->
       65 <= SentimentAnalyst.calculate_sentiment_score p) /\
    (SentimentAnalyst.determine_bias p = "Bearish" ->
       SentimentAnalyst.calculate_sentiment_score p <= 35) /\
    (SentimentAnalyst.determine_bias p = "Neutral" ->
       45 <= SentimentAnalyst.calculate_sentiment_score p <= 55).
Proof.
  intros p q. unfold SentimentAnalyst.calculate_sentiment_score.
  split; [| split; [| split; [| split]]].
  - intros Hpq.
    assert (Py.round2 (50 + p * 50) <= Py.round2 (50 + q * 50)) as H
      by (apply round2_mono; lra).
    revert H. generalize (Py.round2 (50 + p * 50)), (Py.round2 (50 + q * 50)).
    intros a b Hab. py_cases; lra.
  - intros Hp.
    pose proof (round2_bounds 0 100 (50 + p * 50)) as H.
    change (inject_Z 0) with 0 in H. change (inject_Z 100) with 100 in H.
    assert (0 <= Py.round2 (50 + p * 50) <= 100) as Hr by (apply H; lra).
    pose proof (round2_near (50 + p * 50)) as Hnear.
    revert Hr Hnear. generalize (Py.round2 (50 + p * 50)). intros a Ha Hnear.
    py_cases; lra.
  - unfold SentimentAnalyst.determine_bias. intros Hb.
    apply clamp_ge; [lra |]. apply (round2_ge 65). change (inject_Z 65) with 65.
    revert Hb. py_cases; intros; first [discriminate | lra].
  - unfold SentimentAnalyst.determine_bias. intros Hb.
    apply clamp_le; [lra |]. apply (round2_le 35). change (inject_Z 35) with 35.
    revert Hb. py_cases; intros; first [discriminate | lra].
  - unfold SentimentAnalyst.determine_bias. intros Hb.
    assert (-0.1 < p <= 0.1) as Hp
      by (revert Hb; py_cases; intros; first [discriminate | lra]).
    split.
    + apply clamp_ge; [lra |]. apply (round2_ge 45). change (inject_Z 45) with 45. lra.
    + apply clamp_le; [lra |]. apply (round2_le 55). change (inject_Z 55) with 55. lra.
Qed.

Lemma sentiment_score_and_bias_witness :
  65 <= SentimentAnalyst.calculate_sentiment_score 0.42.
Proof.
  destruct (sentiment_score_and_bias 0.42 0.42) as (_ & _ & H & _).
  apply H. vm_compute. reflexivity.
Defined.

Section SentimentCounts.

Lemma filter_map_length {A B} (P : B -> bool) (f : A -> B) (l : list A) :
  length (List.filter P (map f l)) = length (List.filter (fun x => P (f x)) l).
Proof.
  induction l as [| x l IH]; cbn; [reflexivity |].
  destruct (P (f x)); cbn; rewrite IH; reflexivity.
Qed.

Lemma filter_length_le {A} (P : A -> bool) (l : list A) :
  (length (List.filter P l) <= length l)%nat.
Proof.
  induction l as [| x l IH]; cbn; [lia |].
  destruct (P x); cbn; lia.
Qed.

Lemma classify_tests (p : Q) :
  let says (class : string) :=
    String.eqb (SentimentAnalyst.classify_sentiment p) class in
  (p >? 0.1) = says "Positive" /\
  (p <? -0.1) = says "Negative" /\
  (says "Positive", says "Negative", says "Neutral") ∈
    [(true, false, false); (false, true, false); (false, false, true)].
Proof.
  cbv zeta. unfold SentimentAnalyst.classify_sentiment.
  py_cases; try lra; cbn [String.eqb Ascii.eqb Bool.eqb]; cbv iota;
    repeat split; set_solver.
Qed.

(** The three classes of [classify_sentiment] split any list of
    polarities, and the two counting tests of [calculate_sentiment_metrics]
    pick the "Positive" and the "Negative" ones. *)
Lemma classify_partition (ps : list Q) :
  let count (class : string) :=
    length (List.filter
              (fun p => String.eqb (SentimentAnalyst.classify_sentiment p) class) ps) in
  length (List.filter (fun p => p >? 0.1) ps) = count "Positive" /\
  length (List.filter (fun p => p <? -0.1) ps) = count "Negative" /\
  (count "Positive" + count "Negative" + count "Neutral" = length ps)%nat.
Proof.
  cbv zeta. induction ps as [| p ps (IH1 & IH2 & IH3)]; [cbn; lia |].
  cbn [List.filter].
  destruct (classify_tests p) as (H1 & H2 & H3). cbv zeta in H1, H2, H3.
  rewrite H1, H2.
  repeat (apply elem_of_cons in H3 as [H3 | H3];
          [injection H3 as -> -> ->; cbn [length]; lia |]).
  apply elem_of_nil in H3. destruct H3.
Qed.

End SentimentCounts.

(** X12. [calculate_sentiment_metrics] keeps its counts consistent: the
    total is the number of items, the trend has one entry per item in the
    same order of dates, the positive, negative and neutral counts are the
    numbers of items that [classify_sentiment] calls "Positive", "Negative"
    and "Neutral" and add up to the total, and the positive percentage lies
    within 0..100.  When every polarity lies within -1..1, so does the
    average. *)
Theorem sentiment_metrics_consistent :
  forall (blob_polarity : string -> Q) (news_items : list SentimentAnalyst.news_item),
    let metrics :=
      SentimentAnalyst.calculate_sentiment_metrics blob_polarity news_items in
    let polarity item :=
      (SentimentAnalyst.sentiment_of_item blob_polarity item).1 in
    let count (class : string) :=
      Z.of_nat (length (List.filter
        (fun item => String.eqb (SentimentAnalyst.classify_sentiment (polarity item)) class)
        news_items)) in
    SentimentAnalyst.total_count metrics = Z.of_nat (length news_items) /\
    map SentimentAnalyst.te_date (SentimentAnalyst.sentiment_trend metrics)
      = map SentimentAnalyst.ni_date news_items /\
    SentimentAnalyst.positive_count metrics = count "Positive" /\
    SentimentAnalyst.negative_count metrics = count "Negative" /\
    SentimentAnalyst.neutral_count metrics = count "Neutral" /\
    (SentimentAnalyst.positive_count metrics + SentimentAnalyst.negative_count metrics
     + SentimentAnalyst.neutral_count metrics
     = SentimentAnalyst.total_count metrics)%Z /\
    0 <= SentimentAnalyst.positive_percentage metrics <= 100 /\
    ((forall text, -1 <= blob_polarity text <= 1) ->
       -1 <= SentimentAnalyst.average_sentiment metrics <= 1).
Proof.
  intros blob items metrics polarity count.
  destruct items as [| item rest].
  { subst metrics count. cbn. repeat split; try lia; try lra;
      intros; apply Qle_bool_true; reflexivity. }
  subst metrics. unfold SentimentAnalyst.calculate_sentiment_metrics. cbv iota.
  cbn [SentimentAnalyst.total_count SentimentAnalyst.sentiment_trend
       SentimentAnalyst.positive_count SentimentAnalyst.negative_count
       SentimentAnalyst.neutral_count SentimentAnalyst.positive_percentage
       SentimentAnalyst.average_sentiment].
  set (items := item :: rest) in *.
  change (map (fun item0 => (SentimentAnalyst.sentiment_of_item blob item0).1) items)
    with (map polarity items).
  pose proof (classify_partition (map polarity items)) as (Hpos & Hneg & Hsum).
  cbv zeta in Hpos, Hneg, Hsum.
  pose proof (filter_length_le (fun p => p >? 0.1) (map polarity items)) as Hle.
  repeat match goal with
         | H : context [List.filter _ (map _ _)] |- _ =>
             rewrite filter_map_length in H
         end.
  repeat rewrite filter_map_length.
  rewrite length_map in Hsum, Hle.
  rewrite !length_map.
  subst count. cbv beta.
  split; [reflexivity |].
  split; [rewrite map_map; reflexivity |].
  split; [rewrite Hpos; reflexivity |].
  split; [rewrite Hneg; reflexivity |].
  split; [rewrite Hpos, Hneg; lia |].
  split; [rewrite Hpos, Hneg; lia |].
  split.
  - set (pos := length (List.filter (fun x => polarity x >? 0.1) items)) in *.
    assert (0 < length items)%nat as Hn by (unfold items; cbn; lia).
    destruct (Z.ltb_spec 0 (Z.of_nat (length items))) as [_ | Hbad]; [| lia].
    apply (round2_bounds 0 100).
    change (inject_Z 0) with 0. change (inject_Z 100) with 100.
    assert (0 < inject_Z (Z.of_nat (length items))) as Hq
      by (change 0 with (inject_Z 0); rewrite <- Zlt_Qlt; lia).
    assert (0 <= inject_Z (Z.of_nat pos)) as Hp0
      by (change 0 with (inject_Z 0); rewrite <- Zle_Qle; lia).
    assert (inject_Z (Z.of_nat pos) <= inject_Z (Z.of_nat (length items))) as Hp1
      by (rewrite <- Zle_Qle; lia).
    set (a := inject_Z (Z.of_nat pos)) in *.
    set (n := inject_Z (Z.of_nat (length items))) in *.
    assert (0 <= a / n) as H0 by (apply Qle_shift_div_l; [exact Hq | lra]).
    assert (a / n <= 1) as H1 by (apply Qle_shift_div_r; [exact Hq | lra]).
    lra.
  - intros Hblob. apply mean_bounds.
    + unfold items. discriminate.
    + apply List.Forall_forall. intros p Hp.
      apply in_map_iff in Hp as (it & <- & _).
      subst polarity. cbv beta.
      unfold SentimentAnalyst.sentiment_of_item, SentimentAnalyst.analyze_sentiment.
      cbn [fst]. destruct (String.eqb _ ""); [lra | apply Hblob].
Qed.

Section Spike.

Import SentimentAnalyst.

Lemma insert_by_date_perm (x : trend_entry) (l : list trend_entry) :
  Permutation (insert_by_date x l) (x :: l).
Proof.
  induction l as [| y l IH]; cbn; [reflexivity |].
  destruct (te_date x <=? te_date y)%Z; [reflexivity |].
  rewrite IH. apply perm_swap.
Qed.

Lemma sorted_by_date_perm (l : list trend_entry) :
  Permutation (sorted_by_date l) l.
Proof.
  induction l as [| x l IH]; cbn; [reflexivity |].
  rewrite insert_by_date_perm, IH. reflexivity.
Qed.

Lemma insert_by_date_ascending (x : trend_entry) (l : list trend_entry) :
  Spec.ascending l -> Spec.ascending (insert_by_date x l).
Proof.
  induction l as [| y l IH]; cbn; [tauto |].
  intros [Hy Hl]. destruct (Z.leb_spec (te_date x) (te_date y)) as [Hle | Hgt].
  - cbn. repeat split; [| exact Hy | exact Hl].
    intros z [<- | Hz]; [exact Hle |]. specialize (Hy z Hz). lia.
  - cbn. split; [| apply IH; exact Hl].
    intros z Hz.
    apply (Permutation_in _ (insert_by_date_perm x l)) in Hz.
    destruct Hz as [<- | Hz]; [lia | apply Hy; exact Hz].
Qed.

Lemma sorted_by_date_ascending (l : list trend_entry) :
  Spec.ascending (sorted_by_date l).
Proof.
  induction l as [| x l IH]; cbn; [exact I |].
  apply insert_by_date_ascending. exact IH.
Qed.

(** The last entry of an ascending list carries a latest date. *)
Lemma ascending_last (l : list trend_entry) (e : trend_entry) (rest : list trend_entry) :
  Spec.ascending l -> List.rev l = e :: rest ->
  forall y, In y l -> (te_date y <= te_date e)%Z.
Proof.
  intros Hasc Hrev.
  assert (l = List.rev rest ++ [e])%list as ->.
  { rewrite <- (rev_involutive l), Hrev. reflexivity. }
  clear Hrev. induction (List.rev rest) as [| x l IH]; cbn in *.
  - intros y [<- | []]. lia.
  - destruct Hasc as [Hx Hl]. intros y [<- | Hy].
    + apply Hx. apply in_or_app. right. left. reflexivity.
    + apply IH; assumption.
Qed.

Lemma tail_length {A} (n : nat) (l : list A) :
  length (Py.tail n l) = Nat.min n (length l).
Proof.
  unfold Py.tail. rewrite length_skipn.
  destruct (Nat.min_spec n (length l)) as [[? ->] | [? ->]]; lia.
Qed.

Lemma tail_incl {A} (n : nat) (l : list A) (x : A) :
  In x (Py.tail n l) -> In x l.
Proof.
  unfold Py.tail. intros H.
  rewrite <- (firstn_skipn (length l - n) l). apply in_or_app. right. exact H.
Qed.

Lemma drop_last_incl {A} (n : nat) (l : list A) (x : A) :
  In x (Py.drop_last n l) -> In x l.
Proof.
  unfold Py.drop_last. intros H.
  rewrite <- (firstn_skipn (length l - n) l). apply in_or_app. left. exact H.
Qed.

(** The change that [detect_sentiment_spike] measures stays within the
    spread of the sentiments. *)
Lemma change_within_spread (lo hi : Q) (recent : list Q) :
  (2 <= length recent)%nat ->
  Forall (fun x => lo <= x <= hi) recent ->
  let recent_avg := Py.mean (Py.tail 3 recent) in
  let previous_avg :=
    if (3 <? length recent)%nat
    then Py.mean (Py.drop_last 3 recent)
    else List.hd 0 recent in
  Qabs (recent_avg - previous_avg) <= hi - lo.
Proof.
  intros Hlen Hall recent_avg previous_avg.
  rewrite List.Forall_forall in Hall.
  assert (lo <= recent_avg <= hi) as Hr.
  { apply mean_bounds.
    - intros Hnil. apply (f_equal (@length Q)) in Hnil.
      rewrite tail_length in Hnil. cbn [length] in Hnil. lia.
    - apply List.Forall_forall. intros x Hx. apply Hall. eapply tail_incl, Hx. }
  assert (lo <= previous_avg <= hi) as Hp.
  { subst previous_avg. destruct (Nat.ltb_spec 3 (length recent)) as [Hgt | Hle].
    - apply mean_bounds.
      + intros Hnil. apply (f_equal (@length Q)) in Hnil.
        unfold Py.drop_last in Hnil. rewrite length_firstn in Hnil.
        cbn [length] in Hnil. lia.
      + apply List.Forall_forall. intros x Hx. apply Hall.
        eapply drop_last_incl, Hx.
    - destruct recent as [| x rest]; [cbn in Hlen; lia |].
      cbn [List.hd]. apply Hall. left. reflexivity. }
  apply Qabs_case; intros; lra.
Qed.

End Spike.

(** X13. [detect_sentiment_spike] returns [None] exactly when there are
    fewer than two entries.  A detected spike has a magnitude above 0.3, a
    direction "positive" or "negative", and cites the title of an entry with
    the latest date.  When all sentiments, being polarities within -1..1,
    lie within a band no wider than 0.29, no spike is detected. *)
Theorem spike_detection :
  forall sentiment_trend : list SentimentAnalyst.trend_entry,
    let result := SentimentAnalyst.detect_sentiment_spike sentiment_trend in
    (result = None <-> (length sentiment_trend < 2)%nat) /\
    (forall direction magnitude recent_news,
       result = Some (SentimentAnalyst.SpikeDetected direction magnitude recent_news) ->
       0.3 < magnitude /\
       (direction = "positive" \/ direction = "negative") /\
       exists entry,
         In entry sentiment_trend /\
         recent_news = Some (SentimentAnalyst.te_title entry) /\
         forall other, In other sentiment_trend ->
           (SentimentAnalyst.te_date other <= SentimentAnalyst.te_date entry)%Z) /\
    (forall lo hi : Q,
       (2 <= length sentiment_trend)%nat ->
       -1 <= lo -> hi <= 1 ->
       (forall entry, In entry sentiment_trend ->
          lo <= SentimentAnalyst.te_sentiment entry <= hi) ->
       hi - lo <= 0.29 ->
       result = Some SentimentAnalyst.NoSpike).
Proof.
  intros trend result. subst result.
  unfold SentimentAnalyst.detect_sentiment_spike.
  destruct (Nat.ltb_spec (length trend) 2) as [Hshort | Hlong].
  { split; [tauto |]. split; [discriminate |]. intros; lia. }
  pose proof (sorted_by_date_perm trend) as Hperm.
  pose proof (sorted_by_date_ascending trend) as Hasc.
  set (sorted := SentimentAnalyst.sorted_by_date trend) in *.
  set (recent := map SentimentAnalyst.te_sentiment (Py.tail 5 sorted)).
  assert (Hlen : (2 <= length recent)%nat).
  { subst recent. rewrite length_map, tail_length.
    rewrite (Permutation_length Hperm). lia. }
  destruct (Nat.ltb_spec (length recent) 2) as [Hbad | _]; [lia |].
  set (change := Py.mean (Py.tail 3 recent)
                 - (if (3 <? length recent)%nat
                    then Py.mean (Py.drop_last 3 recent)
                    else List.hd 0 recent)).
  split; [split; [intros H; revert H; destruct (Qabs change >? 0.3); discriminate | lia] |].
  split.
  - intros dir mag news.
    destruct (List.rev sorted) as [| last rest] eqn:Hrev.
    { apply (f_equal (@length _)) in Hrev. rewrite length_rev in Hrev.
      rewrite (Permutation_length Hperm) in Hrev. cbn in Hrev. lia. }
    unfold Py.gt at 1. destruct (Qle_bool (Qabs change) 0.3) eqn:Hmag;
      cbn [negb]; [discriminate |].
    apply Qle_bool_false in Hmag. intros [= <- <- <-].
    split; [exact Hmag |]. split; [destruct (change >? 0); tauto |].
    exists last. split; [| split; [reflexivity |]].
    + apply (Permutation_in _ Hperm). apply in_rev. rewrite Hrev. left. reflexivity.
    + intros other Hother.
      apply (ascending_last sorted last rest Hasc Hrev).
      apply (Permutation_in _ (Permutation_sym Hperm)). exact Hother.
  - intros lo hi _ _ _ Hband Hwidth.
    assert (Hall : Forall (fun x => lo <= x <= hi) recent).
    { apply List.Forall_forall. intros x Hx. subst recent.
      apply in_map_iff in Hx as (e & <- & He). apply Hband.
      apply (Permutation_in _ Hperm). eapply tail_incl, He. }
    pose proof (change_within_spread lo hi recent Hlen Hall) as Hchange.
    cbv zeta in Hchange. fold change in Hchange.
    unfold Py.gt at 1. destruct (Qle_bool (Qabs change) 0.3) eqn:Hmag;
      cbn [negb]; [reflexivity |].
    apply Qle_bool_false in Hmag. lra.
Qed.

(* ================================================================== *)
(** * Further properties of the technical analyst *)
(* ================================================================== *)

Section Trend.

Lemma iloc_last_snoc {A} (l : list A) (x : A) :
  Py.iloc_last (l ++ [x]) = Py.Returned x.
Proof. unfold Py.iloc_last. rewrite rev_app_distr. reflexivity. Qed.

Lemma firstn_tail {A} (n : nat) (l : list A) :
  firstn n (skipn (length l - n) l) = Py.tail n l.
Proof.
  unfold Py.tail. apply firstn_all2. rewrite length_skipn. lia.
Qed.

(** The last value of a rolling mean over a non-empty series: the mean of
    the last [window] values when there are that many, NaN otherwise. *)
Lemma rolling_mean_last (window : nat) (xs : list Q) :
  xs <> [] ->
  Py.iloc_last (Py.rolling_mean window xs)
  = Py.Returned
      (if ((1 <=? window) && (window <=? length xs))%nat
       then Py.Finite (Py.mean (Py.tail window xs))
       else Py.NaN).
Proof.
  intros Hne. unfold Py.rolling_mean.
  destruct (length xs) as [| n] eqn:Hlen.
  { destruct xs; [congruence | discriminate Hlen]. }
  rewrite seq_S, map_app. cbn [map]. rewrite iloc_last_snoc.
  replace (0 + n + 1 - window)%nat with (length xs - window)%nat by lia.
  replace (0 + n + 1)%nat with (S n) by lia.
  rewrite firstn_tail. reflexivity.
Qed.

Lemma moving_average_keys (df : Py.DataFrame) :
  let ma_data :=
    TechnicalAnalyst.calculate_moving_averages df TechnicalAnalyst.default_windows in
  ma_data !! "MA20" = Some (Py.rolling_mean 20 (map Py.Close df)) /\
  ma_data !! "MA50" = Some (Py.rolling_mean 50 (map Py.Close df)).
Proof.
  cbv zeta. unfold TechnicalAnalyst.calculate_moving_averages,
    TechnicalAnalyst.default_windows. cbn [fold_left].
  change ("MA" +:+ pretty 20%nat) with "MA20".
  change ("MA" +:+ pretty 50%nat) with "MA50".
  split.
  - rewrite lookup_insert_ne by discriminate. apply lookup_insert_eq.
  - apply lookup_insert_eq.
Qed.

End Trend.

(** Of two floats at most one is greater than the other. *)
Lemma fgt_asym (a b : Py.pyfloat) :
  Py.fgt a b = true -> Py.fgt b a = true -> False.
Proof.
  destruct a as [x | | |], b as [y | | |]; cbn; try discriminate.
  unfold Py.gt. intros Hab Hba.
  apply negb_true_iff, Qle_bool_false in Hab.
  apply negb_true_iff, Qle_bool_false in Hba. lra.
Qed.

(** X14. On a non-empty price history [determine_trend] never raises.  With
    the moving averages of the default windows it never says "Unknown", and
    with fewer than 50 rows, where the 50-day average is still NaN, it says
    "Sideways" whatever the prices.  Whatever the two averages are, the trend
    is read off the last close, the last MA20 and the last MA50: "Strong
    Uptrend" when close > MA20 > MA50, "Weak Uptrend" when close > MA20 and
    MA20 < MA50, "Strong Downtrend" when close < MA20 < MA50, "Weak
    Downtrend" when close < MA20 and MA20 > MA50, and "Sideways" exactly when
    the close neither exceeds nor falls below MA20, or MA20 neither exceeds
    nor falls below MA50 (a tie, or a NaN). *)
Theorem trend_of_history :
  forall df : Py.DataFrame,
    df <> [] ->
    exists price : Q,
      Py.iloc_last (map Py.Close df) = Py.Returned price /\
      (exists trend : string,
         TechnicalAnalyst.determine_trend df
           (TechnicalAnalyst.calculate_moving_averages
              df TechnicalAnalyst.default_windows)
         = Py.Returned trend /\
         In trend ["Strong Uptrend"; "Weak Uptrend"; "Strong Downtrend";
                   "Weak Downtrend"; "Sideways"] /\
         ((length df < 50)%nat -> trend = "Sideways")) /\
      (forall (ma_data : gmap string (list Py.pyfloat))
              (ma20_series ma50_series : list Py.pyfloat)
              (ma20 ma50 : Py.pyfloat),
         ma_data !! "MA20" = Some ma20_series ->
         ma_data !! "MA50" = Some ma50_series ->
         Py.iloc_last ma20_series = Py.Returned ma20 ->
         Py.iloc_last ma50_series = Py.Returned ma50 ->
         exists trend : string,
           TechnicalAnalyst.determine_trend df ma_data = Py.Returned trend /\
           (trend = "Strong Uptrend" <->
              Py.fgt (Py.Finite price) ma20 = true /\ Py.fgt ma20 ma50 = true) /\
           (trend = "Weak Uptrend" <->
              Py.fgt (Py.Finite price) ma20 = true /\ Py.flt ma20 ma50 = true) /\
           (trend = "Strong Downtrend" <->
              Py.flt (Py.Finite price) ma20 = true /\ Py.flt ma20 ma50 = true) /\
           (trend = "Weak Downtrend" <->
              Py.flt (Py.Finite price) ma20 = true /\ Py.fgt ma20 ma50 = true) /\
           (trend = "Sideways" <->
              (Py.fgt (Py.Finite price) ma20 = false /\
               Py.flt (Py.Finite price) ma20 = false) \/
              (Py.fgt ma20 ma50 = false /\ Py.flt ma20 ma50 = false))).
Proof.
  intros df Hne.
  assert (Hcloses : map Py.Close df <> []) by (destruct df; [congruence | discriminate]).
  destruct (Py.iloc_last (map Py.Close df)) as [price | exc] eqn:Hprice.
  2: { unfold Py.iloc_last in Hprice.
       destruct (List.rev (map Py.Close df)) eqn:Hrev; [| discriminate].
       apply (f_equal (@length _)) in Hrev. rewrite length_rev in Hrev.
       destruct df; [congruence | discriminate Hrev]. }
  exists price. split; [reflexivity |]. split.
  - destruct (moving_average_keys df) as [H20 H50]. cbv zeta in H20, H50.
    unfold TechnicalAnalyst.determine_trend.
    rewrite Hprice, H20, H50. cbn [Py.bind].
    rewrite !rolling_mean_last by exact Hcloses. cbn [Py.bind].
    rewrite length_map.
    eexists. split; [reflexivity |]. split.
    + repeat match goal with
             | |- context [if ?b then _ else _] => destruct b
             end; cbn [In]; tauto.
    + intros Hfew.
      destruct (Nat.leb_spec 50 (length df)) as [H50rows | _]; [lia |].
      rewrite andb_false_r.
      set (a := if (1 <=? 20)%nat && (20 <=? length df)%nat
                then Py.Finite (Py.mean (Py.tail 20 (map Py.Close df)))
                else Py.NaN).
      unfold Py.flt.
      assert (Py.fgt a Py.NaN = false) as -> by (destruct a; reflexivity).
      assert (Py.fgt Py.NaN a = false) as -> by (destruct a; reflexivity).
      rewrite !andb_false_r. reflexivity.
  - intros ma_data s20 s50 ma20 ma50 H20 H50 Hlast20 Hlast50.
    unfold TechnicalAnalyst.determine_trend.
    rewrite Hprice, H20, H50. cbn [Py.bind].
    rewrite Hlast20, Hlast50. cbn [Py.bind].
    eexists. split; [reflexivity |].
    unfold Py.flt.
    pose proof (fgt_asym (Py.Finite price) ma20) as Hprice_excl.
    pose proof (fgt_asym ma20 ma50) as Hma_excl.
    destruct (Py.fgt (Py.Finite price) ma20), (Py.fgt ma20 (Py.Finite price)),
      (Py.fgt ma20 ma50), (Py.fgt ma50 ma20);
      cbn [andb]; cbv iota;
      try (exfalso; apply Hprice_excl; reflexivity);
      try (exfalso; apply Hma_excl; reflexivity);
      repeat split; intros;
      repeat match goal with
             | H : _ /\ _ |- _ => destruct H
             | H : _ \/ _ |- _ => destruct H
             end;
      first [ reflexivity | discriminate
            | left; split; reflexivity | right; split; reflexivity ].
Qed.

Lemma trend_of_history_witness :
  (exists (trend : string) (price : Q),
     TechnicalAnalyst.determine_trend Fixtures.rising_history
       (TechnicalAnalyst.calculate_moving_averages
          Fixtures.rising_history TechnicalAnalyst.default_windows)
       = Py.Returned trend /\
     Py.iloc_last (map Py.Close Fixtures.rising_history) = Py.Returned price /\
     trend = "Sideways") /\
  TechnicalAnalyst.determine_trend Fixtures.rising_history
    {[ "MA20" := [Py.Finite 100.5]; "MA50" := [Py.Finite 100] ]}
  = Py.Returned "Strong Uptrend".
Proof.
  destruct (trend_of_history Fixtures.rising_history) as
    (price & Hprice & (trend & Hrun & _ & Hshort) & Hread); [discriminate |].
  split.
  - exists trend, price. repeat split; [exact Hrun | exact Hprice |].
    apply Hshort. cbn. lia.
  - destruct (Hread {[ "MA20" := [Py.Finite 100.5]; "MA50" := [Py.Finite 100] ]}
                    [Py.Finite 100.5] [Py.Finite 100]
                    (Py.Finite 100.5) (Py.Finite 100))
      as (trend' & Hrun' & Hstrong & _);
      [reflexivity | reflexivity | reflexivity | reflexivity |].
    rewrite Hrun'. f_equal. apply Hstrong.
    injection Hprice as <-. split; reflexivity.
Defined.

Section Macd.

Lemma ewm_from_length (alpha previous : Q) (xs : list Q) :
  length (Py.ewm_from alpha previous xs) = length xs.
Proof.
  revert previous. induction xs as [| x xs IH]; intros previous; cbn;
    [reflexivity | rewrite IH; reflexivity].
Qed.

Lemma ewm_mean_length (span : nat) (xs : list Q) :
  length (Py.ewm_mean span xs) = length xs.
Proof.
  destruct xs as [| x xs]; cbn; [reflexivity |].
  rewrite ewm_from_length. reflexivity.
Qed.

Lemma series_sub_length (a b : list Q) :
  length a = length b -> length (Py.series_sub a b) = length a.
Proof.
  revert b. induction a as [| x a IH]; intros [| y b] Hlen; cbn in *;
    try reflexivity; try discriminate.
  rewrite IH by lia. reflexivity.
Qed.

(** The smoothing factor of a span of at least 1 lies within 0..1. *)
Lemma alpha_range (span : nat) :
  (1 <= span)%nat ->
  0 < 2 / (inject_Z (Z.of_nat span) + 1) <= 1.
Proof.
  intros Hspan.
  assert (1 <= inject_Z (Z.of_nat span)) as Hs
    by (change 1 with (inject_Z 1); rewrite <- Zle_Qle; lia).
  set (n := inject_Z (Z.of_nat span)) in *.
  split.
  - apply Qlt_shift_div_l; lra.
  - apply Qle_shift_div_r; lra.
Qed.

Lemma ewm_from_bounds (alpha previous lo hi : Q) (xs : list Q) :
  0 <= alpha <= 1 -> lo <= previous <= hi ->
  Forall (fun x => lo <= x <= hi) xs ->
  Forall (fun y => lo <= y <= hi) (Py.ewm_from alpha previous xs).
Proof.
  intros Ha Hp Hall. revert previous Hp.
  induction Hall as [| x xs Hx _ IH]; intros previous Hp; cbn; constructor.
  - split; nra.
  - apply IH. split; nra.
Qed.

(** An exponential average stays within the range of the series. *)
Lemma ewm_mean_bounds (span : nat) (lo hi : Q) (xs : list Q) :
  (1 <= span)%nat ->
  Forall (fun x => lo <= x <= hi) xs ->
  Forall (fun y => lo <= y <= hi) (Py.ewm_mean span xs).
Proof.
  intros Hspan Hall. unfold Py.ewm_mean.
  destruct Hall as [| x xs Hx Hall]; constructor; [exact Hx |].
  apply ewm_from_bounds; [| exact Hx | exact Hall].
  pose proof (alpha_range span Hspan). lra.
Qed.

Lemma series_sub_bounds (lo hi lo' hi' : Q) (a b : list Q) :
  Forall (fun x => lo <= x <= hi) a ->
  Forall (fun y => lo' <= y <= hi') b ->
  Forall (fun d => lo - hi' <= d <= hi - lo') (Py.series_sub a b).
Proof.
  intros Ha. revert b. induction Ha as [| x a Hx _ IH]; intros b Hb; cbn;
    [constructor |].
  destruct Hb as [| y b Hy Hb]; constructor; [lra | apply IH; exact Hb].
Qed.

End Macd.

(** X15. [calculate_macd] returns three series with one value per row.  For
    spans of at least 1, when every close lies within lo..hi, every MACD value
    and every signal value lies within -(hi - lo)..(hi - lo) and every
    histogram value within twice that; so on a flat price history all three
    series are zero throughout. *)
Theorem macd_series_bounds :
  forall (df : Py.DataFrame) (fast slow signal_span : nat) (lo hi : Q),
    (1 <= fast)%nat -> (1 <= slow)%nat -> (1 <= signal_span)%nat ->
    Forall (fun row => lo <= Py.Close row <= hi) df ->
    let result := TechnicalAnalyst.calculate_macd df fast slow signal_span in
    let spread := hi - lo in
    length (TechnicalAnalyst.macd result) = length df /\
    length (TechnicalAnalyst.signal result) = length df /\
    length (TechnicalAnalyst.histogram result) = length df /\
    Forall (fun x => - spread <= x <= spread) (TechnicalAnalyst.macd result) /\
    Forall (fun x => - spread <= x <= spread) (TechnicalAnalyst.signal result) /\
    Forall (fun x => - (2 * spread) <= x <= 2 * spread)
           (TechnicalAnalyst.histogram result).
Proof.
  intros df fast slow span lo hi Hfast Hslow Hspan Hall result spread.
  subst result. unfold TechnicalAnalyst.calculate_macd.
  cbn [TechnicalAnalyst.macd TechnicalAnalyst.signal TechnicalAnalyst.histogram].
  assert (Hcloses : Forall (fun x => lo <= x <= hi) (map Py.Close df)).
  { induction Hall; cbn; constructor; assumption. }
  set (closes := map Py.Close df) in *.
  assert (Hlen : length closes = length df) by (subst closes; apply length_map).
  set (macd_line := Py.series_sub (Py.ewm_mean fast closes) (Py.ewm_mean slow closes)).
  assert (Hmacd_len : length macd_line = length df).
  { subst macd_line. rewrite series_sub_length; rewrite !ewm_mean_length; lia. }
  assert (Hmacd : Forall (fun x => - spread <= x <= spread) macd_line).
  { subst macd_line spread.
    pose proof (series_sub_bounds lo hi lo hi _ _
                  (ewm_mean_bounds fast lo hi closes Hfast Hcloses)
                  (ewm_mean_bounds slow lo hi closes Hslow Hcloses)) as H.
    eapply Forall_impl; [exact H |]. cbv beta. intros x Hx. lra. }
  pose proof (ewm_mean_bounds span (- spread) spread macd_line Hspan Hmacd) as Hsignal.
  split; [exact Hmacd_len |].
  split; [rewrite ewm_mean_length; exact Hmacd_len |].
  split; [rewrite series_sub_length; rewrite ?ewm_mean_length; lia |].
  split; [exact Hmacd |]. split; [exact Hsignal |].
  pose proof (series_sub_bounds _ _ _ _ _ _ Hmacd Hsignal) as H.
  eapply Forall_impl; [exact H |]. cbv beta. intros x Hx. lra.
Qed.

Lemma macd_series_bounds_witness :
  Forall (fun x => - (101 - 100) <= x <= 101 - 100)
         (TechnicalAnalyst.macd
            (TechnicalAnalyst.calculate_macd Fixtures.rising_history 12 26 9)).
Proof.
  apply (macd_series_bounds Fixtures.rising_history 12 26 9 100 101); try lia.
  repeat constructor; cbn; apply Qle_bool_true; reflexivity.
Defined.

(** X16. [suggest_position_size] returns 0 at zero volatility.  At a positive
    volatility, with a positive account and a non-negative risk per trade,
    the suggestion lies between 0 and a quarter of the account; it is the
    full quarter exactly when the volatility is at most 800 times the risk
    per trade, and 200 * account * risk / volatility above that (so with the
    defaults: 2500 up to a volatility of 16, then 40000 / volatility).  The
    answer falls as the volatility grows, and never depends on the
    [max_drawdown] argument. *)
Theorem position_size_cap :
  forall volatility max_drawdown account_size risk_per_trade : Q,
    let size :=
      RiskManager.suggest_position_size volatility max_drawdown
                                        account_size risk_per_trade in
    (volatility == 0 -> size == 0) /\
    (0 < volatility -> 0 < account_size -> 0 <= risk_per_trade ->
       0 <= size <= account_size * 0.25 /\
       (size == account_size * 0.25 <-> volatility <= 800 * risk_per_trade) /\
       (800 * risk_per_trade <= volatility ->
          size == 200 * account_size * risk_per_trade / volatility) /\
       (forall higher : Q,
          volatility <= higher ->
          RiskManager.suggest_position_size higher max_drawdown
                                            account_size risk_per_trade
          <= size)) /\
    (forall other_drawdown : Q,
       RiskManager.suggest_position_size volatility other_drawdown
                                         account_size risk_per_trade = size).
Proof.
  intros v dd a r size.
  assert (Hshape : forall w : Q, 0 < w ->
            exists p : Q,
              p * w == 200 * a * r /\
              RiskManager.suggest_position_size w dd a r
              = Py.min p (a * 0.25)).
  { intros w Hw. exists (a * r / (w / 2 / 100)). split; [field; lra |].
    unfold RiskManager.suggest_position_size, Py.eq.
    destruct (Qeq_bool (w / 2) 0) eqn:E; [| reflexivity].
    apply Qeq_bool_eq in E.
    assert (w == 0) by (rewrite <- (Qmult_div_r w 2), E by lra; ring). lra. }
  split; [| split].
  - intros Hv. subst size. unfold RiskManager.suggest_position_size, Py.eq.
    destruct (Qeq_bool (v / 2) 0) eqn:E; [reflexivity |].
    apply Qeq_bool_neq in E. exfalso. apply E. rewrite Hv. reflexivity.
  - intros Hv Ha Hr.
    destruct (Hshape v Hv) as (p & Hp & Hsize). subst size. rewrite Hsize.
    assert (Hquarter : a * 0.25 == a * (1 # 4)) by (unfold Qeq; cbn; lia).
    assert (Hp0 : 0 <= p).
    { destruct (Qlt_le_dec p 0) as [Hneg | Hpos]; [| exact Hpos].
      assert (p * v < 0) by nra. assert (0 <= 200 * a * r) by nra. lra. }
    assert (Hmin : (p <= a * (1 # 4) /\ Py.min p (a * 0.25) = p)
                   \/ (a * (1 # 4) < p /\ Py.min p (a * 0.25) = a * 0.25)).
    { py_cases; [left | right]; split; try reflexivity; lra. }
    assert (Hrate : 200 * a * r / v * v == 200 * a * r) by (field; lra).
    split; [| split; [| split]].
    + destruct Hmin as [[Hle ->] | [Hlt ->]]; lra.
    + destruct Hmin as [[Hle ->] | [Hlt ->]]; split; intros H; try lra; nra.
    + intros Hle. destruct Hmin as [[Hle' ->] | [Hlt ->]].
      * apply Qmult_inj_r with (z := v); [lra |]. rewrite Hp, Hrate. reflexivity.
      * assert (a * (1 # 4) * v < p * v) by nra. nra.
    + intros w Hw.
      destruct (Hshape w ltac:(lra)) as (q & Hq & Hsizew). rewrite Hsizew.
      assert (Hq0 : 0 <= q).
      { destruct (Qlt_le_dec q 0) as [Hneg | Hpos]; [| exact Hpos].
        assert (q * w < 0) by nra. assert (0 <= 200 * a * r) by nra. lra. }
      assert (Hqp : q <= p).
      { destruct (Qlt_le_dec p q) as [Hlt | Hge]; [| exact Hge].
        assert (p * v < q * v) by nra. assert (q * v <= q * w) by nra. lra. }
      destruct Hmin as [[Hle ->] | [Hlt ->]]; py_cases; lra.
  - intros other. reflexivity.
Qed.

(** X17. [suggest_stop_loss] raises IndexError on an empty frame and returns
    on every other one.  The stop is 5 percent below the last close, unless
    the method is "volatility", where it is twice the volatility below.  The
    entry [distance_from_price] is a number for a non-zero last close and NaN
    at a last close of zero.  At a positive last close the 5 percent stop
    lies strictly between zero and the close, while the volatility stop is
    zero or negative as soon as the volatility reaches 50. *)
Theorem stop_loss_levels :
  forall (df : Py.DataFrame) (volatility : Q) (method : string),
    (df = [] ->
       RiskManager.suggest_stop_loss df volatility method
       = Py.Raised "IndexError") /\
    (forall (rows : Py.DataFrame) (last : Py.bar),
       df = (rows ++ [last])%list ->
       exists levels : RiskManager.stop_loss_t,
         RiskManager.suggest_stop_loss df volatility method = Py.Returned levels /\
         let price := Py.Close last in
         let percentage := RiskManager.stop_loss_percentage levels in
         let stop := RiskManager.stop_loss_price levels in
         (method <> "volatility" ->
            percentage == 5 /\ stop == price * 0.95) /\
         (method = "volatility" ->
            percentage == 2 * volatility /\
            stop == price * (1 - 2 * volatility / 100)) /\
         (price == 0 -> RiskManager.distance_from_price levels = Py.NaN) /\
         (~ price == 0 ->
            exists distance : Q,
              RiskManager.distance_from_price levels = Py.Finite distance) /\
         (0 < price ->
            (method <> "volatility" -> 0 < stop < price) /\
            (method = "volatility" -> (stop <= 0 <-> 50 <= volatility)))).
Proof.
  intros df volatility method. split.
  - intros ->. reflexivity.
  - intros rows last ->. unfold RiskManager.suggest_stop_loss.
    rewrite map_app. cbn [map]. rewrite iloc_last_snoc. cbn [Py.bind].
    set (price := Py.Close last).
    assert (Hzero : (price == 0 /\ Py.eq price 0 = true)
                    \/ (~ price == 0 /\ Py.eq price 0 = false)).
    { unfold Py.eq. destruct (Qeq_bool price 0) eqn:E;
        [left; split; [apply Qeq_bool_eq; exact E | reflexivity]
        | right; split; [apply Qeq_bool_neq; exact E | reflexivity]]. }
    destruct (String.eqb method "volatility") eqn:Hmethod.
    + apply String.eqb_eq in Hmethod. subst method.
      eexists. split; [reflexivity |].
      cbn [RiskManager.stop_loss_percentage RiskManager.stop_loss_price
           RiskManager.distance_from_price].
      split; [congruence |]. split; [intros _; split; field |].
      split; [intros H; destruct Hzero as [[_ ->] | [Hne _]]; [reflexivity | tauto] |].
      split.
      * intros H. destruct Hzero as [[He _] | [_ ->]]; [tauto |].
        eexists. reflexivity.
      * intros Hpos. split; [congruence |]. intros _.
        assert (Hstop : price * (1 - volatility / 100 * 2)
                        == price * ((50 - volatility) * (1 # 50))) by field.
        rewrite Hstop. split; intros H; nra.
    + apply String.eqb_neq in Hmethod.
      eexists. split; [reflexivity |].
      cbn [RiskManager.stop_loss_percentage RiskManager.stop_loss_price
           RiskManager.distance_from_price].
      split; [intros _; split; [reflexivity | field] |]. split; [congruence |].
      split; [intros H; destruct Hzero as [[_ ->] | [Hne _]]; [reflexivity | tauto] |].
      split.
      * intros H. destruct Hzero as [[He _] | [_ ->]]; [tauto |].
        eexists. reflexivity.
      * intros Hpos. split; [| congruence]. intros _.
        assert (Hstop : price * (1 - 0.05) == price * (19 # 20)) by field.
        rewrite Hstop. split; nra.
Qed.

Section RiskAdvice.

Lemma fgt_chain (x : Py.pyfloat) (a b : Q) :
  b <= a -> Py.fgt x (Py.Finite a) = true -> Py.fgt x (Py.Finite b) = true.
Proof.
  intros Hab. destruct x as [q | | |]; cbn; try congruence.
  py_cases; intros; try reflexivity; try discriminate. lra.
Qed.

Lemma volatility_points_warning (volatility : Py.pyfloat) :
  (30 <= RiskManager.volatility_points volatility)%Z
  <-> Py.fgt volatility (Py.Finite 30) = true.
Proof.
  unfold RiskManager.volatility_points.
  destruct (Py.fgt volatility (Py.Finite 40)) eqn:H40.
  - rewrite (fgt_chain volatility 40 30) by (lra || exact H40). split; [reflexivity | lia].
  - destruct (Py.fgt volatility (Py.Finite 30)); [split; [reflexivity | lia] |].
    destruct (Py.fgt volatility (Py.Finite 20)); split; (lia || discriminate).
Qed.

Lemma drawdown_points_warning (max_drawdown : Py.pyfloat) :
  (30 <= RiskManager.drawdown_points max_drawdown)%Z
  <-> Py.fgt (Py.fabs max_drawdown) (Py.Finite 20) = true.
Proof.
  unfold RiskManager.drawdown_points.
  destruct (Py.fgt (Py.fabs max_drawdown) (Py.Finite 30)) eqn:H30.
  - rewrite (fgt_chain _ 30 20) by (lra || exact H30). split; [reflexivity | lia].
  - destruct (Py.fgt (Py.fabs max_drawdown) (Py.Finite 20)); [split; [reflexivity | lia] |].
    destruct (Py.fgt (Py.fabs max_drawdown) (Py.Finite 10)); split; (lia || discriminate).
Qed.

Lemma volatility_points_steps (volatility : Py.pyfloat) :
  In (RiskManager.volatility_points volatility) [10; 20; 30; 40]%Z.
Proof.
  unfold RiskManager.volatility_points.
  repeat match goal with
         | |- context [if ?b then _ else _] => destruct b
         end; cbn; tauto.
Qed.

Lemma drawdown_points_steps (max_drawdown : Py.pyfloat) :
  In (RiskManager.drawdown_points max_drawdown) [10; 20; 30; 40]%Z.
Proof.
  unfold RiskManager.drawdown_points.
  repeat match goal with
         | |- context [if ?b then _ else _] => destruct b
         end; cbn; tauto.
Qed.

Lemma assess_risk_level_score (volatility max_drawdown sharpe_ratio : Py.pyfloat) :
  let score := RiskManager.risk_score_of volatility max_drawdown sharpe_ratio in
  let level := RiskManager.assess_risk_level volatility max_drawdown sharpe_ratio in
  (level = "Very High" <-> (70 <= score)%Z) /\
  (level = "High" <-> (55 <= score < 70)%Z) /\
  (level = "Moderate" <-> (40 <= score < 55)%Z) /\
  (level = "Low" <-> (score < 40)%Z).
Proof.
  intros score level. subst level. unfold RiskManager.assess_risk_level.
  fold score.
  pose proof (risk_score_ge_25 volatility max_drawdown sharpe_ratio) as H.
  fold score in H.
  destruct (Z.leb_spec 70 score); [repeat split; intros; (reflexivity || discriminate || lia) |].
  destruct (Z.leb_spec 55 score); [repeat split; intros; (reflexivity || discriminate || lia) |].
  destruct (Z.leb_spec 40 score); [repeat split; intros; (reflexivity || discriminate || lia) |].
  destruct (Z.leb_spec 25 score); [repeat split; intros; (reflexivity || discriminate || lia) | lia].
Qed.

End RiskAdvice.

(** X18. [generate_recommendations] never returns an empty list and at most
    five entries.  "Risk levels acceptable" appears only alone, exactly when
    the level is neither High nor Very High, the volatility is not above 30
    and the drawdown not beyond 20; "Reduce exposure" appears, first,
    exactly for High and Very High.  With the level [assess_risk_level]
    gives for the same volatility and drawdown: a Low level always gets the
    single entry "Risk levels acceptable", and a Very High level always gets
    at least four entries. *)
Theorem recommendations_follow_risk :
  forall (risk_level : string) (volatility max_drawdown sharpe_ratio : Py.pyfloat),
    let result :=
      RiskManager.generate_recommendations risk_level volatility max_drawdown in
    let alarming := risk_level = "High" \/ risk_level = "Very High" in
    (1 <= length result <= 5)%nat /\
    (In "Risk levels acceptable" result <-> result = ["Risk levels acceptable"]) /\
    (result = ["Risk levels acceptable"] <->
       ~ alarming /\ Py.fgt volatility (Py.Finite 30) = false /\
       Py.fgt (Py.fabs max_drawdown) (Py.Finite 20) = false) /\
    (In "Reduce exposure" result <-> alarming) /\
    (alarming ->
       firstn 3 result = ["Reduce exposure"; "Consider tighter stop-loss";
                          "Monitor closely for exit signals"]) /\
    let assessed :=
      RiskManager.assess_risk_level volatility max_drawdown sharpe_ratio in
    let advice :=
      RiskManager.generate_recommendations assessed volatility max_drawdown in
    (assessed = "Low" -> advice = ["Risk levels acceptable"]) /\
    (assessed = "Very High" -> (4 <= length advice)%nat).
Proof.
  intros level v d s result alarming.
  assert (Hshape : forall lvl : string,
            let r := RiskManager.generate_recommendations lvl v d in
            let al := lvl = "High" \/ lvl = "Very High" in
            (1 <= length r <= 5)%nat /\
            (In "Risk levels acceptable" r <-> r = ["Risk levels acceptable"]) /\
            (r = ["Risk levels acceptable"] <->
               ~ al /\ Py.fgt v (Py.Finite 30) = false /\
               Py.fgt (Py.fabs d) (Py.Finite 20) = false) /\
            (In "Reduce exposure" r <-> al) /\
            (al -> firstn 3 r = ["Reduce exposure"; "Consider tighter stop-loss";
                                 "Monitor closely for exit signals"]) /\
            (al -> (Py.fgt v (Py.Finite 30) = true
                    \/ Py.fgt (Py.fabs d) (Py.Finite 20) = true) ->
               (4 <= length r)%nat)).
  { intros lvl r al. subst r al. unfold RiskManager.generate_recommendations.
    case_bool_decide as Hin;
      [assert (Hal : lvl = "High" \/ lvl = "Very High") by set_solver
      | assert (Hal : ~ (lvl = "High" \/ lvl = "Very High")) by set_solver];
      destruct (Py.fgt v (Py.Finite 30)), (Py.fgt (Py.fabs d) (Py.Finite 20));
      cbn [app length firstn In];
      repeat split; intros; try lia; try tauto; try discriminate; try congruence;
      repeat match goal with
             | H : _ \/ _ |- _ => destruct H
             | H : _ /\ _ |- _ => destruct H
             end; try tauto; try discriminate; try congruence. }
  destruct (Hshape level) as (H1 & H2 & H3 & H4 & H5 & _).
  split; [exact H1 |]. split; [exact H2 |]. split; [exact H3 |].
  split; [exact H4 |]. split; [exact H5 |].
  intros assessed advice. subst advice.
  destruct (Hshape assessed) as (_ & _ & H3' & _ & _ & H6').
  destruct (assess_risk_level_score v d s) as (Hvh & _ & _ & Hlow).
  fold assessed in Hvh, Hlow.
  pose proof (volatility_points_warning v) as Hv.
  pose proof (drawdown_points_warning d) as Hd.
  pose proof (volatility_points_ge v). pose proof (drawdown_points_ge d).
  pose proof (sharpe_points_ge s).
  unfold RiskManager.risk_score_of in Hvh, Hlow.
  split.
  - intros Hl. apply H3'. split; [rewrite Hl; intros [? | ?]; discriminate |].
    apply Hlow in Hl.
    split.
    + destruct (Py.fgt v (Py.Finite 30)); [| reflexivity].
      assert (30 <= RiskManager.volatility_points v)%Z by (apply Hv; reflexivity). lia.
    + destruct (Py.fgt (Py.fabs d) (Py.Finite 20)); [| reflexivity].
      assert (30 <= RiskManager.drawdown_points d)%Z by (apply Hd; reflexivity). lia.
  - intros Hl. apply H6'; [right; exact Hl |]. apply Hvh in Hl.
    destruct (Z_le_gt_dec 30 (RiskManager.volatility_points v)) as [Hge | Hlt];
      [left; apply Hv; exact Hge |].
    right. apply Hd.
    pose proof (volatility_points_steps v) as Hvs.
    pose proof (drawdown_points_steps d) as Hds.
    cbn [In] in Hvs, Hds. lia.
Qed.

Section RiskOrder.

Lemma volatility_points_mono (v v' : Q) :
  v <= v' ->
  (RiskManager.volatility_points (Py.Finite v)
   <= RiskManager.volatility_points (Py.Finite v'))%Z.
Proof.
  intros Hle. unfold RiskManager.volatility_points. cbn [Py.fgt].
  py_cases; try lia; lra.
Qed.

Lemma drawdown_points_mono (d d' : Q) :
  Qabs d <= Qabs d' ->
  (RiskManager.drawdown_points (Py.Finite d)
   <= RiskManager.drawdown_points (Py.Finite d'))%Z.
Proof.
  intros Hle. unfold RiskManager.drawdown_points. cbn [Py.fgt Py.fabs].
  set (a := Qabs d) in *. set (a' := Qabs d') in *.
  py_cases; try lia; lra.
Qed.

Lemma sharpe_points_anti (s s' : Q) :
  s' <= s ->
  (RiskManager.sharpe_points (Py.Finite s)
   <= RiskManager.sharpe_points (Py.Finite s'))%Z.
Proof.
  intros Hle. unfold RiskManager.sharpe_points, Py.flt. cbn [Py.fgt].
  py_cases; try lia; lra.
Qed.

(** The level, read as a score for the decision engine, falls as the risk
    score rises. *)
Lemma normalized_level_anti (v d s v' d' s' : Py.pyfloat) :
  (RiskManager.risk_score_of v d s <= RiskManager.risk_score_of v' d' s')%Z ->
  DecisionEngine.normalize_risk_score (RiskManager.assess_risk_level v' d' s')
  <= DecisionEngine.normalize_risk_score (RiskManager.assess_risk_level v d s).
Proof.
  intros Hle. unfold RiskManager.assess_risk_level.
  set (a := RiskManager.risk_score_of v d s) in *.
  set (b := RiskManager.risk_score_of v' d' s') in *.
  destruct (Z.leb_spec 70 a), (Z.leb_spec 70 b),
           (Z.leb_spec 55 a), (Z.leb_spec 55 b),
           (Z.leb_spec 40 a), (Z.leb_spec 40 b),
           (Z.leb_spec 25 a), (Z.leb_spec 25 b);
    try lia; apply Qle_bool_true; vm_compute; reflexivity.
Qed.

End RiskOrder.

(** X19. On finite statistics the risk score of [assess_risk_level] never
    falls when the volatility rises, the drawdown deepens or the Sharpe ratio
    drops, and the score the decision engine reads off the resulting level
    never rises.  A NaN statistic earns the lowest contribution of its chain
    (10, 10 and 5 points): with all three undefined the level is "Low", and
    no input is scored better by the decision engine than that one. *)
Theorem risk_level_monotone :
  forall volatility volatility' max_drawdown max_drawdown' sharpe sharpe' : Q,
    volatility <= volatility' ->
    Qabs max_drawdown <= Qabs max_drawdown' ->
    sharpe' <= sharpe ->
    (RiskManager.risk_score_of
       (Py.Finite volatility) (Py.Finite max_drawdown) (Py.Finite sharpe)
     <= RiskManager.risk_score_of
          (Py.Finite volatility') (Py.Finite max_drawdown') (Py.Finite sharpe'))%Z /\
    DecisionEngine.normalize_risk_score
      (RiskManager.assess_risk_level
         (Py.Finite volatility') (Py.Finite max_drawdown') (Py.Finite sharpe'))
    <= DecisionEngine.normalize_risk_score
         (RiskManager.assess_risk_level
            (Py.Finite volatility) (Py.Finite max_drawdown) (Py.Finite sharpe)) /\
    RiskManager.assess_risk_level Py.NaN Py.NaN Py.NaN = "Low" /\
    (forall v d s : Py.pyfloat,
       (RiskManager.risk_score_of Py.NaN Py.NaN Py.NaN
        <= RiskManager.risk_score_of v d s)%Z /\
       DecisionEngine.normalize_risk_score (RiskManager.assess_risk_level v d s)
       <= DecisionEngine.normalize_risk_score
            (RiskManager.assess_risk_level Py.NaN Py.NaN Py.NaN)).
Proof.
  intros v v' d d' s s' Hv Hd Hs.
  assert (Hscore :
    (RiskManager.risk_score_of (Py.Finite v) (Py.Finite d) (Py.Finite s)
     <= RiskManager.risk_score_of (Py.Finite v') (Py.Finite d') (Py.Finite s'))%Z).
  { unfold RiskManager.risk_score_of.
    pose proof (volatility_points_mono v v' Hv).
    pose proof (drawdown_points_mono d d' Hd).
    pose proof (sharpe_points_anti s s' Hs). lia. }
  split; [exact Hscore |].
  split; [apply normalized_level_anti; exact Hscore |].
  split; [reflexivity |].
  intros x y z.
  assert (Hnan : (RiskManager.risk_score_of Py.NaN Py.NaN Py.NaN
                  <= RiskManager.risk_score_of x y z)%Z).
  { pose proof (risk_score_ge_25 x y z) as H.
    change (RiskManager.risk_score_of Py.NaN Py.NaN Py.NaN) with 25%Z. exact H. }
  split; [exact Hnan | apply normalized_level_anti; exact Hnan].
Qed.

Lemma risk_level_monotone_witness :
  (RiskManager.risk_score_of (Py.Finite 25) (Py.Finite (-5)) (Py.Finite 1.2)
   <= RiskManager.risk_score_of (Py.Finite 45) (Py.Finite (-35)) (Py.Finite (-0.3)))%Z.
Proof.
  destruct (risk_level_monotone 25 45 (-5) (-35) 1.2 (-0.3)) as [Hscore _];
    [apply Qle_bool_true; reflexivity | apply Qle_bool_true; reflexivity
    | apply Qle_bool_true; reflexivity | exact Hscore].
Defined.

Section RiskReward.

Lemma sumQ_positive (xs : list Q) :
  xs <> [] -> Forall (fun x => 0 < x) xs -> 0 < Spec.sumQ xs.
Proof.
  intros Hne Hall. induction Hall as [| x xs Hx Hall IH]; [congruence |].
  cbn [Spec.sumQ]. destruct xs as [| y xs].
  - cbn [Spec.sumQ]. lra.
  - assert (0 < Spec.sumQ (y :: xs)) by (apply IH; congruence). lra.
Qed.

Lemma sumQ_opp (xs : list Q) :
  Spec.sumQ (map Qopp xs) == - Spec.sumQ xs.
Proof.
  induction xs as [| x xs IH]; cbn [map Spec.sumQ]; [lra | rewrite IH; lra].
Qed.

Lemma mean_positive (xs : list Q) :
  xs <> [] -> Forall (fun x => 0 < x) xs -> 0 < Py.mean xs.
Proof.
  intros Hne Hall. unfold Py.mean. rewrite fold_left_Qplus.
  pose proof (sumQ_positive xs Hne Hall) as Hsum.
  assert (0 < inject_Z (Z.of_nat (length xs))) as Hn.
  { change 0 with (inject_Z 0). rewrite <- Zlt_Qlt.
    destruct xs; [congruence | cbn [length]; lia]. }
  apply Qlt_shift_div_l; [exact Hn | lra].
Qed.

Lemma mean_negative (xs : list Q) :
  xs <> [] -> Forall (fun x => x < 0) xs -> Py.mean xs < 0.
Proof.
  intros Hne Hall. unfold Py.mean. rewrite fold_left_Qplus.
  assert (0 < Spec.sumQ (map Qopp xs)) as Hsum.
  { apply sumQ_positive; [destruct xs; cbn; congruence |].
    clear Hne. induction Hall; cbn [map]; [constructor | constructor; [lra | assumption]]. }
  rewrite sumQ_opp in Hsum.
  assert (0 < inject_Z (Z.of_nat (length xs))) as Hn.
  { change 0 with (inject_Z 0). rewrite <- Zlt_Qlt.
    destruct xs; [congruence | cbn [length]; lia]. }
  apply Qlt_shift_div_r; [exact Hn | lra].
Qed.

(** The returns of a series are the relative changes of neighbouring
    values. *)
Lemma pct_change_In (xs : list Q) (r : Q) :
  In r (Py.pct_change xs)
  <-> exists (i : nat) (a b : Q),
        xs !! i = Some a /\ xs !! S i = Some b /\ r = b / a - 1.
Proof.
  induction xs as [| a [| b rest] IH].
  - cbn. split; [tauto | intros (i & x & y & H & _); discriminate].
  - cbn. split; [tauto |].
    intros (i & x & y & _ & H & _). destruct i; discriminate.
  - change (Py.pct_change (a :: b :: rest))
      with ((b / a - 1) :: Py.pct_change (b :: rest)).
    cbn [In]. rewrite IH. split.
    + intros [<- | (i & x & y & H1 & H2 & ->)].
      * exists 0%nat, a, b. repeat split; reflexivity.
      * exists (S i), x, y. repeat split; assumption.
    + intros ([| i] & x & y & H1 & H2 & ->).
      * cbn in H1, H2. injection H1 as <-. injection H2 as <-. left. reflexivity.
      * right. exists i, x, y. repeat split; assumption.
Qed.

Lemma filter_nil_iff {A} (f : A -> bool) (l : list A) :
  List.filter f l = [] <-> forall x, In x l -> f x = false.
Proof.
  induction l as [| y l IH]; cbn; [split; [tauto | reflexivity] |].
  destruct (f y) eqn:E.
  - split; [discriminate |]. intros H. rewrite (H y) in E by tauto. discriminate.
  - rewrite IH. split.
    + intros H x [<- | Hin]; [exact E | apply H; exact Hin].
    + intros H x Hin. apply H. right. exact Hin.
Qed.

Lemma return_sign (a b : Q) :
  0 < a ->
  (b / a - 1 < 0 <-> b < a) /\ (0 < b / a - 1 <-> a < b).
Proof.
  intros Ha.
  assert (Hq : b / a * a == b) by (field; lra).
  split; split; intros H.
  - destruct (Qlt_le_dec b a) as [? | Hge]; [assumption |].
    assert (a <= b / a * a) by lra. nra.
  - assert (b / a * a < a) by lra. nra.
  - destruct (Qlt_le_dec a b) as [? | Hge]; [assumption |].
    assert (b / a * a <= a) by lra. nra.
  - assert (a < b / a * a) by lra. nra.
Qed.

End RiskReward.

(** X20. On a history of positive closes [calculate_risk_reward_ratio] looks
    at the last 252 rows only.  It answers the integer 0 exactly when there
    are fewer than two rows, and infinity exactly when there are at least two
    and no close of the window is below the one before it.  As soon as one
    close falls the answer is a finite number, never negative, and zero
    exactly when no close rises; the second infinity of the source, for an
    average loss of zero, is never reached. *)
Theorem risk_reward_ratio_cases :
  forall df : Py.DataFrame,
    Forall (fun row => 0 < Py.Close row) df ->
    let recent := map Py.Close (Py.tail 252 df) in
    let falls :=
      exists (i : nat) (a b : Q),
        recent !! i = Some a /\ recent !! S i = Some b /\ b < a in
    let rises :=
      exists (i : nat) (a b : Q),
        recent !! i = Some a /\ recent !! S i = Some b /\ a < b in
    let result := RiskManager.calculate_risk_reward_ratio df in
    (result = Py.PyInt 0 <-> (length df < 2)%nat) /\
    (result = Py.PyFloat Py.PosInf <-> (2 <= length df)%nat /\ ~ falls) /\
    (falls ->
       exists q : Q,
         result = Py.NpFloat (Py.Finite q) /\ 0 <= q /\ (q == 0 <-> ~ rises)).
Proof.
  intros df Hpos recent falls rises result.
  assert (Hrecent : forall (i : nat) (a : Q), recent !! i = Some a -> 0 < a).
  { intros i a Hi. apply list_elem_of_lookup_2 in Hi.
    apply list_elem_of_In in Hi. subst recent.
    apply in_map_iff in Hi as (row & <- & Hin).
    apply tail_incl in Hin. rewrite List.Forall_forall in Hpos.
    apply Hpos. exact Hin. }
  assert (Hlen : length recent = Nat.min 252 (length df)).
  { subst recent. rewrite length_map. apply tail_length. }
  assert (Hfalls_len : falls -> (2 <= length recent)%nat).
  { intros (i & a & b & _ & Hb & _). apply lookup_lt_Some in Hb. lia. }
  set (returns := Py.pct_change recent).
  set (losses := List.filter (fun r => Py.lt r 0) returns).
  set (gains := List.filter (fun r => Py.gt r 0) returns).
  assert (Hlosses : losses = [] <-> ~ falls).
  { subst losses. rewrite filter_nil_iff. split.
    - intros Hnone (i & a & b & Ha & Hb & Hlt).
      assert (Hr : In (b / a - 1) returns)
        by (apply pct_change_In; exists i, a, b; tauto).
      apply Hnone in Hr. unfold Py.lt in Hr.
      destruct (Qle_bool 0 (b / a - 1)) eqn:E; [| discriminate].
      apply Qle_bool_true in E.
      destruct (return_sign a b (Hrecent i a Ha)) as [[_ Hneg] _].
      apply Hneg in Hlt. lra.
    - intros Hnot r Hr. apply pct_change_In in Hr as (i & a & b & Ha & Hb & ->).
      unfold Py.lt. destruct (Qle_bool 0 (b / a - 1)) eqn:E; [reflexivity |].
      apply Qle_bool_false in E. exfalso. apply Hnot. exists i, a, b.
      repeat split; try assumption.
      apply (return_sign a b (Hrecent i a Ha)). exact E. }
  assert (Hgains : gains = [] <-> ~ rises).
  { subst gains. rewrite filter_nil_iff. split.
    - intros Hnone (i & a & b & Ha & Hb & Hlt).
      assert (Hr : In (b / a - 1) returns)
        by (apply pct_change_In; exists i, a, b; tauto).
      apply Hnone in Hr. unfold Py.gt in Hr.
      destruct (Qle_bool (b / a - 1) 0) eqn:E; [| discriminate].
      apply Qle_bool_true in E.
      destruct (return_sign a b (Hrecent i a Ha)) as [_ [_ Hposr]].
      apply Hposr in Hlt. lra.
    - intros Hnot r Hr. apply pct_change_In in Hr as (i & a & b & Ha & Hb & ->).
      unfold Py.gt. destruct (Qle_bool (b / a - 1) 0) eqn:E; [reflexivity |].
      apply Qle_bool_false in E. exfalso. apply Hnot. exists i, a, b.
      repeat split; try assumption.
      apply (return_sign a b (Hrecent i a Ha)). exact E. }
  assert (Hneg : Forall (fun r => r < 0) losses).
  { apply List.Forall_forall. intros r Hr. subst losses.
    apply filter_In in Hr as [_ Hr]. unfold Py.lt in Hr.
    destruct (Qle_bool 0 r) eqn:E; [discriminate |].
    apply Qle_bool_false in E. exact E. }
  assert (Hposg : Forall (fun r => 0 < r) gains).
  { apply List.Forall_forall. intros r Hr. subst gains.
    apply filter_In in Hr as [_ Hr]. unfold Py.gt in Hr.
    destruct (Qle_bool r 0) eqn:E; [discriminate |].
    apply Qle_bool_false in E. exact E. }
  subst result. unfold RiskManager.calculate_risk_reward_ratio.
  rewrite <- (length_map Py.Close (Py.tail 252 df)).
  fold recent. fold returns. fold losses. fold gains.
  destruct (Nat.ltb_spec (length recent) 2) as [Hshort | Hlong].
  { split; [split; [lia | reflexivity] |].
    split; [split; [discriminate | lia] |].
    intros Hf. apply Hfalls_len in Hf. lia. }
  clearbody losses gains.
  destruct losses as [| loss losses'].
  { cbn [length Nat.eqb].
    split; [split; [discriminate | lia] |].
    split; [split; [intros _; split; [lia | apply Hlosses; reflexivity] | reflexivity] |].
    intros Hf. exfalso. apply Hlosses; [reflexivity | exact Hf]. }
  set (losses := loss :: losses') in *.
  assert (Hne : losses <> []) by discriminate.
  change (length losses =? 0)%nat with false. cbv iota.
  pose proof (mean_negative losses Hne Hneg) as Hmean.
  assert (Habs : 0 < Qabs (Py.mean losses)).
  { rewrite Qabs_neg by lra. lra. }
  unfold Py.eq.
  destruct (Qeq_bool (Qabs (Py.mean losses)) 0) eqn:E;
    [apply Qeq_bool_eq in E; lra |].
  split; [split; [discriminate | lia] |].
  split; [split; [discriminate | intros [_ Hnf]; apply Hlosses in Hnf; discriminate] |].
  intros _. eexists. split; [reflexivity |].
  set (avg_loss := Qabs (Py.mean losses)) in *.
  destruct gains as [| gain gains'].
  - cbn [length Nat.ltb Nat.leb].
    assert (Hq : 0 / avg_loss == 0) by (field; lra).
    rewrite Hq. split; [lra |]. split; [intros _; apply Hgains; reflexivity | reflexivity].
  - set (gains := gain :: gains') in *.
    assert (Hgne : gains <> []) by discriminate.
    change (0 <? length gains)%nat with true. cbv iota.
    pose proof (mean_positive gains Hgne Hposg) as Hgmean.
    assert (Hq : 0 < Py.mean gains / avg_loss)
      by (apply Qlt_shift_div_l; lra).
    split; [lra |]. split; [intros H; lra |].
    intros Hnr. apply Hgains in Hnr. discriminate.
Qed.

Lemma risk_reward_ratio_cases_witness :
  RiskManager.calculate_risk_reward_ratio Fixtures.rising_history
  = Py.PyFloat Py.PosInf
  <-> (2 <= length Fixtures.rising_history)%nat /\
      ~ exists (i : nat) (a b : Q),
          map Py.Close (Py.tail 252 Fixtures.rising_history) !! i = Some a /\
          map Py.Close (Py.tail 252 Fixtures.rising_history) !! S i = Some b /\
          b < a.
Proof.
  destruct (risk_reward_ratio_cases Fixtures.rising_history) as (_ & Hinf & _);
    [repeat constructor | exact Hinf].
Defined.

Section Serializer.

Variable series_to_list : list Py.pyfloat -> list Py.pyobj.
Variable frame_to_records : list (list (string * Py.pyfloat)) -> list Py.pyobj.

#[local] Abbreviation serialize := (App.make_json_serializable series_to_list frame_to_records).

(** Induction over a value and the values nested in its lists, tuples and
    dictionaries. *)
Lemma pyobj_nested_ind (P : Py.pyobj -> Prop) :
  (forall obj,
     match obj with
     | Py.PyList xs | Py.PyTuple xs => Forall P xs
     | Py.PyDict items => Forall (fun item => P item.2) items
     | _ => True
     end -> P obj) ->
  forall obj, P obj.
Proof.
  intros Hstep. fix IH 1. intros obj. apply Hstep.
  destruct obj as [| | | | | xs | xs | items | | | | | | |]; try exact I.
  - induction xs as [| x xs IHxs]; constructor; [apply IH | exact IHxs].
  - induction xs as [| x xs IHxs]; constructor; [apply IH | exact IHxs].
  - induction items as [| [key value] items IHitems]; constructor;
      [apply IH | exact IHitems].
Qed.

Lemma forallb_map_Forall {A B} (P : B -> bool) (f : A -> B) (Q : A -> bool)
    (l : list A) :
  Forall (fun x => P (f x) = Q x) l ->
  forallb P (map f l) = forallb Q l.
Proof.
  induction 1 as [| x l Hx _ IH]; cbn; [reflexivity | rewrite Hx, IH; reflexivity].
Qed.

Lemma map_map_Forall {A} (f : A -> A) (l : list A) :
  Forall (fun x => f (f x) = f x) l -> map f (map f l) = map f l.
Proof.
  induction 1 as [| x l Hx _ IH]; cbn; [reflexivity | rewrite Hx, IH; reflexivity].
Qed.

Lemma serialize_assoc (key : string) (items : list (string * Py.pyobj)) :
  Py.assoc key (map (fun '(k, value) => (k, serialize value)) items)
  = option_map serialize (Py.assoc key items).
Proof.
  induction items as [| [k v] items IH]; cbn; [reflexivity |].
  destruct (String.eqb k key); [reflexivity | exact IH].
Qed.

Lemma serialize_get (key : string) (obj : Py.pyobj) :
  Py.get key (serialize obj) = option_map serialize (Py.get key obj).
Proof.
  destruct obj as [| | | x | | xs | xs | items | | x | | | | |]; cbn;
    try reflexivity.
  - destruct (Py.is_nan x); reflexivity.
  - apply serialize_assoc.
  - destruct (Py.is_nan x || Py.is_inf x); reflexivity.
Qed.

Lemma serialize_list (xs : list Py.pyobj) :
  serialize (Py.PyList xs) = Py.PyList (map serialize xs).
Proof. reflexivity. Qed.

Lemma serialize_tuple (xs : list Py.pyobj) :
  serialize (Py.PyTuple xs) = Py.PyList (map serialize xs).
Proof. reflexivity. Qed.

Lemma serialize_dict (items : list (string * Py.pyobj)) :
  serialize (Py.PyDict items)
  = Py.PyDict (map (fun '(key, value) => (key, serialize value)) items).
Proof. reflexivity. Qed.

(** What serialisation achieves on one value without arrays, series and
    frames. *)
#[local] Abbreviation serialized_well :=
  (fun obj : Py.pyobj =>
     Spec.scalars_only obj = true ->
     Spec.builtin_only (serialize obj) = true /\
     Spec.nan_free (serialize obj) = true /\
     serialize (serialize obj) = serialize obj /\
     App.all_finite (serialize obj) = Spec.python_infinity_free obj).

Lemma serialized_well_list (xs : list Py.pyobj) :
  Forall serialized_well xs ->
  forallb Spec.scalars_only xs = true ->
  forallb Spec.builtin_only (map serialize xs) = true /\
  forallb Spec.nan_free (map serialize xs) = true /\
  map serialize (map serialize xs) = map serialize xs /\
  forallb App.all_finite (map serialize xs)
  = forallb Spec.python_infinity_free xs.
Proof.
  induction 1 as [| x xs Hx _ IH]; cbn [forallb map]; intros Hs;
    [repeat split; reflexivity |].
  apply andb_true_iff in Hs as [Hs1 Hs2].
  destruct (Hx Hs1) as (H1 & H2 & H3 & H4).
  destruct (IH Hs2) as (I1 & I2 & I3 & I4).
  rewrite H1, H2, H3, H4, I1, I2, I3, I4. repeat split; reflexivity.
Qed.

Lemma serialized_well_items (items : list (string * Py.pyobj)) :
  let entry := fun '(key, value) => (key, serialize value) in
  Forall (fun item => serialized_well item.2) items ->
  forallb (fun '(_, value) => Spec.scalars_only value) items = true ->
  forallb (fun '(_, value) => Spec.builtin_only value) (map entry items) = true /\
  forallb (fun '(_, value) => Spec.nan_free value) (map entry items) = true /\
  map entry (map entry items) = map entry items /\
  forallb (fun '(_, value) => App.all_finite value) (map entry items)
  = forallb (fun '(_, value) => Spec.python_infinity_free value) items.
Proof.
  intros entry. induction 1 as [| [key value] items Hx _ IH];
    cbn [forallb map entry]; intros Hs; [repeat split; reflexivity |].
  apply andb_true_iff in Hs as [Hs1 Hs2]. cbn [snd] in Hx.
  destruct (Hx Hs1) as (H1 & H2 & H3 & H4).
  destruct (IH Hs2) as (I1 & I2 & I3 & I4).
  subst entry. cbn beta iota.
  rewrite H1, H2, H3, H4, I1, I2, I3, I4. repeat split; reflexivity.
Qed.

Lemma serialized_well_all (obj : Py.pyobj) : serialized_well obj.
Proof.
  revert obj. apply pyobj_nested_ind. intros obj IH Hs.
  destruct obj as [| b | z | x | str | xs | xs | items | z | x | b | xs | xs | rows | iso];
    try discriminate Hs; try (repeat split; reflexivity).
  - destruct x; repeat split; reflexivity.
  - rewrite serialize_list.
    destruct (serialized_well_list xs IH Hs) as (H1 & H2 & H3 & H4).
    rewrite serialize_list, H3.
    cbn [Spec.builtin_only Spec.nan_free App.all_finite Spec.python_infinity_free].
    repeat split; assumption.
  - rewrite serialize_tuple.
    destruct (serialized_well_list xs IH Hs) as (H1 & H2 & H3 & H4).
    rewrite serialize_list, H3.
    cbn [Spec.builtin_only Spec.nan_free App.all_finite Spec.python_infinity_free].
    repeat split; assumption.
  - rewrite serialize_dict.
    destruct (serialized_well_items items IH Hs) as (H1 & H2 & H3 & H4).
    rewrite serialize_dict, H3.
    cbn [Spec.builtin_only Spec.nan_free App.all_finite Spec.python_infinity_free].
    repeat split; assumption.
  - destruct x; repeat split; reflexivity.
Qed.

End Serializer.

(** X21. On a payload without NumPy arrays, pandas series and frames,
    [make_json_serializable] leaves only Python's own values (None, booleans,
    integers, floats, strings, timestamps, lists and dictionaries), removes
    every NaN, and changes nothing when applied a second time.  Its output is
    free of non-finite numbers exactly when the payload held no infinite
    Python float: those are the only non-finite numbers that pass. *)
Theorem serialization_cleans_scalar_payloads :
  forall (series_to_list : list Py.pyfloat -> list Py.pyobj)
         (frame_to_records : list (list (string * Py.pyfloat)) -> list Py.pyobj)
         (obj : Py.pyobj),
    let serialize := App.make_json_serializable series_to_list frame_to_records in
    Spec.scalars_only obj = true ->
    Spec.builtin_only (serialize obj) = true /\
    Spec.nan_free (serialize obj) = true /\
    serialize (serialize obj) = serialize obj /\
    (App.all_finite (serialize obj) = true
     <-> Spec.python_infinity_free obj = true).
Proof.
  intros s f obj serialize Hs. subst serialize.
  destruct (serialized_well_all s f obj Hs) as (H1 & H2 & H3 & H4).
  rewrite H4. repeat split; tauto.
Qed.

Lemma serialization_cleans_scalar_payloads_witness :
  Spec.nan_free
    (App.make_json_serializable (fun _ => []) (fun _ => [])
                                Fixtures.rising_decision) = true.
Proof.
  destruct (serialization_cleans_scalar_payloads
              (fun _ => []) (fun _ => []) Fixtures.rising_decision)
    as (_ & Hnan & _); [vm_compute; reflexivity | exact Hnan].
Defined.

(** X22. Serialisation keeps the shape of a payload.  A dictionary keeps its
    keys in their order, a list or tuple becomes a list of the same length,
    and looking a path of keys up in the serialised payload gives the
    serialised value of what the path gives in the payload itself, and
    nothing where the path gives nothing. *)
Theorem serialization_keeps_structure :
  forall (series_to_list : list Py.pyfloat -> list Py.pyobj)
         (frame_to_records : list (list (string * Py.pyfloat)) -> list Py.pyobj),
    let serialize := App.make_json_serializable series_to_list frame_to_records in
    (forall (keys : list string) (obj : Py.pyobj),
       Py.get_path keys (serialize obj)
       = option_map serialize (Py.get_path keys obj)) /\
    (forall items : list (string * Py.pyobj),
       exists items',
         serialize (Py.PyDict items) = Py.PyDict items' /\
         map fst items' = map fst items) /\
    (forall xs : list Py.pyobj,
       exists xs',
         serialize (Py.PyList xs) = Py.PyList xs' /\
         serialize (Py.PyTuple xs) = Py.PyList xs' /\
         length xs' = length xs).
Proof.
  intros s f serialize. subst serialize. split; [| split].
  - intros keys. induction keys as [| key keys IH]; intros obj; [reflexivity |].
    cbn [Py.get_path]. rewrite serialize_get.
    destruct (Py.get key obj) as [value |]; cbn [option_map]; [apply IH | reflexivity].
  - intros items. eexists. split; [apply serialize_dict |].
    rewrite map_map. apply map_ext. intros [key value]. reflexivity.
  - intros xs. eexists. split; [apply serialize_list |].
    split; [apply serialize_tuple | apply length_map].
Qed.

Section NewsFeed.

Import SentimentAnalyst.

Variable fromtimestamp : Z -> Py.outcome Z.

(** Whether an article is published at or after the cutoff. *)
#[local] Abbreviation recent cutoff_date :=
  (fun a : article =>
     match fromtimestamp (default 0%Z (art_providerPublishTime a)) with
     | Py.Returned pub_date => (cutoff_date <=? pub_date)%Z
     | Py.Raised _ => false
     end).

Lemma filter_news_raises (cutoff_date : Z) (acc : list news_item)
    (news : list article) :
  (exists a e, In a news /\
     fromtimestamp (default 0%Z (art_providerPublishTime a)) = Py.Raised e) ->
  exists e, filter_news fromtimestamp cutoff_date acc news = Py.Raised e.
Proof.
  revert acc. induction news as [| b news IH]; intros acc (a & e & Hin & Ha);
    [destruct Hin |].
  cbn [filter_news].
  destruct (fromtimestamp (default 0%Z (art_providerPublishTime b)))
    as [pub_date | e'] eqn:Hb; cbn [Py.bind]; [| exists e'; reflexivity].
  assert (Hrest : exists a e, In a news /\
            fromtimestamp (default 0%Z (art_providerPublishTime a)) = Py.Raised e).
  { destruct Hin as [<- | Hin]; [congruence | exists a, e; tauto]. }
  destruct (cutoff_date <=? pub_date)%Z; apply IH; exact Hrest.
Qed.

Lemma filter_news_returns (cutoff_date : Z) (acc : list news_item)
    (news : list article) (result : list news_item) :
  filter_news fromtimestamp cutoff_date acc news = Py.Returned result ->
  exists added,
    result = (acc ++ added)%list /\
    Forall (fun item => (cutoff_date <= ni_date item)%Z) added /\
    sublist (map ni_title added) (map (fun a => default "" (art_title a)) news) /\
    length added = length (List.filter (recent cutoff_date) news).
Proof.
  revert acc. induction news as [| a news IH]; intros acc; cbn [filter_news].
  - intros [= <-]. exists []. rewrite app_nil_r.
    repeat split; [constructor | constructor].
  - destruct (fromtimestamp (default 0%Z (art_providerPublishTime a)))
      as [pub_date | e] eqn:Ha; cbn [Py.bind]; [| discriminate].
    cbn [List.filter map]. rewrite Ha.
    destruct (Z.leb_spec cutoff_date pub_date) as [Hle | Hlt]; intros Hrun;
      apply IH in Hrun as (added & -> & Hall & Hsub & Hlen).
    + eexists (_ :: added). rewrite <- app_assoc. split; [reflexivity |].
      split; [constructor; [exact Hle | exact Hall] |].
      split; [cbn [map ni_title]; apply sublist_skip; exact Hsub |].
      cbn [length]. rewrite Hlen. reflexivity.
    + exists added. split; [reflexivity |]. split; [exact Hall |].
      split; [apply sublist_cons; exact Hsub | exact Hlen].
Qed.

(** The loop collects the items of the recent articles, in their order. *)
Lemma filter_news_recent (cutoff_date : Z) (acc : list news_item)
    (news : list article) (result : list news_item) :
  filter_news fromtimestamp cutoff_date acc news = Py.Returned result ->
  result = (acc ++ Spec.recent_items fromtimestamp cutoff_date news)%list.
Proof.
  revert acc. induction news as [| a news IH]; intros acc; cbn [filter_news].
  - intros [= <-]. cbn. rewrite app_nil_r. reflexivity.
  - unfold Spec.recent_items. cbn [flat_map].
    destruct (fromtimestamp (default 0%Z (art_providerPublishTime a)))
      as [pub_date | e] eqn:Ha; cbn [Py.bind]; [| discriminate].
    destruct (cutoff_date <=? pub_date)%Z; intros Hrun;
      apply IH in Hrun as ->.
    + rewrite <- app_assoc. reflexivity.
    + reflexivity.
Qed.

End NewsFeed.

(** X23. [fetch_news] never returns more than 20 items.  It returns none
    when the provider raises or has nothing, when the cutoff cannot be
    computed, and when the publication time of any one article, recent or
    not, cannot be converted.  Otherwise it returns exactly the items of the
    first 20 articles published at or after the cutoff, in the provider's
    order (an article without a publication time counts as published at time
    0): each item carries its article's title, summary and publisher, the
    empty text for a missing one, and the converted publication time. *)
Theorem fetch_news_bounds :
  forall (ticker_news : string -> Py.outcome (option (list SentimentAnalyst.article)))
         (cutoff fromtimestamp : Z -> Py.outcome Z)
         (symbol : string) (days : Z),
    let items :=
      SentimentAnalyst.fetch_news ticker_news cutoff fromtimestamp symbol days in
    let time_of a :=
      fromtimestamp (default 0%Z (SentimentAnalyst.art_providerPublishTime a)) in
    (length items <= 20)%nat /\
    ((forall news, ticker_news symbol <> Py.Returned (Some news)) -> items = []) /\
    (forall news,
       ticker_news symbol = Py.Returned (Some news) ->
       ((exists e, cutoff days = Py.Raised e) -> items = []) /\
       ((exists a e, In a news /\ time_of a = Py.Raised e) -> items = []) /\
       (forall cutoff_date,
          cutoff days = Py.Returned cutoff_date ->
          (forall a, In a news -> exists pub_date, time_of a = Py.Returned pub_date) ->
          items = firstn 20 (Spec.recent_items fromtimestamp cutoff_date news) /\
          Forall (fun item => (cutoff_date <= SentimentAnalyst.ni_date item)%Z) items /\
          sublist (map SentimentAnalyst.ni_title items)
                  (map (fun a => default "" (SentimentAnalyst.art_title a)) news) /\
          length items
          = Nat.min 20
              (length (List.filter
                 (fun a => match time_of a with
                           | Py.Returned pub_date => (cutoff_date <=? pub_date)%Z
                           | Py.Raised _ => false
                           end) news)))).
Proof.
  intros ticker_news cutoff fromtimestamp symbol days items time_of.
  subst items. unfold SentimentAnalyst.fetch_news.
  destruct (ticker_news symbol) as [[[| a0 news0] |] | e0] eqn:Hnews.
  - split; [cbn; lia |]. split; [reflexivity |].
    intros news [= <-]. split; [reflexivity |]. split; [reflexivity |].
    intros cutoff_date _ _. split; [reflexivity |]. repeat split; constructor.
  - set (news := a0 :: news0) in *.
    split.
    { destruct (Py.bind _ _); [rewrite length_firstn; lia | cbn; lia]. }
    split; [intros Hnone; exfalso; apply (Hnone news); reflexivity |].
    intros news' [= <-]. fold news.
    split; [intros [e ->]; reflexivity |].
    split.
    { intros Hraise. destruct (cutoff days) as [cutoff_date | e]; [| reflexivity].
      cbn [Py.bind].
      destruct (filter_news_raises fromtimestamp cutoff_date [] news Hraise)
        as [e ->]. reflexivity. }
    intros cutoff_date -> Hconv. cbn [Py.bind].
    destruct (SentimentAnalyst.filter_news fromtimestamp cutoff_date [] news)
      as [filtered | e] eqn:Hrun.
    + pose proof (filter_news_recent fromtimestamp _ _ _ _ Hrun) as Hrecent.
      apply filter_news_returns in Hrun as (added & -> & Hall & Hsub & Hlen).
      cbn [app] in *. split; [rewrite Hrecent; reflexivity |].
      split; [apply Forall_take; exact Hall |].
      split.
      * rewrite <- firstn_map. etransitivity; [apply sublist_take | exact Hsub].
      * rewrite length_firstn, Hlen. reflexivity.
    + exfalso. clear - Hrun Hconv. revert Hrun. generalize (@nil SentimentAnalyst.news_item).
      induction news as [| a news IH]; intros acc; cbn [SentimentAnalyst.filter_news];
        [discriminate |].
      destruct (Hconv a (or_introl eq_refl)) as [pub_date Ha].
      unfold time_of in Ha. rewrite Ha. cbn [Py.bind].
      destruct (cutoff_date <=? pub_date)%Z; apply IH;
        intros b Hb; apply Hconv; right; exact Hb.
  - split; [cbn; lia |]. split; [reflexivity |]. intros news [=].
  - split; [cbn; lia |]. split; [reflexivity |]. intros news [=].
Qed.

Lemma fetch_news_at_most_20
    (ticker_news : string -> Py.outcome (option (list SentimentAnalyst.article)))
    (cutoff fromtimestamp : Z -> Py.outcome Z) (symbol : string) (days : Z) :
  (length (SentimentAnalyst.fetch_news ticker_news cutoff fromtimestamp symbol days)
   <= 20)%nat.
Proof.
  unfold SentimentAnalyst.fetch_news.
  destruct (ticker_news symbol) as [[[| a news] |] | e]; try (cbn; lia).
  destruct (Py.bind _ _); [rewrite length_firstn; lia | cbn; lia].
Qed.

(** The score that comes with a label of the sentiment bias. *)
Lemma sentiment_score_of_bias (p : Q) :
  (SentimentAnalyst.determine_bias p = "Bullish" ->
     65 <= SentimentAnalyst.calculate_sentiment_score p) /\
  (SentimentAnalyst.determine_bias p = "Bearish" ->
     SentimentAnalyst.calculate_sentiment_score p <= 35) /\
  (SentimentAnalyst.determine_bias p = "Neutral" ->
     45 <= SentimentAnalyst.calculate_sentiment_score p <= 55).
Proof.
  unfold SentimentAnalyst.calculate_sentiment_score,
    SentimentAnalyst.determine_bias.
  split; [| split].
  - intros Hb.
    apply clamp_ge; [lra |]. apply (round2_ge 65). change (inject_Z 65) with 65.
    revert Hb. py_cases; intros; first [discriminate | lra].
  - intros Hb.
    apply clamp_le; [lra |]. apply (round2_le 35). change (inject_Z 35) with 35.
    revert Hb. py_cases; intros; first [discriminate | lra].
  - intros Hb.
    assert (-0.1 < p <= 0.1) as Hp
      by (revert Hb; py_cases; intros; first [discriminate | lra]).
    split.
    + apply clamp_ge; [lra |]. apply (round2_ge 45). change (inject_Z 45) with 45. lra.
    + apply clamp_le; [lra |]. apply (round2_le 55). change (inject_Z 55) with 55. lra.
Qed.

(** X24. [SentimentAnalyst.analyze] answers score 50, bias "Neutral", no
    spike and the single insight "No recent news available" when
    [fetch_news] returns nothing.  Otherwise the article count is the number
    of news items, between 1 and 20; the bias is one of the five labels and
    agrees with the score ("Bullish" with at least 65, "Bearish" with at most
    35, "Neutral" with 45 to 55); and there are one or two insights: first the
    share of positive mentions as reported, then one on the spike exactly
    when a spike was detected.  In both cases the score lies within 0..100. *)
Theorem sentiment_analyze_result :
  forall (ticker_news : string -> Py.outcome (option (list SentimentAnalyst.article)))
         (cutoff fromtimestamp : Z -> Py.outcome Z)
         (blob_polarity : string -> Q) (format_float : Q -> string)
         (symbol : string) (days : Z),
    let items :=
      SentimentAnalyst.fetch_news ticker_news cutoff fromtimestamp symbol days in
    let result :=
      SentimentAnalyst.analyze ticker_news cutoff fromtimestamp blob_polarity
                               format_float symbol days in
    (items = [] ->
       SentimentAnalyst.sa_score result == 50 /\
       SentimentAnalyst.sa_bias result = "Neutral" /\
       SentimentAnalyst.sa_total_articles result = 0%Z /\
       SentimentAnalyst.sa_spike result = None /\
       SentimentAnalyst.sa_insights result = ["No recent news available"] /\
       SentimentAnalyst.sa_metrics result = None) /\
    (items <> [] ->
       SentimentAnalyst.sa_total_articles result = Z.of_nat (length items) /\
       (1 <= SentimentAnalyst.sa_total_articles result <= 20)%Z /\
       In (SentimentAnalyst.sa_bias result)
          ["Bullish"; "Slightly Bullish"; "Neutral"; "Slightly Bearish";
           "Bearish"] /\
       (SentimentAnalyst.sa_bias result = "Bullish" ->
          65 <= SentimentAnalyst.sa_score result) /\
       (SentimentAnalyst.sa_bias result = "Bearish" ->
          SentimentAnalyst.sa_score result <= 35) /\
       (SentimentAnalyst.sa_bias result = "Neutral" ->
          45 <= SentimentAnalyst.sa_score result <= 55) /\
       hd_error (SentimentAnalyst.sa_insights result)
       = Some (format_float (SentimentAnalyst.sa_positive_percentage result)
               +:+ "% positive mentions") /\
       (1 <= length (SentimentAnalyst.sa_insights result) <= 2)%nat /\
       (length (SentimentAnalyst.sa_insights result) = 2%nat
        <-> exists direction magnitude recent_news,
              SentimentAnalyst.sa_spike result
              = Some (SentimentAnalyst.SpikeDetected direction magnitude recent_news))) /\
    0 <= SentimentAnalyst.sa_score result <= 100.
Proof.
  intros ticker_news cutoff fromtimestamp blob fmt symbol days items result.
  pose proof (fetch_news_at_most_20 ticker_news cutoff fromtimestamp symbol days)
    as Hmost.
  fold items in Hmost.
  subst result. unfold SentimentAnalyst.analyze. fold items.
  destruct items as [| item rest].
  - split; [intros _; repeat split; reflexivity |].
    split; [congruence |].
    cbn [SentimentAnalyst.sa_score]. split; apply Qle_bool_true; reflexivity.
  - set (items := item :: rest) in *.
    set (metrics := SentimentAnalyst.calculate_sentiment_metrics blob items).
    assert (Htotal : SentimentAnalyst.total_count metrics = Z.of_nat (length items)).
    { subst metrics. unfold SentimentAnalyst.calculate_sentiment_metrics, items.
      cbn [SentimentAnalyst.total_count]. rewrite length_map. reflexivity. }
    destruct (sentiment_score_of_bias (SentimentAnalyst.average_sentiment metrics))
      as (Hbullish & Hbearish & Hneutral).
    cbn [SentimentAnalyst.sa_score SentimentAnalyst.sa_bias
         SentimentAnalyst.sa_total_articles SentimentAnalyst.sa_spike
         SentimentAnalyst.sa_insights SentimentAnalyst.sa_metrics
         SentimentAnalyst.sa_average_sentiment
         SentimentAnalyst.sa_positive_percentage].
    split; [intros H; discriminate H |].
    split; [| apply clamp_0_100].
    intros _. split; [exact Htotal |].
    split; [rewrite Htotal; unfold items in *; cbn [length] in *; lia |].
    split; [apply sentiment_bias_values |].
    split; [exact Hbullish |]. split; [exact Hbearish |].
    split; [exact Hneutral |].
    destruct (SentimentAnalyst.detect_sentiment_spike
                (SentimentAnalyst.sentiment_trend metrics))
      as [[direction magnitude recent_news |] |].
    + destruct (String.eqb direction "positive"); cbn [app length hd_error];
        (split; [reflexivity |]); (split; [lia |]);
        (split; [intros _; eauto | reflexivity]).
    + cbn [length hd_error]. split; [reflexivity |]. split; [lia |].
      split; [discriminate | intros (d & m & n & H); discriminate H].
    + cbn [length hd_error]. split; [reflexivity |]. split; [lia |].
      split; [discriminate | intros (d & m & n & H); discriminate H].
Qed.

Section Rsi.

#[local] Abbreviation rising := (fun d : Q => Py.gt d 0).
#[local] Abbreviation falling := (fun d : Q => Py.lt d 0).
#[local] Abbreviation rsi_of :=
  (fun r => Py.fsub (Py.Finite 100)
                    (Py.fdiv (Py.Finite 100) (Py.fadd (Py.Finite 1) r))).

Lemma diff_from_length (previous : Q) (xs : list Q) :
  length (Py.diff_from previous xs) = length xs.
Proof.
  revert previous. induction xs as [| x xs IH]; intros previous; cbn;
    [reflexivity | rewrite IH; reflexivity].
Qed.

Lemma diff_length (xs : list Q) : length (Py.diff xs) = length xs.
Proof. destruct xs; cbn; [reflexivity | rewrite diff_from_length; reflexivity]. Qed.

Lemma diff_from_app (previous a : Q) (l1 l2 : list Q) :
  Py.diff_from previous (l1 ++ a :: l2)
  = (Py.diff_from previous (l1 ++ [a]) ++ Py.diff_from a l2)%list.
Proof.
  revert previous. induction l1 as [| x l1 IH]; intros previous; cbn;
    [reflexivity | rewrite IH; reflexivity].
Qed.

Lemma diff_app (a : Q) (l1 l2 : list Q) :
  Py.diff (l1 ++ a :: l2) = (Py.diff (l1 ++ [a]) ++ Py.diff_from a l2)%list.
Proof.
  destruct l1 as [| x l1]; cbn; [reflexivity |].
  rewrite diff_from_app. reflexivity.
Qed.

Lemma tail_app_exact {A} (l1 l2 : list A) :
  Py.tail (length l2) (l1 ++ l2) = l2.
Proof.
  unfold Py.tail. rewrite length_app.
  replace (length l1 + length l2 - length l2)%nat with (length l1) by lia.
  apply drop_app_length.
Qed.

Lemma tail_all {A} (n : nat) (l : list A) :
  (length l <= n)%nat -> Py.tail n l = l.
Proof.
  intros Hle. unfold Py.tail.
  replace (length l - n)%nat with 0%nat by lia. reflexivity.
Qed.

(** The changes that count in the last [period] rows are those between the
    last [period + 1] closes. *)
Lemma window_changes (cond : Q -> bool) (f : Q -> Q) (period : nat) (xs : list Q) :
  f 0 == 0 ->
  (period <= length xs)%nat ->
  Spec.sumQ (Py.tail period (map f (Py.where_or_zero cond (Py.diff xs))))
  == Spec.sumQ (map f (Py.where_or_zero cond (Py.diff (Py.tail (S period) xs)))).
Proof.
  intros Hf Hlen.
  destruct (decide (length xs = period)) as [Heq | Hne].
  - rewrite !tail_all; [reflexivity | lia |].
    rewrite length_map. unfold Py.where_or_zero.
    rewrite length_map, diff_length. lia.
  - assert (Hsplit : exists pre a w,
              xs = (pre ++ a :: w)%list /\ length w = period).
    { exists (firstn (length xs - S period) xs).
      destruct (skipn (length xs - S period) xs) as [| a w] eqn:Hs.
      - apply (f_equal length) in Hs. rewrite length_skipn in Hs. cbn in Hs. lia.
      - exists a, w. split.
        + rewrite <- Hs. symmetry. apply firstn_skipn.
        + apply (f_equal length) in Hs. rewrite length_skipn in Hs.
          cbn [length] in Hs. lia. }
    destruct Hsplit as (pre & a & w & -> & Hw).
    rewrite diff_app. unfold Py.where_or_zero. rewrite !map_app.
    replace period with
      (length (map f (map (fun d => match d with
                                    | Some q => if cond q then q else 0
                                    | None => 0
                                    end) (Py.diff_from a w)))) at 1
      by (rewrite !length_map, diff_from_length; exact Hw).
    rewrite tail_app_exact.
    replace (S period) with (length (a :: w)) by (cbn [length]; lia).
    rewrite (tail_app_exact pre (a :: w)).
    cbn [Py.diff map Spec.sumQ]. rewrite Hf. lra.
Qed.

Lemma gains_from_positive (previous : Q) (w : list Q) :
  0 <= Spec.sumQ (Py.where_or_zero rising (Py.diff_from previous w)) /\
  (0 < Spec.sumQ (Py.where_or_zero rising (Py.diff_from previous w))
   <-> exists (i : nat) (a b : Q),
         (previous :: w) !! i = Some a /\ (previous :: w) !! S i = Some b /\ a < b).
Proof.
  revert previous. induction w as [| x w IH]; intros previous.
  - cbn. split; [lra |]. split; [lra |].
    intros (i & a & b & _ & Hb & _). destruct i; discriminate Hb.
  - destruct (IH x) as [Hrest Hiff].
    cbn [Py.diff_from Py.where_or_zero map Spec.sumQ] in *.
    fold (Py.where_or_zero rising (Py.diff_from x w)) in *.
    set (rest := Spec.sumQ (Py.where_or_zero rising (Py.diff_from x w))) in *.
    py_cases.
    + split; [lra |]. split.
      * intros H. assert (Hr : 0 < rest) by lra. apply Hiff in Hr.
        destruct Hr as (i & a & b & Ha & Hb & Hab).
        exists (S i), a, b. tauto.
      * intros ([| i] & a & b & Ha & Hb & Hab).
        -- cbn in Ha, Hb. injection Ha as <-. injection Hb as <-. lra.
        -- assert (Hr : 0 < rest) by (apply Hiff; exists i, a, b; tauto). lra.
    + split; [lra |]. split.
      * intros _. exists 0%nat, previous, x. repeat split; try reflexivity. lra.
      * intros _. lra.
Qed.

Lemma losses_from_positive (previous : Q) (w : list Q) :
  0 <= Spec.sumQ (map Qopp (Py.where_or_zero falling (Py.diff_from previous w))) /\
  (0 < Spec.sumQ (map Qopp (Py.where_or_zero falling (Py.diff_from previous w)))
   <-> exists (i : nat) (a b : Q),
         (previous :: w) !! i = Some a /\ (previous :: w) !! S i = Some b /\ b < a).
Proof.
  revert previous. induction w as [| x w IH]; intros previous.
  - cbn. split; [lra |]. split; [lra |].
    intros (i & a & b & _ & Hb & _). destruct i; discriminate Hb.
  - destruct (IH x) as [Hrest Hiff].
    cbn [Py.diff_from Py.where_or_zero map Spec.sumQ] in *.
    fold (Py.where_or_zero falling (Py.diff_from x w)) in *.
    set (rest := Spec.sumQ (map Qopp (Py.where_or_zero falling (Py.diff_from x w)))) in *.
    py_cases.
    + split; [lra |]. split.
      * intros H. assert (Hr : 0 < rest) by lra. apply Hiff in Hr.
        destruct Hr as (i & a & b & Ha & Hb & Hab).
        exists (S i), a, b. tauto.
      * intros ([| i] & a & b & Ha & Hb & Hab).
        -- cbn in Ha, Hb. injection Ha as <-. injection Hb as <-. lra.
        -- assert (Hr : 0 < rest) by (apply Hiff; exists i, a, b; tauto). lra.
    + split; [lra |]. split.
      * intros _. exists 0%nat, previous, x. repeat split; try reflexivity. lra.
      * intros _. lra.
Qed.

(** Over a window of closes, the gains add up to more than zero exactly
    when some close rises, the losses exactly when some close falls. *)
Lemma window_gains_losses (w : list Q) :
  let gains := Spec.sumQ (Py.where_or_zero rising (Py.diff w)) in
  let losses := Spec.sumQ (map Qopp (Py.where_or_zero falling (Py.diff w))) in
  0 <= gains /\ 0 <= losses /\
  (0 < gains <-> exists (i : nat) (a b : Q),
                   w !! i = Some a /\ w !! S i = Some b /\ a < b) /\
  (0 < losses <-> exists (i : nat) (a b : Q),
                    w !! i = Some a /\ w !! S i = Some b /\ b < a).
Proof.
  destruct w as [| x w].
  - cbn. repeat split; try lra; intros (i & a & b & Ha & _); discriminate Ha.
  - cbn [Py.diff Py.where_or_zero map Spec.sumQ].
    fold (Py.where_or_zero rising (Py.diff_from x w)).
    fold (Py.where_or_zero falling (Py.diff_from x w)).
    destruct (gains_from_positive x w) as [Hg Hgi].
    destruct (losses_from_positive x w) as [Hl Hli].
    rewrite <- Hgi, <- Hli. repeat split; intros; lra.
Qed.


(** The index from an average gain [g] and an average loss [l]. *)
Lemma rsi_value (g l : Q) :
  0 <= g -> 0 <= l ->
  let v := rsi_of (Py.fdiv (Py.Finite g) (Py.Finite l)) in
  (l == 0 -> g == 0 -> v = Py.NaN) /\
  (l == 0 -> 0 < g -> exists r, v = Py.Finite r /\ r == 100) /\
  (0 < l -> exists r, v = Py.Finite r /\ r == 100 * g / (g + l)
                      /\ 0 <= r < 100 /\ (r == 0 <-> g == 0)).
Proof.
  intros Hg Hl v. subst v.
  assert (Hinner :
    (l == 0 /\ g == 0 /\ Py.fdiv (Py.Finite g) (Py.Finite l) = Py.NaN) \/
    (l == 0 /\ 0 < g /\ Py.fdiv (Py.Finite g) (Py.Finite l) = Py.PosInf) \/
    (0 < l /\ Py.fdiv (Py.Finite g) (Py.Finite l) = Py.Finite (g / l))).
  { unfold Py.fdiv, Py.eq. destruct (Qeq_bool l 0) eqn:El.
    - apply Qeq_bool_eq in El. py_cases.
      + left. repeat split; [exact El | lra].
      + lra.
      + right. left. repeat split; [exact El | lra].
    - apply Qeq_bool_neq in El. right. right. split; [lra | reflexivity]. }
  destruct Hinner as [(El & Eg & ->) | [(El & Eg & ->) | (Hlpos & ->)]].
  - split; [reflexivity |]. split; intros; lra.
  - split; [intros; lra |]. split; [| intros; lra].
    intros _ _. eexists. split; [reflexivity |]. ring.
  - split; [intros; lra |]. split; [intros; lra |]. intros _.
    assert (Hratio : 0 <= g / l) by (apply Qle_shift_div_l; lra).
    cbn [Py.fadd]. unfold Py.fdiv, Py.eq.
    destruct (Qeq_bool (1 + g / l) 0) eqn:E1; [apply Qeq_bool_eq in E1; lra |].
    cbn [Py.fsub Py.fneg Py.fadd]. eexists. split; [reflexivity |].
    assert (Hr : 100 + - (100 / (1 + g / l)) == 100 * g / (g + l))
      by (field; split; lra).
    split; [exact Hr |]. rewrite Hr.
    assert (Hq : 100 * g / (g + l) * (g + l) == 100 * g) by (field; lra).
    set (q := 100 * g / (g + l)) in *.
    assert (Hq0 : 0 <= q).
    { destruct (Qlt_le_dec q 0) as [Hneg | Hpos]; [| exact Hpos]. nra. }
    assert (Hq100 : q < 100).
    { destruct (Qlt_le_dec q 100) as [Hlt | Hge]; [exact Hlt |]. nra. }
    split; [split; assumption |]. split; intros H; nra.
Qed.

Lemma mean_nonneg (xs : list Q) :
  Forall (fun x => 0 <= x) xs -> 0 <= Py.mean xs.
Proof.
  intros Hall. unfold Py.mean. rewrite fold_left_Qplus.
  assert (Hsum : 0 <= Spec.sumQ xs).
  { induction Hall; cbn [Spec.sumQ]; lra. }
  unfold Qdiv. apply Qmult_le_0_compat; [lra |].
  apply Qinv_le_0_compat. change 0 with (inject_Z 0). rewrite <- Zle_Qle. lia.
Qed.

Lemma gains_nonneg (delta : list (option Q)) :
  Forall (fun x => 0 <= x) (Py.where_or_zero rising delta).
Proof.
  unfold Py.where_or_zero. induction delta as [| [d |] delta IH]; cbn [map];
    constructor; try exact IH; py_cases; lra.
Qed.

Lemma losses_nonneg (delta : list (option Q)) :
  Forall (fun x => 0 <= x) (map Qopp (Py.where_or_zero falling delta)).
Proof.
  unfold Py.where_or_zero. induction delta as [| [d |] delta IH]; cbn [map];
    constructor; try exact IH; py_cases; lra.
Qed.

Lemma zip_with_maps {A B C D} (f : B -> C -> D) (g : A -> B) (h : A -> C)
    (l : list A) :
  zip_with f (map g l) (map h l) = map (fun x => f (g x) (h x)) l.
Proof. induction l as [| x l IH]; cbn; [reflexivity | rewrite IH; reflexivity]. Qed.

Lemma calculate_rsi_rows (df : Py.DataFrame) (period : nat) :
  let closes := map Py.Close df in
  let gains := Py.where_or_zero rising (Py.diff closes) in
  let losses := map Qopp (Py.where_or_zero falling (Py.diff closes)) in
  TechnicalAnalyst.calculate_rsi df period
  = map (fun i =>
           if ((1 <=? period) && (period <=? i + 1))%nat
           then rsi_of (Py.fdiv
                  (Py.Finite (Py.mean (firstn period (skipn (i + 1 - period) gains))))
                  (Py.Finite (Py.mean (firstn period (skipn (i + 1 - period) losses)))))
           else Py.NaN)
        (seq 0 (length df)).
Proof.
  intros closes gains losses. unfold TechnicalAnalyst.calculate_rsi, Py.rolling_mean.
  fold closes. fold gains. fold losses.
  assert (Hg : length gains = length df).
  { subst gains closes. unfold Py.where_or_zero.
    rewrite length_map, diff_length, length_map. reflexivity. }
  assert (Hl : length losses = length df).
  { subst losses closes. unfold Py.where_or_zero.
    rewrite !length_map, diff_length, length_map. reflexivity. }
  rewrite Hg, Hl, zip_with_maps, map_map.
  apply map_ext. intros i.
  destruct ((1 <=? period) && (period <=? i + 1))%nat; reflexivity.
Qed.

(** The averages behind the last value: both are non-negative, the gain is
    positive exactly when a close of the window rises, the loss exactly when
    one falls. *)
Lemma window_means (period : nat) (xs : list Q) :
  (1 <= period)%nat -> (period <= length xs)%nat ->
  let gain := Py.mean (Py.tail period (Py.where_or_zero rising (Py.diff xs))) in
  let loss :=
    Py.mean (Py.tail period (map Qopp (Py.where_or_zero falling (Py.diff xs)))) in
  let window := Py.tail (S period) xs in
  0 <= gain /\ 0 <= loss /\
  (0 < gain <-> exists (i : nat) (a b : Q),
                  window !! i = Some a /\ window !! S i = Some b /\ a < b) /\
  (0 < loss <-> exists (i : nat) (a b : Q),
                  window !! i = Some a /\ window !! S i = Some b /\ b < a).
Proof.
  intros Hp Hlen gain loss window.
  destruct (window_gains_losses window) as (Hg0 & Hl0 & Hg & Hl).
  cbv zeta in Hg0, Hl0, Hg, Hl. rewrite <- Hg, <- Hl.
  pose proof (window_changes rising (fun x => x) period xs ltac:(reflexivity) Hlen)
    as Hgw.
  pose proof (window_changes falling Qopp period xs ltac:(reflexivity) Hlen)
    as Hlw.
  rewrite !map_id in Hgw. fold window in Hgw, Hlw.
  assert (HP : 0 < inject_Z (Z.of_nat period))
    by (change 0 with (inject_Z 0); rewrite <- Zlt_Qlt; lia).
  assert (Hgain : gain * inject_Z (Z.of_nat period)
                  == Spec.sumQ (Py.where_or_zero rising (Py.diff window))).
  { subst gain. unfold Py.mean. rewrite fold_left_Qplus, tail_length.
    unfold Py.where_or_zero at 2. rewrite length_map, diff_length.
    rewrite Nat.min_l by lia. rewrite <- Hgw. field. lra. }
  assert (Hloss : loss * inject_Z (Z.of_nat period)
                  == Spec.sumQ (map Qopp (Py.where_or_zero falling (Py.diff window)))).
  { subst loss. unfold Py.mean. rewrite fold_left_Qplus, tail_length.
    unfold Py.where_or_zero at 2. rewrite !length_map, diff_length.
    rewrite Nat.min_l by lia. rewrite <- Hlw. field. lra. }
  set (P := inject_Z (Z.of_nat period)) in *.
  set (G := Spec.sumQ (Py.where_or_zero rising (Py.diff window))) in *.
  set (L := Spec.sumQ (map Qopp (Py.where_or_zero falling (Py.diff window)))) in *.
  assert (0 <= gain) by (destruct (Qlt_le_dec gain 0); [nra | assumption]).
  assert (0 <= loss) by (destruct (Qlt_le_dec loss 0); [nra | assumption]).
  repeat split; try assumption; intros; nra.
Qed.

End Rsi.

(** X25. [calculate_rsi] gives one value per row, each either NaN or a
    number within 0..100, never an infinity.  The last value, which
    [assess_overbought_oversold] reads, is NaN ("Neutral") while the frame
    has fewer rows than the period.  With at least that many rows it depends
    on the last period + 1 closes only: NaN ("Neutral") when none of them
    differs from the one before, 100 ("Overbought") when some rise and none
    falls, 0 ("Oversold") when some fall and none rises, and below 100 as
    soon as one falls.  On an empty frame the assessment raises IndexError. *)
Theorem rsi_of_history :
  forall (df : Py.DataFrame) (period : nat),
    (1 <= period)%nat ->
    let rsi := TechnicalAnalyst.calculate_rsi df period in
    let assessment := TechnicalAnalyst.assess_overbought_oversold rsi in
    let window := Py.tail (S period) (map Py.Close df) in
    let rises :=
      exists (i : nat) (a b : Q),
        window !! i = Some a /\ window !! S i = Some b /\ a < b in
    let falls :=
      exists (i : nat) (a b : Q),
        window !! i = Some a /\ window !! S i = Some b /\ b < a in
    length rsi = length df /\
    Forall (fun v => v = Py.NaN \/ exists r, v = Py.Finite r /\ 0 <= r <= 100) rsi /\
    (df = [] -> assessment = Py.Raised "IndexError") /\
    (df <> [] -> (length df < period)%nat ->
       Py.iloc_last rsi = Py.Returned Py.NaN /\
       assessment = Py.Returned "Neutral") /\
    ((period <= length df)%nat ->
       (~ rises -> ~ falls ->
          Py.iloc_last rsi = Py.Returned Py.NaN /\
          assessment = Py.Returned "Neutral") /\
       (rises -> ~ falls ->
          (exists r, Py.iloc_last rsi = Py.Returned (Py.Finite r) /\ r == 100) /\
          assessment = Py.Returned "Overbought") /\
       (falls -> ~ rises ->
          (exists r, Py.iloc_last rsi = Py.Returned (Py.Finite r) /\ r == 0) /\
          assessment = Py.Returned "Oversold") /\
       (falls ->
          exists r, Py.iloc_last rsi = Py.Returned (Py.Finite r) /\ 0 <= r < 100)).
Proof.
  intros df period Hp rsi assessment window rises falls.
  subst assessment rsi. rewrite calculate_rsi_rows.
  set (closes := map Py.Close df) in *.
  set (gains := Py.where_or_zero (fun d => Py.gt d 0) (Py.diff closes)).
  set (losses := map Qopp (Py.where_or_zero (fun d => Py.lt d 0) (Py.diff closes))).
  set (row := fun i : nat => _).
  assert (Hcloses : length closes = length df) by apply length_map.
  split; [rewrite length_map, length_seq; reflexivity |].
  split.
  { apply Forall_map, Forall_forall. intros i _. subst row. cbv beta.
    destruct ((1 <=? period) && (period <=? i + 1))%nat; [| left; reflexivity].
    set (g := Py.mean _). set (l := Py.mean _).
    assert (Hg : 0 <= g).
    { apply mean_nonneg, Forall_take, Forall_drop, gains_nonneg. }
    assert (Hl : 0 <= l).
    { apply mean_nonneg, Forall_take, Forall_drop, losses_nonneg. }
    destruct (rsi_value g l Hg Hl) as (Hnan & Hfull & Hpart).
    destruct (Qlt_le_dec 0 l) as [Hlpos | Hlzero].
    - destruct (Hpart Hlpos) as (r & -> & _ & Hr & _). right. exists r.
      split; [reflexivity | lra].
    - assert (El : l == 0) by lra.
      destruct (Qlt_le_dec 0 g) as [Hgpos | Hgzero].
      + destruct (Hfull El Hgpos) as (r & -> & Hr). right. exists r.
        split; [reflexivity | lra].
      + left. apply Hnan; [exact El | lra]. }
  split; [intros ->; reflexivity |].
  assert (Hlast : df <> [] ->
            Py.iloc_last (map row (seq 0 (length df)))
            = Py.Returned (row (length df - 1)%nat)).
  { intros Hne. destruct (length df) as [| m] eqn:Hm.
    - destruct df; [congruence | discriminate Hm].
    - rewrite seq_S, map_app. cbn [map]. rewrite iloc_last_snoc.
      replace (0 + m)%nat with (S m - 1)%nat by lia. reflexivity. }
  unfold TechnicalAnalyst.assess_overbought_oversold.
  split.
  { intros Hne Hshort. rewrite (Hlast Hne). subst row. cbv beta.
    replace ((1 <=? period) && (period <=? length df - 1 + 1))%nat with false.
    - split; reflexivity.
    - symmetry. apply andb_false_iff. right. apply Nat.leb_gt.
      destruct df; [congruence | cbn [length] in *; lia]. }
  intros Hlong.
  assert (Hne : df <> []) by (destruct df; [cbn in Hlong; lia | discriminate]).
  rewrite (Hlast Hne). subst row. cbv beta.
  replace ((1 <=? period) && (period <=? length df - 1 + 1))%nat with true
    by (symmetry; apply andb_true_iff; split; apply Nat.leb_le; lia).
  replace (length df - 1 + 1 - period)%nat with (length gains - period)%nat
    by (subst gains; unfold Py.where_or_zero;
        rewrite length_map, diff_length, Hcloses; lia).
  rewrite firstn_tail.
  replace (length gains - period)%nat with (length losses - period)%nat
    by (subst gains losses; unfold Py.where_or_zero;
        rewrite !length_map; reflexivity).
  rewrite firstn_tail.
  destruct (window_means period closes Hp ltac:(lia)) as (Hg & Hl & Hrise & Hfall).
  cbv zeta in Hg, Hl, Hrise, Hfall. fold gains losses window in Hg, Hl, Hrise, Hfall.
  fold rises in Hrise. fold falls in Hfall.
  set (g := Py.mean (Py.tail period gains)) in *.
  set (l := Py.mean (Py.tail period losses)) in *.
  destruct (rsi_value g l Hg Hl) as (Hnan & Hfull & Hpart). cbv zeta in Hnan, Hfull, Hpart.
  split; [| split; [| split]].
  - intros Hnr Hnf.
    assert (El : l == 0) by (destruct (Qlt_le_dec 0 l); [tauto | lra]).
    assert (Eg : g == 0) by (destruct (Qlt_le_dec 0 g); [tauto | lra]).
    rewrite (Hnan El Eg). split; reflexivity.
  - intros Hr Hnf.
    assert (El : l == 0) by (destruct (Qlt_le_dec 0 l); [tauto | lra]).
    destruct (Hfull El ltac:(tauto)) as (r & -> & Er).
    split; [exists r; split; [reflexivity | exact Er] |].
    cbn [Py.bind Py.fgt]. py_cases; [lra | reflexivity].
  - intros Hf Hnr.
    assert (Eg : g == 0) by (destruct (Qlt_le_dec 0 g); [tauto | lra]).
    destruct (Hpart ltac:(tauto)) as (r & -> & _ & Hrange & Hzero).
    assert (Er : r == 0) by (apply Hzero; exact Eg).
    split; [exists r; split; [reflexivity | exact Er] |].
    cbn [Py.bind Py.fgt Py.flt]. py_cases; try lra; reflexivity.
  - intros Hf.
    destruct (Hpart ltac:(tauto)) as (r & -> & _ & Hrange & _).
    exists r. split; [reflexivity | exact Hrange].
Qed.

Lemma rsi_of_history_witness :
  length (TechnicalAnalyst.calculate_rsi Fixtures.rising_history 1)
  = length Fixtures.rising_history.
Proof.
  destruct (rsi_of_history Fixtures.rising_history 1) as [Hlen _];
    [lia | exact Hlen].
Defined.

Section Levels.

(** The last value of a rolling maximum or minimum over a non-empty
    series. *)
Lemma rolling_extreme_last (extreme : list Q -> option Q) (window : nat)
    (xs : list Q) :
  xs <> [] ->
  Py.iloc_last (Py.rolling_extreme extreme window xs)
  = Py.Returned
      (if ((1 <=? window) && (window <=? length xs))%nat
       then match extreme (Py.tail window xs) with
            | Some m => Py.Finite m
            | None => Py.NaN
            end
       else Py.NaN).
Proof.
  intros Hne. unfold Py.rolling_extreme.
  destruct (length xs) as [| n] eqn:Hlen.
  { destruct xs; [congruence | discriminate Hlen]. }
  rewrite seq_S, map_app. cbn [map]. rewrite iloc_last_snoc.
  replace (0 + n + 1 - window)%nat with (length xs - window)%nat by lia.
  replace (0 + n + 1)%nat with (S n) by lia.
  rewrite firstn_tail. reflexivity.
Qed.

Lemma tail_nonempty {A} (n : nat) (l : list A) :
  (1 <= n)%nat -> l <> [] -> Py.tail n l <> [].
Proof.
  intros Hn Hne Hnil. apply (f_equal length) in Hnil.
  rewrite tail_length in Hnil. cbn [length] in Hnil.
  destruct l; [congruence | cbn [length] in Hnil; lia].
Qed.

Lemma tail_last {A} (n : nat) (l : list A) (x : A) :
  (1 <= n)%nat -> In x (Py.tail n (l ++ [x])).
Proof.
  intros Hn. unfold Py.tail. rewrite length_app. cbn [length].
  rewrite skipn_app.
  apply in_or_app. right.
  replace (length l + 1 - n - length l)%nat with 0%nat by lia. left. reflexivity.
Qed.

End Levels.

(** X26. [identify_support_resistance] raises IndexError on an empty frame
    and returns on every other one, with the last close as current price.
    With fewer rows than the window, support and resistance are NaN and
    [detect_breakout] reports nothing.  Otherwise the resistance is the
    highest high and the support the lowest low of the last [window] rows,
    so a last close between its own low and high lies between them, and
    [detect_breakout] reports a resistance breakout exactly when the close
    is at least 98 percent of the resistance, a support breakdown exactly
    when it is not but the close is at most 102 percent of the support, and
    always one of the two when 98 percent of the resistance does not exceed
    102 percent of the support. *)
Theorem breakout_detection :
  forall (df : Py.DataFrame) (window : nat),
    (1 <= window)%nat ->
    (df = [] ->
       TechnicalAnalyst.identify_support_resistance df window
       = Py.Raised "IndexError") /\
    (forall (rows : Py.DataFrame) (last : Py.bar),
       df = (rows ++ [last])%list ->
       exists levels : TechnicalAnalyst.support_resistance_t,
         TechnicalAnalyst.identify_support_resistance df window
         = Py.Returned levels /\
         TechnicalAnalyst.current_price levels = Py.Close last /\
         let verdict := TechnicalAnalyst.detect_breakout df levels in
         let recent := Py.tail window df in
         ((length df < window)%nat ->
            TechnicalAnalyst.support levels = Py.NaN /\
            TechnicalAnalyst.resistance levels = Py.NaN /\
            verdict = TechnicalAnalyst.NoBreakout) /\
         ((window <= length df)%nat ->
            exists lo hi : Q,
              TechnicalAnalyst.support levels = Py.Finite lo /\
              TechnicalAnalyst.resistance levels = Py.Finite hi /\
              In hi (map Py.High recent) /\
              In lo (map Py.Low recent) /\
              (forall row, In row recent -> lo <= Py.Low row /\ Py.High row <= hi) /\
              (Py.Low last <= Py.Close last <= Py.High last ->
                 lo <= Py.Close last <= hi) /\
              (verdict = TechnicalAnalyst.Breakout "resistance_breakout" "upward"
               <-> hi * 0.98 <= Py.Close last) /\
              (verdict = TechnicalAnalyst.Breakout "support_breakdown" "downward"
               <-> Py.Close last < hi * 0.98 /\ Py.Close last <= lo * 1.02) /\
              (hi * 0.98 <= lo * 1.02 -> verdict <> TechnicalAnalyst.NoBreakout))).
Proof.
  intros df window Hw. split; [intros ->; reflexivity |].
  intros rows last ->. set (df := (rows ++ [last])%list).
  assert (Hne : df <> []) by (subst df; destruct rows; discriminate).
  unfold TechnicalAnalyst.identify_support_resistance.
  unfold df at 1. rewrite map_app. cbn [map]. rewrite iloc_last_snoc.
  cbn [Py.bind]. unfold Py.rolling_max, Py.rolling_min.
  rewrite !rolling_extreme_last by (subst df; destruct rows; discriminate).
  cbn [Py.bind]. eexists. split; [reflexivity |].
  cbn [TechnicalAnalyst.current_price TechnicalAnalyst.support
       TechnicalAnalyst.resistance].
  split; [reflexivity |].
  rewrite !length_map.
  unfold TechnicalAnalyst.detect_breakout.
  cbn [TechnicalAnalyst.current_price TechnicalAnalyst.support
       TechnicalAnalyst.resistance].
  split.
  - intros Hshort.
    replace ((1 <=? window) && (window <=? length df))%nat with false
      by (symmetry; apply andb_false_iff; right; apply Nat.leb_gt; exact Hshort).
    repeat split; reflexivity.
  - intros Hlong.
    replace ((1 <=? window) && (window <=? length df))%nat with true
      by (symmetry; apply andb_true_iff; split; apply Nat.leb_le; lia).
    assert (Hrecent : Py.tail window df <> []) by (apply tail_nonempty; assumption).
    assert (Hhighs : Py.tail window (map Py.High df) = map Py.High (Py.tail window df)).
    { unfold Py.tail. rewrite length_map, skipn_map. reflexivity. }
    assert (Hlows : Py.tail window (map Py.Low df) = map Py.Low (Py.tail window df)).
    { unfold Py.tail. rewrite length_map, skipn_map. reflexivity. }
    rewrite Hhighs, Hlows.
    destruct (extremes_of_scores (map Py.High (Py.tail window df)))
      as (hi & hlo & Hmax & _ & (Hhi_in & _ & Hhi)).
    { destruct (Py.tail window df); [congruence | discriminate]. }
    destruct (extremes_of_scores (map Py.Low (Py.tail window df)))
      as (lhi & lo & _ & Hmin & (_ & Hlo_in & Hlo)).
    { destruct (Py.tail window df); [congruence | discriminate]. }
    rewrite Hmax, Hmin. exists lo, hi.
    split; [reflexivity |]. split; [reflexivity |].
    split; [exact Hhi_in |]. split; [exact Hlo_in |].
    assert (Hrows : forall row, In row (Py.tail window df) ->
                      lo <= Py.Low row /\ Py.High row <= hi).
    { intros row Hin. split.
      - apply (Hlo (Py.Low row)). apply in_map. exact Hin.
      - apply (Hhi (Py.High row)). apply in_map. exact Hin. }
    split; [exact Hrows |].
    split.
    { intros Hbar. destruct (Hrows last) as [H1 H2];
        [subst df; apply tail_last; exact Hw | lra]. }
    cbn [Py.fmul Py.fge Py.fle Py.fgt].
    py_cases; repeat split; intros; try discriminate; try reflexivity; try lra;
      try tauto;
      repeat match goal with
             | H : _ /\ _ |- _ => destruct H
             end; lra.
Qed.

Lemma breakout_detection_witness :
  exists levels : TechnicalAnalyst.support_resistance_t,
    TechnicalAnalyst.identify_support_resistance Fixtures.rising_history 2
    = Py.Returned levels /\
    TechnicalAnalyst.detect_breakout Fixtures.rising_history levels
    = TechnicalAnalyst.Breakout "resistance_breakout" "upward".
Proof.
  destruct (breakout_detection Fixtures.rising_history 2) as [_ Hlast]; [lia |].
  destruct (Hlast [Fixtures.day 100] (Fixtures.day 101) eq_refl)
    as (levels & Hrun & _ & _ & Hlong).
  exists levels. split; [exact Hrun |].
  destruct Hlong as (lo & hi & _ & _ & Hhi & _ & _ & _ & Hresistance & _);
    [cbn; lia |].
  apply Hresistance.
  destruct Hhi as [<- | [<- | []]]; apply Qle_bool_true; reflexivity.
Defined.

Section FloatScore.

(** The final clamp always yields a number within 0..100; a NaN becomes
    100. *)
Lemma float_clamp (x : Py.pyfloat) :
  exists q : Q,
    Py.fmax (Py.Finite 0) (Py.fmin (Py.Finite 100) x) = Py.Finite q /\
    0 <= q <= 100 /\
    (x = Py.NaN -> q = 100).
Proof.
  destruct x as [v | | |]; unfold Py.fmax, Py.fmin, Py.flt; cbn [Py.fgt].
  - unfold Py.gt. destruct (Qle_bool 100 v) eqn:E1; cbn [negb Py.fgt]; unfold Py.gt.
    + exists 100. split; [reflexivity |]. split; [lra | discriminate].
    + apply Qle_bool_false in E1.
      destruct (Qle_bool v 0) eqn:E2; cbn [negb].
      * exists 0. split; [reflexivity |]. split; [lra | discriminate].
      * apply Qle_bool_false in E2. exists v.
        split; [reflexivity |]. split; [lra | discriminate].
  - cbn. exists 100. split; [reflexivity |]. split; [lra | reflexivity].
  - cbn. exists 0. split; [reflexivity |]. split; [lra | discriminate].
  - cbn. exists 100. split; [reflexivity |]. split; [lra | reflexivity].
Qed.

Lemma if_finite (c : bool) (a b : Q) :
  (if c then Py.Finite a else Py.Finite b) = Py.Finite (if c then a else b).
Proof. destruct c; reflexivity. Qed.

Lemma fadd_nan_l (x : Py.pyfloat) : Py.fadd Py.NaN x = Py.NaN.
Proof. destruct x; reflexivity. Qed.

(** The score is a number within 0..100 whatever the indicators are. *)
Lemma technical_score_float_range (indicators : TechnicalAnalyst.float_indicators_t) :
  exists q : Q,
    TechnicalAnalyst.calculate_technical_score_float indicators = Py.Finite q /\
    0 <= q <= 100.
Proof.
  unfold TechnicalAnalyst.calculate_technical_score_float. cbv zeta.
  match goal with
  | |- context [Py.fmax (Py.Finite 0) (Py.fmin (Py.Finite 100) ?x)] =>
      destruct (float_clamp x) as (q & -> & Hq & _)
  end.
  exists q. split; [reflexivity | exact Hq].
Qed.

(** With an RSI of NaN the score is 100. *)
Lemma technical_score_float_nan (trend : string)
    (macd_hist price_position : Py.pyfloat) :
  TechnicalAnalyst.calculate_technical_score_float
    {| TechnicalAnalyst.fi_rsi := Py.NaN;
       TechnicalAnalyst.fi_trend := trend;
       TechnicalAnalyst.fi_macd_histogram := macd_hist;
       TechnicalAnalyst.fi_price_position := price_position |}
  = Py.Finite 100.
Proof.
  unfold TechnicalAnalyst.calculate_technical_score_float.
  cbn [TechnicalAnalyst.fi_rsi TechnicalAnalyst.fi_trend
       TechnicalAnalyst.fi_macd_histogram TechnicalAnalyst.fi_price_position].
  repeat match goal with
         | |- context [String.eqb ?a ?b] => destruct (String.eqb a b)
         end;
    destruct (Py.fgt macd_hist (Py.Finite 0));
    rewrite ?fadd_nan_l; reflexivity.
Qed.

End FloatScore.

(** X27. On the floats [analyze] passes in, [calculate_technical_score]
    always returns a finite number within 0..100, and on finite indicators it
    is the score of the finite model.  An RSI of NaN does not make the score
    undefined: the NaN loses every comparison, the final [min(100, ...)]
    keeps its first argument, and the score is 100, which [determine_bias]
    calls "Bullish", whatever the trend, the MACD histogram and the price
    position are. *)
Theorem technical_score_on_floats :
  forall (indicators : TechnicalAnalyst.float_indicators_t),
    let score := TechnicalAnalyst.calculate_technical_score_float indicators in
    (exists q : Q, score = Py.Finite q /\ 0 <= q <= 100) /\
    (forall rsi macd_hist price_position : Q,
       TechnicalAnalyst.fi_rsi indicators = Py.Finite rsi ->
       TechnicalAnalyst.fi_macd_histogram indicators = Py.Finite macd_hist ->
       TechnicalAnalyst.fi_price_position indicators = Py.Finite price_position ->
       score
       = Py.Finite
           (TechnicalAnalyst.calculate_technical_score
              {| TechnicalAnalyst.ind_rsi := Some rsi;
                 TechnicalAnalyst.ind_trend :=
                   Some (TechnicalAnalyst.fi_trend indicators);
                 TechnicalAnalyst.ind_macd_histogram := Some macd_hist;
                 TechnicalAnalyst.ind_price_position := Some price_position |})) /\
    (TechnicalAnalyst.fi_rsi indicators = Py.NaN ->
       score = Py.Finite 100 /\
       TechnicalAnalyst.determine_bias_float
         score (TechnicalAnalyst.fi_trend indicators)
         (TechnicalAnalyst.fi_rsi indicators) = "Bullish").
Proof.
  intros [rsi trend macd_hist price_position] score. subst score.
  cbn [TechnicalAnalyst.fi_rsi TechnicalAnalyst.fi_trend
       TechnicalAnalyst.fi_macd_histogram TechnicalAnalyst.fi_price_position].
  split; [| split].
  - apply technical_score_float_range.
  - intros r m p -> -> ->.
    unfold TechnicalAnalyst.calculate_technical_score_float,
           TechnicalAnalyst.calculate_technical_score.
    cbn [TechnicalAnalyst.fi_rsi TechnicalAnalyst.fi_trend
         TechnicalAnalyst.fi_macd_histogram TechnicalAnalyst.fi_price_position
         TechnicalAnalyst.ind_rsi TechnicalAnalyst.ind_trend
         TechnicalAnalyst.ind_macd_histogram TechnicalAnalyst.ind_price_position
         default from_option id].
    unfold Py.fle, Py.fge, Py.fmax, Py.fmin, Py.flt.
    repeat (cbn [Py.fgt Py.fsub Py.fneg Py.fadd Py.fmul Py.fround2];
            unfold Py.gt, Py.lt, Py.le;
            rewrite ?if_finite, ?negb_involutive).
    reflexivity.
  - intros ->. rewrite technical_score_float_nan. split; reflexivity.
Qed.

Lemma technical_score_on_floats_witness :
  TechnicalAnalyst.calculate_technical_score_float
    {| TechnicalAnalyst.fi_rsi := Py.NaN;
       TechnicalAnalyst.fi_trend := "Strong Downtrend";
       TechnicalAnalyst.fi_macd_histogram := Py.Finite (-1);
       TechnicalAnalyst.fi_price_position := Py.Finite 0 |}
  = Py.Finite 100.
Proof.
  destruct (technical_score_on_floats
              {| TechnicalAnalyst.fi_rsi := Py.NaN;
                 TechnicalAnalyst.fi_trend := "Strong Downtrend";
                 TechnicalAnalyst.fi_macd_histogram := Py.Finite (-1);
                 TechnicalAnalyst.fi_price_position := Py.Finite 0 |})
    as (_ & _ & Hnan).
  destruct (Hnan eq_refl) as [Hscore _]. exact Hscore.
Defined.

Section FrameAnalysis.

Lemma iloc_last_rows {A} (f : nat -> A) (n : nat) :
  Py.iloc_last (map f (seq 0 (S n))) = Py.Returned (f n).
Proof. rewrite seq_S, map_app. cbn [map]. apply iloc_last_snoc. Qed.

Lemma iloc_last_returns {A} (l : list A) :
  l <> [] -> exists x, Py.iloc_last l = Py.Returned x.
Proof.
  intros Hne. destruct (exists_last Hne) as (l' & x & ->).
  exists x. apply iloc_last_snoc.
Qed.

Lemma rsi_length (df : Py.DataFrame) (period : nat) :
  length (TechnicalAnalyst.calculate_rsi df period) = length df.
Proof. rewrite calculate_rsi_rows, length_map, length_seq. reflexivity. Qed.

Lemma rsi_last_short (df : Py.DataFrame) (period : nat) :
  df <> [] -> (length df < period)%nat ->
  Py.iloc_last (TechnicalAnalyst.calculate_rsi df period) = Py.Returned Py.NaN.
Proof.
  intros Hne Hshort. rewrite calculate_rsi_rows.
  destruct (length df) as [| n] eqn:Hn; [destruct df; [congruence | discriminate] |].
  rewrite iloc_last_rows.
  replace ((1 <=? period) && (period <=? n + 1))%nat with false; [reflexivity |].
  symmetry. apply andb_false_iff. right. apply Nat.leb_gt. lia.
Qed.

Lemma macd_histogram_length (df : Py.DataFrame) (fast slow signal_span : nat) :
  length (TechnicalAnalyst.histogram
            (TechnicalAnalyst.calculate_macd df fast slow signal_span))
  = length df.
Proof.
  unfold TechnicalAnalyst.calculate_macd. cbn [TechnicalAnalyst.histogram].
  assert (Hmacd : length (Py.series_sub (Py.ewm_mean fast (map Py.Close df))
                                         (Py.ewm_mean slow (map Py.Close df)))
                  = length df).
  { rewrite series_sub_length; rewrite !ewm_mean_length; [apply length_map | reflexivity]. }
  rewrite series_sub_length; rewrite ?ewm_mean_length; [exact Hmacd | reflexivity].
Qed.

Lemma determine_trend_returns (df : Py.DataFrame) :
  df <> [] ->
  exists trend : string,
    TechnicalAnalyst.determine_trend df
      (TechnicalAnalyst.calculate_moving_averages df TechnicalAnalyst.default_windows)
    = Py.Returned trend /\
    ((length df < 50)%nat -> trend = "Sideways").
Proof.
  intros Hne.
  assert (Hcloses : map Py.Close df <> []) by (destruct df; [congruence | discriminate]).
  destruct (iloc_last_returns _ Hcloses) as [price Hprice].
  destruct (moving_average_keys df) as [H20 H50]. cbv zeta in H20, H50.
  unfold TechnicalAnalyst.determine_trend.
  rewrite Hprice, H20, H50. cbn [Py.bind].
  rewrite !rolling_mean_last by exact Hcloses. cbn [Py.bind].
  rewrite length_map. eexists. split; [reflexivity |].
  intros Hfew.
  replace ((1 <=? 50) && (50 <=? length df))%nat with false
    by (symmetry; apply andb_false_iff; right; apply Nat.leb_gt; exact Hfew).
  unfold Py.flt.
  match goal with
  | |- context [Py.fgt (Py.Finite price) ?a] =>
      assert (Py.fgt a Py.NaN = false) as -> by (destruct a; reflexivity);
      assert (Py.fgt Py.NaN a = false) as -> by (destruct a; reflexivity)
  end.
  rewrite !andb_false_r. reflexivity.
Qed.

Lemma support_resistance_returns (df : Py.DataFrame) (window : nat) :
  df <> [] ->
  exists levels : TechnicalAnalyst.support_resistance_t,
    TechnicalAnalyst.identify_support_resistance df window = Py.Returned levels /\
    ((length df < window)%nat ->
       TechnicalAnalyst.support levels = Py.NaN /\
       TechnicalAnalyst.resistance levels = Py.NaN).
Proof.
  intros Hne.
  assert (Hcloses : map Py.Close df <> []) by (destruct df; [congruence | discriminate]).
  destruct (iloc_last_returns _ Hcloses) as [price Hprice].
  unfold TechnicalAnalyst.identify_support_resistance.
  rewrite Hprice. cbn [Py.bind]. unfold Py.rolling_max, Py.rolling_min.
  rewrite !rolling_extreme_last by (destruct df; [congruence | discriminate]).
  cbn [Py.bind]. eexists. split; [reflexivity |].
  cbn [TechnicalAnalyst.support TechnicalAnalyst.resistance].
  rewrite !length_map. intros Hshort.
  replace ((1 <=? window) && (window <=? length df))%nat with false
    by (symmetry; apply andb_false_iff; right; apply Nat.leb_gt; exact Hshort).
  split; reflexivity.
Qed.

End FrameAnalysis.

(** X28. On an empty frame the indicator pipeline of
    [TechnicalAnalyst.analyze] raises IndexError; on every other frame it
    returns, with a score within 0..100 and two or three insights, three
    exactly when a breakout is reported.  With fewer than 50 rows the trend
    is "Sideways" and the first insight reads "Price below 50-day MA"; with
    fewer than 20 rows no breakout is reported; and with fewer than 14 rows
    the RSI is NaN, the assessment "Neutral", the score 100 and the bias
    "Bullish". *)
Theorem technical_analysis_of_frame :
  forall (format_1f : Py.pyfloat -> string) (df : Py.DataFrame),
    (df = [] ->
       TechnicalAnalyst.analyze_frame format_1f df = Py.Raised "IndexError") /\
    (df <> [] ->
       exists result : TechnicalAnalyst.analysis_t,
         TechnicalAnalyst.analyze_frame format_1f df = Py.Returned result /\
         let indicators := TechnicalAnalyst.ta_indicators result in
         let insights := TechnicalAnalyst.ta_insights result in
         (exists q : Q,
            TechnicalAnalyst.ta_score result = Py.Finite q /\ 0 <= q <= 100) /\
         (2 <= length insights <= 3)%nat /\
         (length insights = 3%nat
          <-> TechnicalAnalyst.io_breakout indicators <> TechnicalAnalyst.NoBreakout) /\
         ((length df < 50)%nat ->
            TechnicalAnalyst.io_trend indicators = "Sideways" /\
            exists rest, insights = "Price below 50-day MA" :: rest) /\
         ((length df < 20)%nat ->
            TechnicalAnalyst.io_breakout indicators = TechnicalAnalyst.NoBreakout) /\
         ((length df < 14)%nat ->
            TechnicalAnalyst.io_rsi indicators = Py.NaN /\
            TechnicalAnalyst.io_overbought_oversold indicators = "Neutral" /\
            TechnicalAnalyst.ta_score result = Py.Finite 100 /\
            TechnicalAnalyst.ta_bias result = "Bullish")).
Proof.
  intros format_1f df. split; [intros ->; reflexivity |].
  intros Hne.
  assert (Hcloses : map Py.Close df <> []) by (destruct df; [congruence | discriminate]).
  destruct (support_resistance_returns df 20 Hne) as (levels & Hlevels & Hnan).
  destruct (determine_trend_returns df Hne) as (trend & Htrend & Hside).
  destruct (iloc_last_returns _ Hcloses) as [price Hprice].
  destruct (moving_average_keys df) as [H20 H50]. cbv zeta in H20, H50.
  pose proof (rsi_length df 14) as Hrsi_len.
  pose proof (rsi_last_short df 14 Hne) as Hrsi_short.
  pose proof (macd_histogram_length df 12 26 9) as Hhist_len.
  unfold TechnicalAnalyst.analyze_frame. cbv zeta.
  rewrite Hlevels, Htrend. cbn [Py.bind].
  unfold TechnicalAnalyst.assess_overbought_oversold.
  set (rsi := TechnicalAnalyst.calculate_rsi df 14) in *.
  set (macd_data := TechnicalAnalyst.calculate_macd df 12 26 9) in *.
  assert (Hrsi_ne : rsi <> []).
  { intros Hnil. rewrite Hnil in Hrsi_len. destruct df; [congruence | discriminate]. }
  assert (Hhist_ne : TechnicalAnalyst.histogram macd_data <> []).
  { intros Hnil. rewrite Hnil in Hhist_len. destruct df; [congruence | discriminate]. }
  destruct (iloc_last_returns _ Hrsi_ne) as [current_rsi Hcurrent].
  destruct (iloc_last_returns _ Hhist_ne) as [hist Hhist].
  assert (Hrsi_match :
            match rsi with
            | [] => Py.Returned (Py.Finite 50)
            | _ :: _ => Py.iloc_last rsi
            end = Py.Returned current_rsi).
  { destruct rsi; [congruence | exact Hcurrent]. }
  rewrite Hrsi_match, Hcurrent. cbn [Py.bind].
  assert (Hhist_match :
            match TechnicalAnalyst.histogram macd_data with
            | [] => Py.Returned 0
            | _ :: _ => Py.iloc_last (TechnicalAnalyst.histogram macd_data)
            end = Py.Returned hist).
  { destruct (TechnicalAnalyst.histogram macd_data); [congruence | exact Hhist]. }
  rewrite Hhist_match. cbn [Py.bind].
  rewrite H20, H50, Hprice. cbn [Py.bind].
  rewrite !rolling_mean_last by exact Hcloses. cbn [Py.bind app].
  rewrite length_map.
  eexists. split; [reflexivity |].
  cbn [TechnicalAnalyst.ta_indicators TechnicalAnalyst.ta_insights
       TechnicalAnalyst.ta_score TechnicalAnalyst.ta_bias
       TechnicalAnalyst.io_breakout TechnicalAnalyst.io_trend
       TechnicalAnalyst.io_rsi TechnicalAnalyst.io_overbought_oversold].
  split; [apply technical_score_float_range |].
  set (first_insight := if Py.fgt (Py.Finite price) _ then _ else _).
  assert (Hfirst : exists text : string, first_insight = [text] /\
                     ((length df < 50)%nat -> text = "Price below 50-day MA")).
  { subst first_insight.
    destruct (Nat.leb_spec 50 (length df)) as [Hmany | Hfew].
    - cbn [andb Nat.leb]. destruct (Py.fgt _ _); eexists; (split; [reflexivity | lia]).
    - replace ((1 <=? 50) && (50 <=? length df))%nat with false
        by (symmetry; apply andb_false_iff; right; apply Nat.leb_gt; exact Hfew).
      cbn [Py.fgt]. eexists. split; reflexivity. }
  destruct Hfirst as (text & -> & Htext).
  set (breakout := TechnicalAnalyst.detect_breakout df levels).
  assert (Hquiet : (length df < 20)%nat -> breakout = TechnicalAnalyst.NoBreakout).
  { intros Hshort. destruct (Hnan Hshort) as [Hs Hr].
    subst breakout. unfold TechnicalAnalyst.detect_breakout.
    rewrite Hs, Hr. reflexivity. }
  split; [destruct breakout; cbn [app length]; lia |].
  split.
  { destruct breakout; cbn [app length]; split; intros H;
      try discriminate; try congruence; try lia. }
  split.
  { intros Hfew. split; [apply Hside; exact Hfew |].
    rewrite (Htext Hfew). destruct breakout; cbn [app]; eexists; reflexivity. }
  split; [exact Hquiet |].
  intros Hshort.
  assert (Hnan_rsi : current_rsi = Py.NaN).
  { rewrite (Hrsi_short Hshort) in Hcurrent. congruence. }
  subst current_rsi.
  split; [reflexivity |]. split; [reflexivity |].
  rewrite technical_score_float_nan. split; reflexivity.
Qed.

Lemma technical_analysis_of_frame_witness :
  exists result : TechnicalAnalyst.analysis_t,
    TechnicalAnalyst.analyze_frame (fun _ => "nan") Fixtures.rising_history
    = Py.Returned result /\
    TechnicalAnalyst.ta_score result = Py.Finite 100 /\
    TechnicalAnalyst.ta_bias result = "Bullish" /\
    TechnicalAnalyst.io_trend (TechnicalAnalyst.ta_indicators result)
    = "Sideways" /\
    length (TechnicalAnalyst.ta_insights result) = 2%nat.
Proof.
  destruct (technical_analysis_of_frame (fun _ => "nan") Fixtures.rising_history)
    as [_ Hrows].
  destruct Hrows as (result & Hrun & _ & Hcount & Hthree & Hfifty & Htwenty
                     & Hfourteen); [discriminate |].
  exists result. split; [exact Hrun |].
  destruct Hfourteen as (_ & _ & Hscore & Hbias); [cbn; lia |].
  destruct Hfifty as [Htrend _]; [cbn; lia |].
  split; [exact Hscore |]. split; [exact Hbias |]. split; [exact Htrend |].
  assert (length (TechnicalAnalyst.ta_insights result) <> 3%nat) as Hnot3.
  { intros H3. apply Hthree in H3. apply H3. apply Htwenty. cbn. lia. }
  lia.
Defined.

(* ================================================================== *)
(** * Instances of the conditional properties *)
(* ================================================================== *)

Lemma fundamental_analyze_result_witness :
  let analysis :=
    FundamentalAnalyst.analyze (fun _ => Some Fixtures.strong_metrics) "ACME" in
  FundamentalAnalyst.fa_bias analysis
    = FundamentalAnalyst.determine_bias (FundamentalAnalyst.fa_score analysis) /\
  length (FundamentalAnalyst.fa_insights analysis) = 3%nat.
Proof.
  destruct (fundamental_analyze_result
              (fun _ => Some Fixtures.strong_metrics) "ACME")
    as (_ & Hmetrics & _).
  destruct Hmetrics as (Hbias & _ & _ & Hthree).
  - intros [H | H]; [discriminate H |].
    apply (f_equal (fun m => m ≫= (.!! "revenue_growth"))) in H.
    vm_compute in H. discriminate H.
  - split; [exact Hbias |].
    apply Hthree. exists Fixtures.strong_metrics. split; [reflexivity |].
    left. vm_compute. reflexivity.
Defined.

Lemma sentiment_metrics_consistent_witness :
  -1 <= SentimentAnalyst.average_sentiment
          (SentimentAnalyst.calculate_sentiment_metrics
             (fun _ => 0.5)
             [{| SentimentAnalyst.ni_title := "Record quarter";
                 SentimentAnalyst.ni_summary := None;
                 SentimentAnalyst.ni_date := 0;
                 SentimentAnalyst.ni_publisher := "Wire" |}])
     <= 1.
Proof.
  destruct (sentiment_metrics_consistent
              (fun _ => 0.5)
              [{| SentimentAnalyst.ni_title := "Record quarter";
                  SentimentAnalyst.ni_summary := None;
                  SentimentAnalyst.ni_date := 0;
                  SentimentAnalyst.ni_publisher := "Wire" |}])
    as (_ & _ & _ & _ & _ & _ & _ & Haverage).
  apply Haverage. intros text. split; apply Qle_bool_true; reflexivity.
Defined.

Lemma spike_detection_witness :
  let turn :=
    [{| SentimentAnalyst.te_date := 1; SentimentAnalyst.te_sentiment := -0.5;
        SentimentAnalyst.te_title := "Guidance cut" |};
     {| SentimentAnalyst.te_date := 2; SentimentAnalyst.te_sentiment := 0.5;
        SentimentAnalyst.te_title := "Record quarter" |}] in
  let calm :=
    [{| SentimentAnalyst.te_date := 1; SentimentAnalyst.te_sentiment := 0.25;
        SentimentAnalyst.te_title := "a" |};
     {| SentimentAnalyst.te_date := 2; SentimentAnalyst.te_sentiment := 0.5;
        SentimentAnalyst.te_title := "b" |}] in
  (exists magnitude,
     SentimentAnalyst.detect_sentiment_spike turn
     = Some (SentimentAnalyst.SpikeDetected
               "positive" magnitude (Some "Record quarter")) /\
     0.3 < magnitude) /\
  SentimentAnalyst.detect_sentiment_spike calm = Some SentimentAnalyst.NoSpike.
Proof.
  intros turn calm. split.
  - destruct (spike_detection turn) as (_ & Hdetected & _).
    eexists. split; [vm_compute; reflexivity |].
    eapply Hdetected. vm_compute. reflexivity.
  - destruct (spike_detection calm) as (_ & _ & Hband).
    apply (Hband 0.25 0.5).
    + cbn. lia.
    + apply Qle_bool_true. reflexivity.
    + apply Qle_bool_true. reflexivity.
    + intros entry [<- | [<- | []]]; cbn [SentimentAnalyst.te_sentiment];
        split; apply Qle_bool_true; reflexivity.
    + apply Qle_bool_true. reflexivity.
Defined.

Lemma position_size_cap_witness :
  0 <= RiskManager.suggest_position_size 20 (-12) 10000 0.02 <= 10000 * 0.25.
Proof.
  destruct (position_size_cap 20 (-12) 10000 0.02) as (_ & Hpositive & _).
  destruct Hpositive as [Hrange _];
    [reflexivity | reflexivity | apply Qle_bool_true; reflexivity | exact Hrange].
Defined.

Lemma stop_loss_levels_witness :
  exists levels : RiskManager.stop_loss_t,
    RiskManager.suggest_stop_loss Fixtures.rising_history 25 "atr"
    = Py.Returned levels /\
    RiskManager.stop_loss_percentage levels == 5 /\
    0 < RiskManager.stop_loss_price levels < 101.
Proof.
  destruct (stop_loss_levels Fixtures.rising_history 25 "atr") as [_ Hlast].
  destruct (Hlast [Fixtures.day 100] (Fixtures.day 101) eq_refl)
    as (levels & Hrun & Hdefault & _ & _ & _ & Hpositive).
  exists levels. split; [exact Hrun |].
  split; [apply Hdefault; discriminate |].
  apply Hpositive; [reflexivity | discriminate].
Defined.

Lemma recommendations_follow_risk_witness :
  RiskManager.generate_recommendations
    (RiskManager.assess_risk_level Py.NaN Py.NaN Py.NaN) Py.NaN Py.NaN
  = ["Risk levels acceptable"].
Proof.
  destruct (recommendations_follow_risk "Low" Py.NaN Py.NaN Py.NaN)
    as (_ & _ & _ & _ & _ & Hlow & _).
  apply Hlow. reflexivity.
Defined.

Lemma fetch_news_bounds_witness :
  SentimentAnalyst.fetch_news
    Fixtures.sample_news Fixtures.news_cutoff Fixtures.news_time "ACME" 7
  = [{| SentimentAnalyst.ni_title := "Record quarter";
        SentimentAnalyst.ni_summary := Some "";
        SentimentAnalyst.ni_date := 150;
        SentimentAnalyst.ni_publisher := "Wire" |}].
Proof.
  destruct (fetch_news_bounds
              Fixtures.sample_news Fixtures.news_cutoff Fixtures.news_time
              "ACME" 7) as (_ & _ & Hnews).
  destruct (Hnews _ eq_refl) as (_ & _ & Hrecent).
  destruct (Hrecent 100%Z eq_refl) as [Hitems _].
  - intros a _. eexists. reflexivity.
  - rewrite Hitems. reflexivity.
Defined.

Lemma sentiment_analyze_result_witness :
  let result :=
    SentimentAnalyst.analyze
      Fixtures.sample_news Fixtures.news_cutoff Fixtures.news_time
      Fixtures.upbeat (fun _ => "100.0") "ACME" 7 in
  SentimentAnalyst.sa_total_articles result = 1%Z /\
  65 <= SentimentAnalyst.sa_score result /\
  SentimentAnalyst.sa_insights result = ["100.0% positive mentions"].
Proof.
  destruct (sentiment_analyze_result
              Fixtures.sample_news Fixtures.news_cutoff Fixtures.news_time
              Fixtures.upbeat (fun _ => "100.0") "ACME" 7) as (_ & Hnews & _).
  destruct Hnews as (Htotal & _ & _ & Hbullish & _ & _ & Hfirst & _ & Htwo);
    [discriminate |].
  split; [exact Htotal |]. split; [apply Hbullish; reflexivity |].
  destruct (SentimentAnalyst.sa_insights _) as [| first [| second rest]]
    eqn:Hinsights.
  - discriminate Hfirst.
  - injection Hfirst as ->. reflexivity.
  - exfalso. destruct rest as [| third rest].
    + destruct (proj1 Htwo eq_refl) as (d & m & n & Hspike).
      vm_compute in Hspike. discriminate Hspike.
    + vm_compute in Hinsights. discriminate Hinsights.
Defined.

(* ================================================================== *)
(** * The decision assembled from the four agents *)
(* ================================================================== *)

Section Decision.

Lemma confidence_range (scores : list Q) (biases : list string) (c : Z) :
  DecisionEngine.calculate_confidence scores biases = Some c ->
  (35 <= c <= 95)%Z.
Proof.
  unfold DecisionEngine.calculate_confidence.
  destruct (Py.max_list scores) as [hi |]; [| discriminate].
  destruct (Py.min_list scores) as [lo |]; [| discriminate].
  cbn [mbind option_bind]. intros [= <-].
  repeat match goal with
         | |- context [if ?b then _ else _] => destruct b
         end; lia.
Qed.

Lemma confidence_of_scores (scores : list Q) (biases : list string) :
  scores <> [] ->
  exists c, DecisionEngine.calculate_confidence scores biases = Some c.
Proof.
  intros Hne. unfold DecisionEngine.calculate_confidence.
  destruct scores as [| x rest]; [congruence |]. cbn. eexists. reflexivity.
Qed.

(** Below 70 a Buy can only come from the conflict resolution. *)
Lemma buy_below_70 (combined_score : Q) (biases : list string) (risk_level : string) :
  combined_score < 70 ->
  fst (DecisionEngine.determine_recommendation combined_score biases risk_level)
  = "Buy" ->
  fst (DecisionEngine.resolve_conflicts biases risk_level) = "Buy".
Proof.
  intros Hlow. unfold DecisionEngine.determine_recommendation.
  destruct (DecisionEngine.resolve_conflicts biases risk_level) as [c reason].
  cbn [fst].
  py_cases; try lra;
    repeat match goal with
           | |- context [String.eqb ?a ?b] => destruct (String.eqb_spec a b)
           end; cbn [fst]; intros H; try discriminate H; exact H.
Qed.

Lemma recommendation_labels (combined_score : Q) (biases : list string)
    (risk_level : string) :
  In (fst (DecisionEngine.determine_recommendation combined_score biases risk_level))
     ["Buy"; "Hold"; "Sell"; "Avoid"].
Proof.
  pose proof (resolve_conflicts_values biases risk_level) as [Hhigh Hnormal].
  cbv zeta in Hhigh, Hnormal.
  unfold DecisionEngine.determine_recommendation.
  destruct (DecisionEngine.resolve_conflicts biases risk_level) as [c reason].
  cbn [fst] in *.
  assert (Hc : c = "Buy" \/ c = "Sell" \/ c = "Hold" \/ c = "Avoid").
  { destruct (decide (risk_level = "High")) as [-> | H1];
      [destruct (Hhigh (or_introl eq_refl)); tauto |].
    destruct (decide (risk_level = "Very High")) as [-> | H2];
      [destruct (Hhigh (or_intror eq_refl)); tauto |].
    destruct (Hnormal H1 H2) as [? | [? | ?]]; tauto. }
  py_cases;
    repeat match goal with
           | |- context [String.eqb ?a ?b] => destruct (String.eqb_spec a b)
           end; cbn [fst In];
    destruct Hc as [-> | [-> | [-> | ->]]]; tauto.
Qed.

(** With one label "Unknown" and two labels that name at most one direction
    each, the conflict resolution never says Buy. *)
Lemma no_buy_with_unknown (b1 b2 : string) (risk_level : string) :
  Spec.one_direction b1 -> Spec.one_direction b2 ->
  fst (DecisionEngine.resolve_conflicts ["Unknown"; b1; b2] risk_level) <> "Buy".
Proof.
  unfold Spec.one_direction, Spec.directions_in.
  unfold DecisionEngine.resolve_conflicts, Py.count_containing.
  cbn [List.filter].
  change (Py.contains "Bullish" "Unknown") with false.
  change (Py.contains "Bearish" "Unknown") with false.
  change (Py.contains "Neutral" "Unknown") with false.
  cbv iota.
  destruct (Py.contains "Bullish" b1), (Py.contains "Bearish" b1),
           (Py.contains "Neutral" b1), (Py.contains "Bullish" b2),
           (Py.contains "Bearish" b2), (Py.contains "Neutral" b2);
    cbn [Nat.add]; intros H1 H2; try lia;
    case_bool_decide; cbn; discriminate.
Qed.

End Decision.

(** X29. [DecisionEngine.analyze] raises when one of the four agents raises.
    When all four return, it returns a decision for the same symbol with a
    recommendation among Buy, Hold, Sell and Avoid, a confidence within
    35..95, and the risk score that [normalize_risk_score] gives the risk
    level.  From the fallback results of the four agents (fundamental score 0
    with bias "Unknown", sentiment 50.0 "Neutral", technical 50 "Unknown",
    risk level "Unknown") the decision is Sell, with a combined score of 35
    and a confidence of 55.  And whenever the fundamental result is its
    fallback, the decision is never Buy and the combined score at most 66,
    whatever the other analysts say with scores within 0..100 and labels
    naming at most one direction, under a risk level that is "Unknown" or
    comes from [assess_risk_level]. *)
Theorem decision_of_agent_results :
  forall (fundamental_analyze sentiment_analyze technical_analyze
            : string -> Py.outcome DecisionEngine.analyst_result)
         (risk_analyze : string -> Py.outcome DecisionEngine.risk_result)
         (symbol : string),
    let run :=
      DecisionEngine.analyze fundamental_analyze sentiment_analyze
                             technical_analyze risk_analyze symbol in
    (((exists e, fundamental_analyze symbol = Py.Raised e) \/
      (exists e, sentiment_analyze symbol = Py.Raised e) \/
      (exists e, technical_analyze symbol = Py.Raised e) \/
      (exists e, risk_analyze symbol = Py.Raised e)) ->
     exists e, run = Py.Raised e) /\
    (forall f s t r,
       fundamental_analyze symbol = Py.Returned f ->
       sentiment_analyze symbol = Py.Returned s ->
       technical_analyze symbol = Py.Returned t ->
       risk_analyze symbol = Py.Returned r ->
       exists decision : DecisionEngine.decision_t,
         run = Py.Returned decision /\
         DecisionEngine.dec_symbol decision = symbol /\
         In (DecisionEngine.dec_recommendation decision)
            ["Buy"; "Hold"; "Sell"; "Avoid"] /\
         (35 <= DecisionEngine.dec_confidence decision <= 95)%Z /\
         DecisionEngine.of_risk (DecisionEngine.dec_agent_scores decision)
         = DecisionEngine.normalize_risk_score (DecisionEngine.risk_level r) /\
         (DecisionEngine.score f = 0 -> DecisionEngine.bias f = "Unknown" ->
          DecisionEngine.score s = 50.0 -> DecisionEngine.bias s = "Neutral" ->
          DecisionEngine.score t = 50 -> DecisionEngine.bias t = "Unknown" ->
          DecisionEngine.risk_level r = "Unknown" ->
          DecisionEngine.dec_recommendation decision = "Sell" /\
          DecisionEngine.dec_combined_score decision == 35 /\
          DecisionEngine.dec_confidence decision = 55%Z) /\
         (DecisionEngine.score f = 0 -> DecisionEngine.bias f = "Unknown" ->
          0 <= DecisionEngine.score s <= 100 ->
          0 <= DecisionEngine.score t <= 100 ->
          Spec.one_direction (DecisionEngine.bias s) ->
          Spec.one_direction (DecisionEngine.bias t) ->
          (DecisionEngine.risk_level r = "Unknown" \/
           exists volatility max_drawdown sharpe_ratio,
             DecisionEngine.risk_level r
             = RiskManager.assess_risk_level volatility max_drawdown sharpe_ratio) ->
          DecisionEngine.dec_recommendation decision <> "Buy" /\
          DecisionEngine.dec_combined_score decision <= 66)).
Proof.
  intros fa sa ta ra symbol run. subst run. unfold DecisionEngine.analyze.
  split.
  - intros Hraise.
    destruct (fa symbol) as [f | e1]; [| exists e1; reflexivity].
    destruct (sa symbol) as [s | e2]; [| exists e2; reflexivity].
    destruct (ta symbol) as [t | e3]; [| exists e3; reflexivity].
    destruct (ra symbol) as [r | e4]; [| exists e4; reflexivity].
    destruct Hraise as [[e H] | [[e H] | [[e H] | [e H]]]]; discriminate H.
  - intros f s t r -> -> -> ->. cbn [Py.bind].
    set (risk_score := DecisionEngine.normalize_risk_score (DecisionEngine.risk_level r)).
    set (scores := [DecisionEngine.score f; DecisionEngine.score s;
                    DecisionEngine.score t; risk_score]).
    set (biases := [DecisionEngine.bias f; DecisionEngine.bias s;
                    DecisionEngine.bias t]).
    set (combined := DecisionEngine.combine_scores
                       (DecisionEngine.score f) (DecisionEngine.score s)
                       (DecisionEngine.score t) risk_score).
    pose proof (recommendation_labels combined biases (DecisionEngine.risk_level r))
      as Hlabels.
    pose proof (buy_below_70 combined biases (DecisionEngine.risk_level r)) as Hbuy.
    destruct (DecisionEngine.determine_recommendation
                combined biases (DecisionEngine.risk_level r))
      as [recommendation reason] eqn:Hrec.
    cbn [fst] in Hlabels, Hbuy.
    destruct (confidence_of_scores scores biases ltac:(discriminate)) as [c Hc].
    rewrite Hc. pose proof (confidence_range scores biases c Hc) as Hrange.
    eexists. split; [reflexivity |].
    cbn [DecisionEngine.dec_symbol DecisionEngine.dec_recommendation
         DecisionEngine.dec_confidence DecisionEngine.dec_combined_score
         DecisionEngine.dec_agent_scores DecisionEngine.of_risk].
    split; [reflexivity |]. split; [exact Hlabels |]. split; [exact Hrange |].
    split; [reflexivity |]. split.
    + intros Hf Hbf Hs Hbs Ht Hbt Hr.
      subst combined scores biases risk_score.
      rewrite Hf, Hbf, Hs, Hbs, Ht, Hbt, Hr in *.
      vm_compute in Hrec. vm_compute in Hc.
      injection Hrec as <- _. injection Hc as <-.
      split; [reflexivity |]. split; [| reflexivity].
      apply Qeq_bool_eq. vm_compute. reflexivity.
    + intros Hf Hbf Hs Ht Hos Hot Hlevel.
      assert (Hin : In (DecisionEngine.risk_level r)
                       ["Low"; "Moderate"; "High"; "Very High"; "Unknown"]).
      { destruct Hlevel as [-> | (v & d & sh & ->)]; [cbn; tauto |].
        pose proof (assess_risk_level_values v d sh) as H. cbn in H |- *. tauto. }
      pose proof (pipeline_risk_score_range _ Hin) as Hrisk. fold risk_score in Hrisk.
      assert (Hcombined : combined <= 66).
      { subst combined. unfold DecisionEngine.combine_scores.
        cbn [DecisionEngine.weights DecisionEngine.w_fundamental
             DecisionEngine.w_sentiment DecisionEngine.w_technical
             DecisionEngine.w_risk].
        rewrite Hf.
        apply (round2_bounds 4 66).
        change (inject_Z 4) with 4. change (inject_Z 66) with 66. lra. }
      split; [| exact Hcombined].
      intros Hb. apply Hbuy in Hb; [| lra].
      subst biases. rewrite Hbf in Hb.
      exact (no_buy_with_unknown _ _ _ Hos Hot Hb).
Qed.

Lemma decision_of_agent_results_witness :
  let fundamental :=
    {| DecisionEngine.score := 0; DecisionEngine.bias := "Unknown";
       DecisionEngine.analysis := Fixtures.fundamental_unavailable |} in
  let sentiment :=
    {| DecisionEngine.score := 50.0; DecisionEngine.bias := "Neutral";
       DecisionEngine.analysis := Fixtures.sentiment_no_news |} in
  let technical :=
    {| DecisionEngine.score := 50; DecisionEngine.bias := "Unknown";
       DecisionEngine.analysis := Fixtures.technical_no_data |} in
  let risk :=
    {| DecisionEngine.risk_level := "Unknown";
       DecisionEngine.risk_details := Py.PyDict [] |} in
  exists decision : DecisionEngine.decision_t,
    DecisionEngine.analyze
      (fun _ => Py.Returned fundamental) (fun _ => Py.Returned sentiment)
      (fun _ => Py.Returned technical) (fun _ => Py.Returned risk) "ACME"
    = Py.Returned decision /\
    DecisionEngine.dec_symbol decision = "ACME" /\
    DecisionEngine.dec_recommendation decision = "Sell" /\
    DecisionEngine.dec_combined_score decision == 35 /\
    DecisionEngine.dec_confidence decision = 55%Z.
Proof.
  intros fundamental sentiment technical risk.
  destruct (decision_of_agent_results
              (fun _ => Py.Returned fundamental) (fun _ => Py.Returned sentiment)
              (fun _ => Py.Returned technical) (fun _ => Py.Returned risk)
              "ACME") as [_ Hreturn].
  destruct (Hreturn fundamental sentiment technical risk
                    eq_refl eq_refl eq_refl eq_refl)
    as (decision & Hrun & Hsymbol & _ & _ & _ & Hfallback & _).
  exists decision. split; [exact Hrun |]. split; [exact Hsymbol |].
  apply Hfallback; reflexivity.
Defined.
